(** * PCO-Integrator: the snapshot sequence of [GUI.py]

    A shallow embedding of the three pieces of logic of [src/GUI.py]:
    the loading of the plan times ([App.on_load_plan_times]), the
    construction of the preview rows ([App._collect_preview_rows]) and
    the loop that drives the console ([App.on_send]), with the
    properties of the specification proved about them.

    Conventions of the embedding.
    - A Python [str] is a [string] whose characters are code points
      below 256; comparison is by code point, as in Python.
    - A Python [int] is a [Z].
    - A JSON resource is a record holding the fields the code reads; a
      field whose value the code only tests or compares is an
      [option], [None] standing for an absent key or a JSON [null].
      A key on whose value the code goes on with [.get] is a
      [member]: absent, an object, or a value without [.get], [null]
      among them, on which the call raises.
    - A call that raises is an [outcome] carrying the exception. *)

From Stdlib Require Import ZArith String Ascii List Bool Lia.
From Stdlib Require Import Sorted Permutation OrderedTypeEx DecimalString.
From Stdlib Require DecimalPos DecimalZ.
From stdpp Require Import base option list gmap strings.

Open Scope string_scope.
Open Scope list_scope.
Open Scope Z_scope.

(** ** Python values *)

Inductive exn : Type :=
| AttributeError
| TypeError.

Inductive outcome (A : Type) : Type :=
| Returned (a : A)
| Raised (e : exn).

Arguments Returned {A} a.
Arguments Raised {A} e.

#[global] Instance exn_eq_dec : EqDecision exn.
Proof. solve_decision. Defined.

#[global] Instance outcome_eq_dec {A : Type} `{EqDecision A} : EqDecision (outcome A).
Proof. solve_decision. Defined.

(** A loop whose body may raise: the exception ends it. *)
Fixpoint foldl_raising {A B : Type} (f : A -> B -> outcome A) (a : A) (l : list B)
  : outcome A :=
  match l with
  | [] => Returned a
  | x :: l' =>
      match f a x with
      | Returned a' => foldl_raising f a' l'
      | Raised e => Raised e
      end
  end.

(** [x or y] on a value that is a [str] or [None]. *)
Definition str_or (x : option string) (y : string) : string :=
  match x with
  | Some (String c s) => String c s
  | _ => y
  end.

(** [bool(x)] on a value that is a [str] or [None]. *)
Definition truthy (x : option string) : bool :=
  match x with
  | Some (String _ _) => true
  | _ => false
  end.

(** [str.isspace] on one character below 256. *)
Definition isspace (c : ascii) : bool :=
  let n := nat_of_ascii c in
  ((9 <=? n)%nat && (n <=? 13)%nat) || ((28 <=? n)%nat && (n <=? 32)%nat)
  || (n =? 133)%nat || (n =? 160)%nat.

(** The characters [int] skips around a numeral: the C [isspace] set,
    and the two spaces above 127, which it first rewrites to [" "]. *)
Definition int_isspace (c : ascii) : bool :=
  let n := nat_of_ascii c in
  ((9 <=? n)%nat && (n <=? 13)%nat) || (n =? 32)%nat
  || (n =? 133)%nat || (n =? 160)%nat.

Fixpoint lstrip_by (sp : ascii -> bool) (s : string) : string :=
  match s with
  | String c s' => if sp c then lstrip_by sp s' else s
  | EmptyString => EmptyString
  end.

Fixpoint rstrip_by (sp : ascii -> bool) (s : string) : string :=
  match s with
  | EmptyString => EmptyString
  | String c s' =>
      match rstrip_by sp s' with
      | EmptyString => if sp c then EmptyString else String c EmptyString
      | r => String c r
      end
  end.

(** [s.strip()] *)
Definition strip (s : string) : string := rstrip_by isspace (lstrip_by isspace s).

(** [s.replace(a, b)] for one-character [a] and [b]. *)
Fixpoint replace (a b : ascii) (s : string) : string :=
  match s with
  | EmptyString => EmptyString
  | String c s' => String (if Ascii.eqb c a then b else c) (replace a b s')
  end.

Definition digit_val (c : ascii) : option Z :=
  let n := nat_of_ascii c in
  if ((48 <=? n)%nat && (n <=? 57)%nat) then Some (Z.of_nat (n - 48)) else None.

(** Decimal digits, a single ["_"] allowed between two digits.  The
    result is the value read and the number of digits. *)
Fixpoint parse_digits (acc : Z) (count : nat) (prev_digit : bool) (s : string)
  : option (Z * nat) :=
  match s with
  | EmptyString => if prev_digit then Some (acc, count) else None
  | String c s' =>
      if Ascii.eqb c "_"
      then (if prev_digit then parse_digits acc count false s' else None)
      else match digit_val c with
           | Some d => parse_digits (10 * acc + d) (S count) true s'
           | None => None
           end
  end.

(** CPython's default [sys.get_int_max_str_digits()]. *)
Definition int_max_str_digits : nat := 4300.

Definition parse_unsigned (s : string) : option Z :=
  match parse_digits 0 0%nat false s with
  | Some (v, n) => if (int_max_str_digits <? n)%nat then None else Some v
  | None => None
  end.

(** [int(s)] for a [str] in base 10; [None] is [ValueError]. *)
Definition py_int (s : string) : option Z :=
  match rstrip_by int_isspace (lstrip_by int_isspace s) with
  | String "-" r => Z.opp <$> parse_unsigned r
  | String "+" r => parse_unsigned r
  | t => parse_unsigned t
  end.

(** ** [list.sort] and [sorted]

    Python's sort is stable and compares keys with [<] only.  The
    embedding is the insertion sort that places an element before the
    first one that is not smaller. *)

Section PySort.
Context {A K : Type} (key : A -> K).

Section Total.
Variable ltb : K -> K -> bool.

Fixpoint insort (x : A) (l : list A) : list A :=
  match l with
  | [] => [x]
  | y :: l' => if ltb (key y) (key x) then y :: insort x l' else x :: l
  end.

Fixpoint list_sort (l : list A) : list A :=
  match l with
  | [] => []
  | x :: l' => insort x (list_sort l')
  end.
End Total.

Section Raising.
(** The comparison may raise, and the sort with it. *)
Variable lt : K -> K -> outcome bool.

Fixpoint insort_raising (x : A) (l : list A) : outcome (list A) :=
  match l with
  | [] => Returned [x]
  | y :: l' =>
      match lt (key y) (key x) with
      | Raised e => Raised e
      | Returned true =>
          match insort_raising x l' with
          | Returned r => Returned (y :: r)
          | Raised e => Raised e
          end
      | Returned false => Returned (x :: l)
      end
  end.

Fixpoint sorted (l : list A) : outcome (list A) :=
  match l with
  | [] => Returned []
  | x :: l' =>
      match sorted l' with
      | Returned r => insort_raising x r
      | Raised e => Raised e
      end
  end.
End Raising.
End PySort.

(** ** [datetime]

    [wall] is the reading of the clock in microseconds since
    0001-01-01T00:00:00; [utcoffset] is [None] for a naive value and the
    offset east of UTC, in microseconds, for an aware one. *)

Record datetime : Type := { wall : Z; utcoffset : option Z }.

(** [datetime.max], 9999-12-31T23:59:59.999999, naive. *)
Definition datetime_max : datetime :=
  {| wall := 315537897599999999; utcoffset := None |}.

(** [a < b]: naive values compare by clock reading, aware ones by UTC
    instant, and a naive with an aware one raises [TypeError]. *)
Definition datetime_lt (a b : datetime) : outcome bool :=
  match utcoffset a, utcoffset b with
  | None, None => Returned (wall a <? wall b)
  | Some oa, Some ob => Returned (wall a - oa <? wall b - ob)
  | _, _ => Raised TypeError
  end.

(** [x or datetime.max]: a [datetime] is always true. *)
Definition datetime_or_max (x : option datetime) : datetime :=
  match x with
  | Some d => d
  | None => datetime_max
  end.

(** ** The planning data

    The resources of the JSON:API documents, with the fields the code
    reads.  [r_type] is [it.get("type")] and [exclude] the truth value
    of [attributes.get("exclude", False)]; ids are strings or
    [null]. *)

(** What a key holds where the code goes on with [.get]: nothing (the
    key is not there, and [.get(key, {})] gives [{}]), a value without
    [.get] ([null], a string, a list), or an object. *)
Inductive member (A : Type) : Type :=
| Missing
| NotObject
| Object (a : A).

Arguments Missing {A}.
Arguments NotObject {A}.
Arguments Object {A} a.

(** A to-one relationship, [{"data": {"type": ..., "id": ...}}]:
    what its key ["data"] holds and, for an object, what
    [.get("id")] gives on it.  An empty relationship is
    [{"data": null}]. *)
Record Relationship : Type := {
  rel_data : member (option string)
}.

(** The [relationships] of an item time. *)
Record Relationships : Type := {
  rs_plan_time : member Relationship;
  rs_item : member Relationship
}.

Record PlanTimeResource : Type := {
  pt_id : string;
  pt_name : option string;
  pt_starts_at : option string
}.

Record ItemTime : Type := {
  r_type : option string;
  relationships : member Relationships;
  live_start_at : option string;
  starts_at : option string;
  exclude : bool
}.

(** [m.get("data", {}).get("id")] on what [.get(key, {})] gave. *)
Definition related_id (m : member Relationship) : outcome (option string) :=
  match m with
  | Missing => Returned None
  | NotObject => Raised AttributeError
  | Object r =>
      match rel_data r with
      | Missing => Returned None
      | NotObject => Raised AttributeError
      | Object id => Returned id
      end
  end.

(** [it.get("relationships", {}).get(key, {}).get("data", {}).get("id")] *)
Definition relationship_id (pick : Relationships -> member Relationship)
  (it : ItemTime) : outcome (option string) :=
  match relationships it with
  | Missing => Returned None
  | NotObject => Raised AttributeError
  | Object rs => related_id (pick rs)
  end.

(** Lines 558-559. *)
Definition rel_plan_time (it : ItemTime) : outcome (option string) :=
  relationship_id rs_plan_time it.

(** Line 579. *)
Definition rel_item (it : ItemTime) : outcome (option string) :=
  relationship_id rs_item it.

Record PlanItem : Type := {
  p_id : string;
  item_type : option string;
  title : option string
}.

(** The items document: its [included] list ([[]] when the key is
    absent) and its [data] list. *)
Record ItemsDoc : Type := {
  included : list ItemTime;
  data : list PlanItem
}.

(** The plan-times document: its [data] list, [None] when the document
    is empty or has no such key. *)
Record TimesDoc : Type := {
  times : option (list PlanTimeResource)
}.

(** A preview row, [{"seq", "name", "snap_index"}]. *)
Record Row : Type := {
  name : string;
  snap_index : Z;
  seq : Z
}.

(** An entry of [self.plan_times]: [(id, label, starts_at_dt)]. *)
Definition PlanTime : Type := string * string * option datetime.

(** ** The application state

    An instance attribute is either not there yet or assigned; the
    value assigned may be Python's [None]. *)

Inductive attr (A : Type) : Type :=
| Unset
| Assigned (a : A).

Arguments Unset {A}.
Arguments Assigned {A} a.

Definition hasattr {A : Type} (x : attr A) : bool :=
  match x with
  | Unset => false
  | Assigned _ => true
  end.

Record App : Type := {
  items_data : attr (option ItemsDoc);
  times_data : attr (option TimesDoc);
  plan_times : list PlanTime;
  preview_rows : list Row;
  lst_times : list string;          (* the rows of the listbox *)
  curselection : list nat;          (* its selected indices, ascending *)
  chk_has_existing : bool;
  var_existing_count : string;
  btn_preview : bool                (* the state of the button is "normal" *)
}.

(** The state [App.__init__] leaves (lines 163-172, 264-278 and
    286). *)
Definition __init__ : App := {|
  items_data := Assigned None;
  times_data := Assigned None;
  plan_times := [];
  preview_rows := [];
  lst_times := [];
  curselection := [];
  chk_has_existing := false;
  var_existing_count := "0";
  btn_preview := false
|}.

(** ** Loading the plan times ([App.on_load_plan_times], lines 482-513)

    [datetime.fromisoformat] and [format_time_label] are taken as they
    come: the first gives [None] where the library raises. *)

Section LoadPlanTimes.
Variable fromisoformat : string -> option datetime.
Variable format_time_label : option string -> option string -> string.

(** [s[:-1] + "+00:00" if s.endswith("Z") else s] *)
Fixpoint utc_suffix (s : string) : string :=
  match s with
  | EmptyString => EmptyString
  | String c EmptyString => if Ascii.eqb c "Z" then "+00:00" else String c EmptyString
  | String c s' => String c (utc_suffix s')
  end.

(** Lines 487-495: [None] for a missing, empty or malformed
    [starts_at]. *)
Definition starts_at_dt (s : option string) : option datetime :=
  match s with
  | Some (String c r) => fromisoformat (utc_suffix (String c r))
  | _ => None
  end.

Definition plan_time_of (pt : PlanTimeResource) : PlanTime :=
  (pt_id pt,
   format_time_label (pt_name pt) (pt_starts_at pt),
   starts_at_dt (pt_starts_at pt)).

(** Lines 483-499: one entry per record, or the default entry. *)
Definition load_plan_times (ts : list PlanTimeResource) : list PlanTime :=
  match map plan_time_of ts with
  | [] => [("default", "(default)", None)]
  | l => l
  end.

Definition instant_key (x : PlanTime) : datetime := datetime_or_max x.2.

Definition shown_label (x : PlanTime) : string := str_or (Some x.1.2) "(default)".

(** Lines 502-503: the rows put in the listbox. *)
Definition listbox_rows (pts : list PlanTime) : outcome (list string) :=
  match sorted instant_key datetime_lt pts with
  | Returned l => Returned (map shown_label l)
  | Raised e => Raised e
  end.

(** [needle in s] *)
Fixpoint contains (needle s : string) : bool :=
  String.prefix needle s
  || match s with
     | EmptyString => false
     | String _ s' => contains needle s'
     end.

(** Lines 506-508. *)
Definition preselect (rows : list string) : list nat :=
  map fst (filter (fun ir : nat * string => contains "9:00 AM" ir.2 = true)
             (imap (fun i r => (i, r)) rows)).

(** The task of [on_load_plan_times] once the two documents are
    fetched: the state it leaves and the exception that ended it, if
    any.  The listbox is emptied (line 501) before [sorted] runs, and
    the button [Preview Snapshots] is enabled (line 510) after it. *)
Definition on_load_plan_times (self : App) (items : ItemsDoc) (tdoc : TimesDoc)
  : App * option exn :=
  let pts := load_plan_times (default [] (times tdoc)) in
  match listbox_rows pts with
  | Raised e =>
      ({| items_data := Assigned (Some items);
          times_data := Assigned (Some tdoc);
          plan_times := pts;
          preview_rows := preview_rows self;
          lst_times := [];
          curselection := [];
          chk_has_existing := chk_has_existing self;
          var_existing_count := var_existing_count self;
          btn_preview := btn_preview self |}, Some e)
  | Returned rows =>
      ({| items_data := Assigned (Some items);
          times_data := Assigned (Some tdoc);
          plan_times := pts;
          preview_rows := [];
          lst_times := rows;
          curselection := preselect rows;
          chk_has_existing := chk_has_existing self;
          var_existing_count := var_existing_count self;
          btn_preview := true |}, None)
  end.
End LoadPlanTimes.

(** ** Building the preview rows ([App._collect_preview_rows]) *)

(** Line 529; [Listbox.get] gives [""] out of range. *)
Definition selected_time_labels (self : App) : list string :=
  map (fun i => default "" (lst_times self !! i)) (curselection self).

(** [label or "(default)"] *)
Definition label_key (label : string) : string := str_or (Some label) "(default)".

(** Lines 532-535: [setdefault(key, []).append(tid)] over the plan
    times. *)
Definition time_id_by_label (pts : list PlanTime) : gmap string (list string) :=
  foldl (fun m (pt : PlanTime) =>
           let key := label_key pt.1.2 in
           <[key := default [] (m !! key) ++ [pt.1.1]]> m)
        ∅ pts.

(** [time_id_by_label.get(lbl or "(default)", [])] *)
Definition ids_of (m : gmap string (list string)) (lbl : string) : list string :=
  default [] (m !! label_key lbl).

(** Lines 537-539. *)
Definition selected_time_ids (m : gmap string (list string)) (labels : list string)
  : list string :=
  foldl (fun acc lbl => acc ++ ids_of m lbl) [] labels.

(** Lines 542-549. *)
Definition snapshot_offset (has_existing : bool) (count : string) : Z :=
  let existing_count :=
    match py_int (str_or (Some (strip count)) "0") with
    | Some n => n
    | None => 0
    end in
  let existing_count := if existing_count <? 0 then 0 else existing_count in
  if has_existing then existing_count else 0.

(** Line 554. *)
Definition by_time_init (ids : list string) : gmap string (list ItemTime) :=
  foldl (fun m tid => <[tid := []]> m) ∅ ids.

(** Lines 556-561, one turn of the loop: a relationship that cannot
    be read raises. *)
Definition by_time_add (bt : gmap string (list ItemTime)) (it : ItemTime)
  : outcome (gmap string (list ItemTime)) :=
  if negb (bool_decide (r_type it = Some "ItemTime")) then Returned bt
  else match rel_plan_time it with
       | Raised e => Raised e
       | Returned (Some tid) =>
           match bt !! tid with
           | Some arr => Returned (<[tid := arr ++ [it]]> bt)
           | None => Returned bt
           end
       | Returned None => Returned bt
       end.

Definition by_time (ids : list string) (incl : list ItemTime)
  : outcome (gmap string (list ItemTime)) :=
  foldl_raising by_time_add (by_time_init ids) incl.

(** Lines 568-570: the sort key of an item time. *)
Definition ordering_key (it : ItemTime) : string :=
  str_or (live_start_at it) (str_or (starts_at it) "").

(** [sequences] holds the lists of [by_time] themselves, not copies:
    an entry is the key of the list it shares, or a list of its own
    when [by_time.get] fell back on [[]]. *)
Inductive listref : Type :=
| InByTime (tid : string)
| Fresh.

Definition deref (bt : gmap string (list ItemTime)) (r : listref) : list ItemTime :=
  match r with
  | InByTime tid => default [] (bt !! tid)
  | Fresh => []
  end.

(** Lines 567-571, one turn of the inner loop: [arr.sort] sorts the
    shared list in place. *)
Definition sort_bucket (lbl : string)
  (st : gmap string (list ItemTime) * list (string * listref)) (tid : string)
  : gmap string (list ItemTime) * list (string * listref) :=
  match st.1 !! tid with
  | Some arr =>
      (<[tid := list_sort ordering_key String.ltb arr]> st.1,
       st.2 ++ [(lbl, InByTime tid)])
  | None => (st.1, st.2 ++ [(lbl, Fresh)])
  end.

(** Lines 563-571. *)
Definition build_sequences (m : gmap string (list string))
  (bt : gmap string (list ItemTime)) (labels : list string)
  : gmap string (list ItemTime) * list (string * listref) :=
  foldl (fun st lbl => foldl (sort_bucket lbl) st (ids_of m lbl)) (bt, []) labels.

(** Line 582: the first plan item with that id. *)
Definition lookup_item (plan_items : list PlanItem) (item_id : string)
  : option PlanItem :=
  List.find (fun p => String.eqb (p_id p) item_id) plan_items.

(** [item_type in ("item", "song")] *)
Definition is_cue_type (t : option string) : bool :=
  bool_decide (t = Some "item") || bool_decide (t = Some "song").

Definition dquote : ascii := "034"%char.
Definition squote : ascii := "039"%char.

(** Line 589. *)
Definition cue_name (item : PlanItem) : string :=
  replace dquote squote (str_or (title item) "Untitled Cue").

(** Lines 576-590, one turn of the inner loop: [rows] holds the
    [{"name": title}] dictionaries, here their names.  The
    relationship of an excluded item time is not read; one that cannot
    be read raises. *)
Definition collect_row (plan_items : list PlanItem) (rows : list string) (it : ItemTime)
  : outcome (list string) :=
  if exclude it then Returned rows
  else match rel_item it with
       | Raised e => Raised e
       | Returned (Some (String c r)) =>
           match lookup_item plan_items (String c r) with
           | Some item =>
               if is_cue_type (item_type item)
               then Returned (rows ++ [cue_name item])
               else Returned rows
           | None => Returned rows
           end
       | Returned _ => Returned rows
       end.

(** Lines 573-590. *)
Definition collect_rows (plan_items : list PlanItem)
  (bt : gmap string (list ItemTime)) (sequences : list (string * listref))
  : outcome (list string) :=
  foldl_raising (fun rows (s : string * listref) =>
                   foldl_raising (collect_row plan_items) rows (deref bt s.2))
                [] sequences.

(** Lines 592-594. *)
Definition number_rows (offset : Z) (names : list string) : list Row :=
  imap (fun i nm => {| name := nm;
                        snap_index := offset + Z.of_nat i;
                        seq := Z.of_nat i + 1 |}) names.

Definition load_first : string := "Load plan times first.".
Definition select_first : string := "Select at least one plan time.".

Definition _collect_preview_rows (self : App)
  : outcome (list Row * Z * option string) :=
  if negb (hasattr (items_data self)) || negb (hasattr (times_data self))
  then Returned ([], 0, Some load_first)
  else
    match curselection self with
    | [] => Returned ([], 0, Some select_first)
    | _ =>
        let labels := selected_time_labels self in
        let m := time_id_by_label (plan_times self) in
        let ids := selected_time_ids m labels in
        let offset :=
          snapshot_offset (chk_has_existing self) (var_existing_count self) in
        match items_data self with
        | Assigned (Some doc) =>
            match by_time ids (included doc) with
            | Raised e => Raised e
            | Returned bt =>
                let st := build_sequences m bt labels in
                match collect_rows (data doc) st.1 st.2 with
                | Raised e => Raised e
                | Returned rows => Returned (number_rows offset rows, offset, None)
                end
            end
        | _ => Raised AttributeError
        end
    end.

(** ** Sending the snapshots ([App.on_send], lines 645-659)

    The socket is a state of the world and [send_message] a step on
    it that may raise an [Exception], here its message.  The task
    leaves a trace: every call of [send_message] with its outcome,
    every [time.sleep] and every line logged. *)

Inductive payload : Type :=
| PInt (n : Z)
| PStr (s : string).

Inductive event : Type :=
| Send (address : string) (arg : payload) (raised : option string)
| Sleep (ms : Z)
| LogSnapshot (snap_index : Z) (name : string)
| LogOscError (snap_index : Z) (e : string)
| LogDone (created : Z).

(** [str(n)] *)
Definition str_of_int (n : Z) : string := NilZero.string_of_int (Z.to_int n).

Definition new_snapshot_address (snap_index : Z) : string :=
  String.append "/Snapshots/New_Snapshot/" (str_of_int snap_index).

Definition rename_snapshot_address (snap_index : Z) : string :=
  String.append "/Snapshots/Rename_Snapshot/" (str_of_int snap_index).

Declare Scope task_scope.

Section Emitter.
Variable World : Type.
Variable send_message : string -> payload -> World -> World * option string.

(** A computation on the world and the trace that returns or
    raises. *)
Definition M (A : Type) : Type :=
  World * list event -> (World * list event) * (A + string).

Definition ret {A : Type} (a : A) : M A := fun s => (s, inl a).

Definition bind {A B : Type} (c : M A) (k : A -> M B) : M B :=
  fun s =>
    match c s with
    | (s', inl a) => k a s'
    | (s', inr e) => (s', inr e)
    end.

(** [try: c except Exception as e: h e] *)
Definition try_except {A : Type} (c : M A) (h : string -> M A) : M A :=
  fun s =>
    match c s with
    | (s', inl a) => (s', inl a)
    | (s', inr e) => h e s'
    end.

Definition emit (ev : event) : M unit := fun s => ((s.1, s.2 ++ [ev]), inl tt).

(** [client.send_message(address, arg)] *)
Definition client_send (address : string) (arg : payload) : M unit :=
  fun s =>
    let (w, r) := send_message address arg s.1 in
    ((w, s.2 ++ [Send address arg r]),
     match r with
     | None => inl tt
     | Some e => inr e
     end).

(** [time.sleep(0.2)] *)
Definition time_sleep : M unit := emit (Sleep 200).

Notation "c1 ;; c2" := (bind c1 (fun _ => c2))
  (at level 100, c2 at level 200, right associativity) : task_scope.
Local Open Scope task_scope.

(** Lines 647-657: one turn of the loop; [created] is the counter
    before and the result the counter after. *)
Definition send_row (created : Z) (row : Row) : M Z :=
  let name := name row in
  let snap_index := snap_index row in
  try_except
    (client_send (new_snapshot_address snap_index) (PInt 0) ;;
     time_sleep ;;
     client_send (rename_snapshot_address snap_index) (PStr name) ;;
     time_sleep ;;
     let created := created + 1 in
     emit (LogSnapshot snap_index name) ;;
     ret created)
    (fun e => emit (LogOscError snap_index e) ;; ret created).

Fixpoint send_rows (created : Z) (rows : list Row) : M Z :=
  match rows with
  | [] => ret created
  | row :: rows' => bind (send_row created row) (fun created => send_rows created rows')
  end.

(** Lines 645-659. *)
Definition send_task (rows : list Row) : M Z :=
  bind (send_rows 0 rows) (fun created => emit (LogDone created) ;; ret created).
End Emitter.

Arguments ret {World A} a.
Arguments bind {World A B} c k.
Arguments try_except {World A} c h.
Arguments emit {World} ev.
Arguments time_sleep {World}.

(** ** The terms of the specification *)

(** The item times of one time bucket, in the order of the document. *)
Definition bucket (incl : list ItemTime) (tid : string) : list ItemTime :=
  filter (fun it => r_type it = Some "ItemTime"
                    /\ rel_plan_time it = Returned (Some tid)) incl.

(** The ids of the plan times shown under a label, as they come in
    the list of plan times. *)
Definition label_ids (pts : list PlanTime) (lbl : string) : list string :=
  map (fun pt : PlanTime => pt.1.1)
      (filter (fun pt : PlanTime => label_key pt.1.2 = label_key lbl) pts).

Definition sorted_bucket (incl : list ItemTime) (tid : string) : list ItemTime :=
  list_sort ordering_key String.ltb (bucket incl tid).

(** Selected labels in order, under each its time buckets in order,
    in each bucket its item times by ordering key. *)
Definition flattened (pts : list PlanTime) (labels : list string)
  (incl : list ItemTime) : list ItemTime :=
  flat_map (fun lbl => flat_map (sorted_bucket incl) (label_ids pts lbl)) labels.

(** The time buckets the loops go through: each selected label with
    each of its ids. *)
Definition visits (m : gmap string (list string)) (labels : list string)
  : list (string * string) :=
  flat_map (fun lbl => map (pair lbl) (ids_of m lbl)) labels.

(** One turn of the inner loop of lines 564-571, on a label and an
    id. *)
Definition sort_visit
  (st : gmap string (list ItemTime) * list (string * listref)) (v : string * string)
  : gmap string (list ItemTime) * list (string * listref) :=
  sort_bucket v.1 st v.2.

(** What [sequences] gets for an id: the list of [by_time] under it,
    or a list of its own. *)
Definition ref_of (bt : gmap string (list ItemTime)) (tid : string) : listref :=
  match bt !! tid with
  | Some _ => InByTime tid
  | None => Fresh
  end.

(** The plan item an item time refers to, when there is one. *)
Definition resolved_item (plan_items : list PlanItem) (it : ItemTime)
  : option PlanItem :=
  match rel_item it with
  | Returned (Some (String c r)) => lookup_item plan_items (String c r)
  | _ => None
  end.

(** An item time gives a row when it is not excluded and refers to a
    plan item of type [item] or [song]. *)
Definition gives_row (plan_items : list PlanItem) (it : ItemTime) : bool :=
  negb (exclude it)
  && match resolved_item plan_items it with
     | Some item => is_cue_type (item_type item)
     | None => false
     end.

Definition row_name (plan_items : list PlanItem) (it : ItemTime) : string :=
  match resolved_item plan_items it with
  | Some item => cue_name item
  | None => ""
  end.

(** The first loop can read the plan time of the resource, or does
    not look at it. *)
Definition readable_plan_time (it : ItemTime) : bool :=
  negb (bool_decide (r_type it = Some "ItemTime"))
  || match rel_plan_time it with
     | Returned _ => true
     | Raised _ => false
     end.

(** The last loop can read the item of the item time, or does not
    look at it. *)
Definition readable_item (it : ItemTime) : bool :=
  exclude it
  || match rel_item it with
     | Returned _ => true
     | Raised _ => false
     end.

(** The names of the rows, from the item times in their final order. *)
Definition row_names (plan_items : list PlanItem) (its : list ItemTime)
  : list string :=
  map (row_name plan_items) (List.filter (gives_row plan_items) its).

(** A datetime without [tzinfo]. *)
Definition naive (d : datetime) : bool :=
  match utcoffset d with
  | None => true
  | Some _ => false
  end.

(** Datetimes that compare with one another: all naive or all aware. *)
Definition comparable (l : list datetime) : bool :=
  forallb naive l || forallb (fun d => negb (naive d)) l.

(** The instant a datetime orders by among datetimes of its kind. *)
Definition rank (d : datetime) : Z :=
  match utcoffset d with
  | None => wall d
  | Some o => wall d - o
  end.

(** [a < b] on datetimes of one kind. *)
Definition rank_ltb (a b : datetime) : bool := rank a <? rank b.

(** [a] may stand before [b]: [b < a] does not hold. *)
Definition not_after {A K : Type} (key : A -> K) (ltb : K -> K -> bool)
  (a b : A) : Prop :=
  ltb (key b) (key a) = false.

(** Equal keys keep their order. *)
Definition stable_for {A K : Type} `{EqDecision K} (key : A -> K)
  (input output : list A) : Prop :=
  forall k, filter (fun x => key x = k) output = filter (fun x => key x = k) input.

(** The events of one row of the send task, and whether the row was
    completed. *)
Inductive row_trace (row : Row) : list event -> bool -> Prop :=
| row_completed :
    row_trace row
      [Send (new_snapshot_address (snap_index row)) (PInt 0) None;
       Sleep 200;
       Send (rename_snapshot_address (snap_index row)) (PStr (name row)) None;
       Sleep 200;
       LogSnapshot (snap_index row) (name row)] true
| row_create_raised (e : string) :
    row_trace row
      [Send (new_snapshot_address (snap_index row)) (PInt 0) (Some e);
       LogOscError (snap_index row) e] false
| row_rename_raised (e : string) :
    row_trace row
      [Send (new_snapshot_address (snap_index row)) (PInt 0) None;
       Sleep 200;
       Send (rename_snapshot_address (snap_index row)) (PStr (name row)) (Some e);
       LogOscError (snap_index row) e] false.

(** The events of a run over the rows, and the number of rows
    completed. *)
Inductive rows_trace : list Row -> list event -> Z -> Prop :=
| rows_trace_nil : rows_trace [] [] 0
| rows_trace_cons (row : Row) (rows : list Row) (t ts : list event)
    (ok : bool) (n : Z) :
    row_trace row t ok ->
    rows_trace rows ts n ->
    rows_trace (row :: rows) (t ++ ts) ((if ok then 1 else 0) + n).

(** The two commands of a row. *)
Definition row_sends (row : Row) : list event :=
  [Send (new_snapshot_address (snap_index row)) (PInt 0) None;
   Send (rename_snapshot_address (snap_index row)) (PStr (name row)) None].

(** The events of a row when nothing raises. *)
Definition row_commands (row : Row) : list event :=
  [Send (new_snapshot_address (snap_index row)) (PInt 0) None;
   Sleep 200;
   Send (rename_snapshot_address (snap_index row)) (PStr (name row)) None;
   Sleep 200;
   LogSnapshot (snap_index row) (name row)].

Definition is_send (ev : event) : bool :=
  match ev with
  | Send _ _ _ => true
  | _ => false
  end.

(** ** A run on a transport *)

Section Runs.
Variable World : Type.
Variable send_message : string -> payload -> World -> World * option string.

(** One row of the send task from the world [w]: the events it
    leaves, whether the row was completed, and the world it ends in,
    by what [send_message] did. *)
Inductive row_run (row : Row) (w : World) : list event -> bool -> World -> Prop :=
| run_completed (w1 w2 : World) :
    send_message (new_snapshot_address (snap_index row)) (PInt 0) w = (w1, None) ->
    send_message (rename_snapshot_address (snap_index row)) (PStr (name row)) w1
    = (w2, None) ->
    row_run row w
      [Send (new_snapshot_address (snap_index row)) (PInt 0) None;
       Sleep 200;
       Send (rename_snapshot_address (snap_index row)) (PStr (name row)) None;
       Sleep 200;
       LogSnapshot (snap_index row) (name row)] true w2
| run_create_raised (w1 : World) (e : string) :
    send_message (new_snapshot_address (snap_index row)) (PInt 0) w = (w1, Some e) ->
    row_run row w
      [Send (new_snapshot_address (snap_index row)) (PInt 0) (Some e);
       LogOscError (snap_index row) e] false w1
| run_rename_raised (w1 w2 : World) (e : string) :
    send_message (new_snapshot_address (snap_index row)) (PInt 0) w = (w1, None) ->
    send_message (rename_snapshot_address (snap_index row)) (PStr (name row)) w1
    = (w2, Some e) ->
    row_run row w
      [Send (new_snapshot_address (snap_index row)) (PInt 0) None;
       Sleep 200;
       Send (rename_snapshot_address (snap_index row)) (PStr (name row)) (Some e);
       LogOscError (snap_index row) e] false w2.

(** The rows in order, each from the world the one before ended in:
    the events, which rows were completed, and the last world. *)
Inductive rows_run : list Row -> World -> list event -> list bool -> World -> Prop :=
| rows_run_nil (w : World) : rows_run [] w [] [] w
| rows_run_cons (row : Row) (rows : list Row) (w w1 w2 : World)
    (t ts : list event) (ok : bool) (oks : list bool) :
    row_run row w t ok w1 ->
    rows_run rows w1 ts oks w2 ->
    rows_run (row :: rows) w (t ++ ts) (ok :: oks) w2.

(** The calls of [send_message] a trace records, made again from
    [w]: the world after them, and whether each gave what the trace
    says. *)
Fixpoint replay (w : World) (t : list event) : World * bool :=
  match t with
  | [] => (w, true)
  | Send address arg r :: t' =>
      let (w1, r1) := send_message address arg w in
      if decide (r1 = r) then replay w1 t' else (w1, false)
  | _ :: t' => replay w t'
  end.
End Runs.

(** The rows completed. *)
Definition count_true (oks : list bool) : Z :=
  Z.of_nat (length (List.filter (fun ok : bool => ok) oks)).

(** ** Changes of the state *)

Definition set_curselection (self : App) (sel : list nat) : App :=
  {| items_data := items_data self;
     times_data := times_data self;
     plan_times := plan_times self;
     preview_rows := preview_rows self;
     lst_times := lst_times self;
     curselection := sel;
     chk_has_existing := chk_has_existing self;
     var_existing_count := var_existing_count self;
     btn_preview := btn_preview self |}.


Definition set_preview_rows (self : App) (rows : list Row) : App :=
  {| items_data := items_data self;
     times_data := times_data self;
     plan_times := plan_times self;
     preview_rows := rows;
     lst_times := lst_times self;
     curselection := curselection self;
     chk_has_existing := chk_has_existing self;
     var_existing_count := var_existing_count self;
     btn_preview := btn_preview self |}.

(** ** Sample data

    A plan with two plan times under one label and a third under
    another, and the item times of the first two. *)

Definition said_hi : string :=
  String.append "He said " (String dquote (String.append "hi" (String dquote ""))).

(** [{"data": {"id": id}}] *)
Definition to_one (id : string) : member Relationship :=
  Object {| rel_data := Object (Some id) |}.

(** [{"data": null}] *)
Definition to_none : member Relationship :=
  Object {| rel_data := NotObject |}.

Definition item_time (tid item_id start : string) (excluded : bool) : ItemTime :=
  {| r_type := Some "ItemTime";
     relationships := Object {| rs_plan_time := to_one tid; rs_item := to_one item_id |};
     live_start_at := None;
     starts_at := Some start;
     exclude := excluded |}.

Definition sample_items : ItemsDoc :=
  {| included :=
       [item_time "t1" "i2" "2024-01-07T10:05" false;
        item_time "t2" "i4" "2024-01-07T12:00" false;
        item_time "t1" "i1" "2024-01-07T10:00" false;
        item_time "t1" "i3" "2024-01-07T10:02" true;
        item_time "t1" "h1" "2024-01-07T09:59" false;
        item_time "t1" "gone" "2024-01-07T10:01" false;
        item_time "t3" "i1" "2024-01-07T17:00" false];
     data :=
       [{| p_id := "h1"; item_type := Some "header"; title := Some "Pre-service" |};
        {| p_id := "i1"; item_type := Some "song"; title := Some "Opening Song" |};
        {| p_id := "i2"; item_type := Some "item"; title := Some "Welcome" |};
        {| p_id := "i3"; item_type := Some "item"; title := Some "Offering" |};
        {| p_id := "i4"; item_type := Some "item"; title := Some said_hi |}] |}.

Definition sample_plan_times : list PlanTime :=
  [("t1", "9:00 AM", None); ("t3", "5:00 PM", None); ("t2", "9:00 AM", None)].

Definition sample_app : App :=
  {| items_data := Assigned (Some sample_items);
     times_data := Assigned (Some {| times := None |});
     plan_times := sample_plan_times;
     preview_rows := [];
     lst_times := ["9:00 AM"; "5:00 PM"; "9:00 AM"];
     curselection := [0%nat];
     chk_has_existing := true;
     var_existing_count := "12";
     btn_preview := true |}.

Definition sample_rows : list Row :=
  [{| name := "Opening Song"; snap_index := 12; seq := 1 |};
   {| name := "Welcome"; snap_index := 13; seq := 2 |};
   {| name := "He said 'hi'"; snap_index := 14; seq := 3 |}].

(** Plan-time records whose [starts_at] is aware, naive and missing,
    and what [datetime.fromisoformat] gives on the two strings. *)
Definition sample_fromisoformat (s : string) : option datetime :=
  if String.eqb s "2024-01-07T15:00:00+00:00"
  then Some {| wall := 63840236400000000; utcoffset := Some 0 |}
  else if String.eqb s "2024-01-07T09:00:00"
       then Some {| wall := 63840214800000000; utcoffset := None |}
       else None.

Definition sample_label (name start : option string) : string := str_or name "".

Definition aware_time : PlanTimeResource :=
  {| pt_id := "t1"; pt_name := Some "First"; pt_starts_at := Some "2024-01-07T15:00:00Z" |}.

Definition naive_time : PlanTimeResource :=
  {| pt_id := "t2"; pt_name := Some "Second"; pt_starts_at := Some "2024-01-07T09:00:00" |}.

Definition missing_time : PlanTimeResource :=
  {| pt_id := "t3"; pt_name := Some "Third"; pt_starts_at := None |}.

(** A third aware instant, and the parse of its timestamp. *)
Definition later_time : PlanTimeResource :=
  {| pt_id := "t4"; pt_name := Some "Fourth"; pt_starts_at := Some "2024-01-07T17:00:00Z" |}.

Definition two_fromisoformat (s : string) : option datetime :=
  if String.eqb s "2024-01-07T17:00:00+00:00"
  then Some {| wall := 63840243600000000; utcoffset := Some 0 |}
  else sample_fromisoformat s.

(** An item time of the first plan time whose relationship to an item
    is empty, [{"data": null}], in a document that is otherwise the
    sample. *)
Definition orphan_item_time : ItemTime :=
  {| r_type := Some "ItemTime";
     relationships := Object {| rs_plan_time := to_one "t1"; rs_item := to_none |};
     live_start_at := None;
     starts_at := Some "2024-01-07T10:03";
     exclude := false |}.

Definition orphan_items : ItemsDoc :=
  {| included := included sample_items ++ [orphan_item_time];
     data := data sample_items |}.

(** Item times of one plan time with equal starts, out of order in
    the document. *)
Definition tied_items : ItemsDoc :=
  {| included :=
       [item_time "t1" "i2" "2024-01-07T10:05" false;
        item_time "t1" "i1" "2024-01-07T10:00" false;
        item_time "t1" "i3" "2024-01-07T10:05" false;
        item_time "t1" "i4" "2024-01-07T10:00" false];
     data := data sample_items |}.

(** A transport that counts its calls and raises on the second. *)
Definition second_call_raises (address : string) (arg : payload) (w : nat)
  : nat * option string :=
  (S w, if (w =? 1)%nat then Some "Network is unreachable" else None).

(** Two transports on a world without state: one that sends
    everything, one on which a create raises. *)
Definition sends_all (address : string) (arg : payload) (w : unit)
  : unit * option string :=
  (w, None).

Definition create_raises (address : string) (arg : payload) (w : unit)
  : unit * option string :=
  (w, match arg with
      | PInt _ => Some "Network is unreachable"
      | PStr _ => None
      end).

Definition welcome_row : Row := {| name := "Welcome"; snap_index := 0; seq := 1 |}.

(** ** The service types ([fetch_service_types], lines 76-90)

    What [get_pco_data] returns: the error of the request, or the
    document decoded. *)

Inductive response (D : Type) : Type :=
| RequestError (err : string)
| Json (doc : D).

Arguments RequestError {D} err.
Arguments Json {D} doc.

(** A service type, [{"id", "name"}]. *)
Record ServiceType : Type := {
  st_id : string;
  st_name : string
}.

(** [c.lower()] on one character below 256. *)
Definition lower_char (c : ascii) : ascii :=
  let n := nat_of_ascii c in
  if ((65 <=? n)%nat && (n <=? 90)%nat)
     || ((192 <=? n)%nat && (n <=? 214)%nat)
     || ((216 <=? n)%nat && (n <=? 222)%nat)
  then ascii_of_nat (n + 32)
  else c.

(** [s.lower()] *)
Fixpoint lower (s : string) : string :=
  match s with
  | EmptyString => EmptyString
  | String c s' => String (lower_char c) (lower s')
  end.

(** Lines 85-88, one turn of the loop on [seen] and [out]. *)
Definition keep_unseen (st : gset string * list ServiceType) (t : ServiceType)
  : gset string * list ServiceType :=
  if decide (st_id t ∈ st.1) then st else ({[st_id t]} ∪ st.1, st.2 ++ [t]).

Definition lower_name (t : ServiceType) : string := lower (st_name t).

(** The function on what the request returned; the document is its
    [data] list, [None] when it is empty or has no such key. *)
Definition fetch_service_types (resp : response (option (list ServiceType)))
  : option (list ServiceType) * option string :=
  match resp with
  | RequestError err => (None, Some err)
  | Json None => (Some [], None)
  | Json (Some types) =>
      let out := (foldl keep_unseen (∅, []) types).2 in
      (Some (list_sort lower_name String.ltb out), None)
  end.

(** ** The documents of a plan ([fetch_plan_items_and_times], lines
    102-115)

    The two requests are steps on the world; the items document is
    [None] when it is empty or has no [data]. *)

Section FetchPlan.
Variable World : Type.
Variable get_items : World -> World * response (option ItemsDoc).
Variable get_times : World -> World * response TimesDoc.

Definition fetch_plan_items_and_times (w : World)
  : World * (option ItemsDoc * option TimesDoc * option string) :=
  match get_items w with
  | (w1, RequestError err) => (w1, (None, None, Some err))
  | (w1, Json None) => (w1, (None, None, Some "No items returned."))
  | (w1, Json (Some items)) =>
      match get_times w1 with
      | (w2, RequestError err) => (w2, (None, None, Some err))
      | (w2, Json tdoc) => (w2, (Some items, Some tdoc, None))
      end
  end.
End FetchPlan.

(** ** The task of [on_load_plan_times] (lines 474-516)

    On what the fetch returned: [if err:] stops on an error that is
    not empty, and the rest goes on with the documents as they are. *)

Section LoadTask.
Variable fromisoformat : string -> option datetime.
Variable format_time_label : option string -> option string -> string.

Definition load_task (self : App)
  (fetched : option ItemsDoc * option TimesDoc * option string)
  : App * option exn :=
  let '(items, tdoc, err) := fetched in
  if truthy err then (self, None)
  else
    let records :=
      match tdoc with
      | Some t => default [] (times t)
      | None => []
      end in
    let pts := load_plan_times fromisoformat format_time_label records in
    match listbox_rows pts with
    | Raised e =>
        ({| items_data := Assigned items;
            times_data := Assigned tdoc;
            plan_times := pts;
            preview_rows := preview_rows self;
            lst_times := [];
            curselection := [];
            chk_has_existing := chk_has_existing self;
            var_existing_count := var_existing_count self;
            btn_preview := btn_preview self |}, Some e)
    | Returned rows =>
        ({| items_data := Assigned items;
            times_data := Assigned tdoc;
            plan_times := pts;
            preview_rows := [];
            lst_times := rows;
            curselection := preselect rows;
            chk_has_existing := chk_has_existing self;
            var_existing_count := var_existing_count self;
            btn_preview := true |}, None)
    end.
End LoadTask.

(** ** [App.on_preview] and [App.on_send] *)

(** Lines 598-613 on the state, with the message shown: [if err:]
    returns before the rows are stored. *)
Definition on_preview (self : App) : outcome (App * option string) :=
  match _collect_preview_rows self with
  | Raised e => Raised e
  | Returned (rows, _, err) =>
      if truthy err then Returned (self, err)
      else Returned (set_preview_rows self rows, None)
  end.

(** ** The states the application goes through *)






(** How [on_send] ends. *)
Inductive sent : Type :=
| ErrorShown (message title : string)
| NotConfirmed
| NoClient (e : string)
| TaskDone (trace : list event) (created : Z)
| TaskRaised (trace : list event) (e : string).

Section OnSend.
Variable World : Type.
Variable send_message : string -> payload -> World -> World * option string.
(** [udp_client.SimpleUDPClient(ip, port)], its message when it
    raises. *)
Variable make_client : string -> Z -> option string.

(** Lines 615-663.  [answer] is what [Messagebox.yesno] returned:
    the text of the button pressed, or [None] when the dialog was
    closed; line 631 tests its truth. *)
Definition on_send (self : App) (var_ip var_port : string) (answer : option string)
  (w : World) : World * sent :=
  let ip := strip var_ip in
  let port_s := strip var_port in
  if negb (truthy (Some ip) && truthy (Some port_s))
  then (w, ErrorShown "Please fill DiGiCo IP/port." "Missing")
  else
    match py_int port_s with
    | None => (w, ErrorShown "OSC Port must be a number." "Port")
    | Some port =>
        match preview_rows self with
        | [] => (w, ErrorShown "Click 'Preview Snapshots' first." "Nothing to send")
        | _ =>
            if negb (truthy answer) then (w, NotConfirmed)
            else
              match make_client ip port with
              | Some e => (w, NoClient e)
              | None =>
                  match send_task World send_message (preview_rows self) (w, []) with
                  | ((w', t), inl created) => (w', TaskDone t created)
                  | ((w', t), inr e) => (w', TaskRaised t e)
                  end
              end
        end
    end.
End OnSend.

(** The state with another items document. *)
Definition set_items (self : App) (doc : ItemsDoc) : App :=
  {| items_data := Assigned (Some doc);
     times_data := times_data self;
     plan_times := plan_times self;
     preview_rows := preview_rows self;
     lst_times := lst_times self;
     curselection := curselection self;
     chk_has_existing := chk_has_existing self;
     var_existing_count := var_existing_count self;
     btn_preview := btn_preview self |}.

(** A create is the [send_message] with an integer argument. *)
Definition is_create (ev : event) : bool :=
  match ev with
  | Send _ (PInt _) _ => true
  | _ => false
  end.

Definition address_of (ev : event) : string :=
  match ev with
  | Send a _ _ => a
  | _ => ""
  end.

Definition raised_of (ev : event) : bool :=
  match ev with
  | Send _ _ (Some _) => true
  | _ => false
  end.

(** The digits of a decimal numeral, read from the left. *)
Fixpoint uint_value (acc : Z) (d : Decimal.uint) : Z :=
  match d with
  | Decimal.Nil => acc
  | Decimal.D0 d => uint_value (10 * acc + 0) d
  | Decimal.D1 d => uint_value (10 * acc + 1) d
  | Decimal.D2 d => uint_value (10 * acc + 2) d
  | Decimal.D3 d => uint_value (10 * acc + 3) d
  | Decimal.D4 d => uint_value (10 * acc + 4) d
  | Decimal.D5 d => uint_value (10 * acc + 5) d
  | Decimal.D6 d => uint_value (10 * acc + 6) d
  | Decimal.D7 d => uint_value (10 * acc + 7) d
  | Decimal.D8 d => uint_value (10 * acc + 8) d
  | Decimal.D9 d => uint_value (10 * acc + 9) d
  end.

(** Every character of the string passes the test. *)
Fixpoint all_chars (test : ascii -> bool) (s : string) : bool :=
  match s with
  | EmptyString => true
  | String c s' => test c && all_chars test s'
  end.

Definition is_digit (c : ascii) : bool :=
  match digit_val c with
  | Some _ => true
  | None => false
  end.

(** ** The saved port ([App.on_save_config], lines 336-337, and
    [App._load_config_into_fields], line 688) *)

(** [c.isdigit()] on one character below 256: the ten digits and the
    superscripts two, three and one. *)
Definition isdigit_char (c : ascii) : bool :=
  let n := nat_of_ascii c in
  ((48 <=? n)%nat && (n <=? 57)%nat) || (n =? 178)%nat || (n =? 179)%nat
  || (n =? 185)%nat.

(** [s.isdigit()] *)
Definition isdigit (s : string) : bool :=
  match s with
  | EmptyString => false
  | _ => all_chars isdigit_char s
  end.

(** What the configuration holds under ["digico_port"]. *)
Inductive port_value : Type :=
| PortInt (n : Z)
| PortStr (s : string).

(** [int(port_str) if port_str.isdigit() else port_str]; [None] is
    the [ValueError] of [int], on which nothing is saved. *)
Definition saved_port (var_port : string) : option port_value :=
  let port_str := strip var_port in
  if isdigit port_str
  then PortInt <$> py_int port_str
  else Some (PortStr port_str).

(** [str(cfg.get("digico_port", ""))] on a saved value. *)
Definition shown_port (v : port_value) : string :=
  match v with
  | PortInt n => str_of_int n
  | PortStr s => s
  end.

(** ** The width of a combobox ([App._set_combobox_width], lines
    179-184) *)

Definition len (s : string) : Z := Z.of_nat (String.length s).

(** [max((len(v) for v in values), default=min_chars)] *)
Definition longest (values : list string) (min_chars : Z) : Z :=
  match values with
  | [] => min_chars
  | v :: vs => foldl (fun m x => Z.max m (len x)) (len v) vs
  end.

Definition _set_combobox_width (values : list string) (min_chars max_chars : Z) : Z :=
  Z.max min_chars (Z.min (longest values min_chars + 2) max_chars).

(** * Properties *)

(** ** The sort *)

Section SortFacts.
Context {A K : Type} `{EqDecision K} (key : A -> K) (ltb : K -> K -> bool).

Local Abbreviation not_after := (not_after key ltb).

Lemma insort_perm (x : A) (l : list A) :
  Permutation (insort key ltb x l) (x :: l).
Proof.
  induction l as [|y l IH]; simpl; [reflexivity|].
  destruct (ltb (key y) (key x)); [|reflexivity].
  rewrite IH. apply perm_swap.
Qed.

Lemma list_sort_perm (l : list A) : Permutation (list_sort key ltb l) l.
Proof.
  induction l as [|x l IH]; simpl; [reflexivity|].
  rewrite insort_perm. now constructor.
Qed.

Lemma list_sort_length (l : list A) : length (list_sort key ltb l) = length l.
Proof. apply Permutation_length, list_sort_perm. Qed.

Lemma list_sort_In (x : A) (l : list A) : In x (list_sort key ltb l) <-> In x l.
Proof.
  split; apply Permutation_in; [|symmetry]; apply list_sort_perm.
Qed.

Section Stable.
Hypothesis ltb_irrefl : forall a, ltb a a = false.

Lemma insort_filter (k : K) (x : A) (l : list A) :
  filter (fun y => key y = k) (insort key ltb x l)
  = filter (fun y => key y = k) (x :: l).
Proof.
  induction l as [|y l IH]; simpl; [reflexivity|].
  destruct (ltb (key y) (key x)) eqn:E; [|reflexivity].
  rewrite (filter_cons _ y), IH, !filter_cons.
  destruct (decide (key y = k)) as [Hy|Hy];
    destruct (decide (key x = k)) as [Hx|Hx]; try reflexivity.
  rewrite Hy, Hx, ltb_irrefl in E. discriminate.
Qed.

Lemma list_sort_stable (l : list A) : stable_for key l (list_sort key ltb l).
Proof.
  intros k. induction l as [|x l IH]; simpl; [reflexivity|].
  rewrite insort_filter, !filter_cons, IH. reflexivity.
Qed.
End Stable.

Section Ordered.
Hypothesis ltb_asym : forall a b, ltb a b = true -> ltb b a = false.

Lemma insort_HdRel (a x : A) (l : list A) :
  not_after a x -> HdRel not_after a l -> HdRel not_after a (insort key ltb x l).
Proof.
  intros Hax Hal. destruct l as [|y l]; simpl; [now constructor|].
  destruct (ltb (key y) (key x)); constructor; [|assumption].
  now inversion Hal.
Qed.

Lemma insort_sorted (x : A) (l : list A) :
  Sorted not_after l -> Sorted not_after (insort key ltb x l).
Proof.
  induction 1 as [|y l Hs IH Hhd]; simpl; [repeat constructor|].
  destruct (ltb (key y) (key x)) eqn:E.
  - constructor; [assumption|].
    apply insort_HdRel; [|assumption]. now apply ltb_asym.
  - constructor; [now constructor|]. now constructor.
Qed.

Lemma list_sort_sorted (l : list A) : Sorted not_after (list_sort key ltb l).
Proof.
  induction l as [|x l IH]; simpl; [constructor|]. now apply insort_sorted.
Qed.

(** Sorting a sorted list changes nothing. *)
Lemma list_sort_id (l : list A) : Sorted not_after l -> list_sort key ltb l = l.
Proof.
  induction 1 as [|x l Hs IH Hhd]; simpl; [reflexivity|].
  rewrite IH. destruct Hhd as [|y l Hxy]; simpl; [reflexivity|].
  now rewrite Hxy.
Qed.

Lemma list_sort_idem (l : list A) :
  list_sort key ltb (list_sort key ltb l) = list_sort key ltb l.
Proof. apply list_sort_id, list_sort_sorted. Qed.

Lemma list_sort_strongly (l : list A) :
  Transitive not_after -> StronglySorted not_after (list_sort key ltb l).
Proof.
  intros Ht. apply Sorted_StronglySorted; [exact Ht|apply list_sort_sorted].
Qed.
End Ordered.

(** Where every comparison returns, [sorted] is the sort. *)
Lemma insort_raising_returns (lt : K -> K -> outcome bool) (x : A) (l : list A) :
  (forall y, In y l -> lt (key y) (key x) = Returned (ltb (key y) (key x))) ->
  insort_raising key lt x l = Returned (insort key ltb x l).
Proof.
  induction l as [|y l IH]; intros Hlt; simpl; [reflexivity|].
  rewrite (Hlt y) by now left.
  destruct (ltb (key y) (key x)); [|reflexivity].
  rewrite IH; [reflexivity|]. intros z Hz. apply Hlt. now right.
Qed.

Lemma sorted_returns (lt : K -> K -> outcome bool) (l : list A) :
  (forall x y, In x l -> In y l -> lt (key x) (key y) = Returned (ltb (key x) (key y))) ->
  sorted key lt l = Returned (list_sort key ltb l).
Proof.
  induction l as [|x l IH]; intros Hlt; simpl; [reflexivity|].
  rewrite IH by (intros; apply Hlt; now right).
  apply insort_raising_returns. intros y Hy.
  apply Hlt; [right|now left]. now apply list_sort_In.
Qed.
End SortFacts.

(** ** The order of strings *)

Lemma string_ltb_irrefl (a : string) : String.ltb a a = false.
Proof.
  unfold String.ltb.
  now rewrite (proj2 (String_as_OT.cmp_eq a a) eq_refl : String.compare a a = Eq).
Qed.

Lemma string_ltb_asym (a b : string) : String.ltb a b = true -> String.ltb b a = false.
Proof.
  unfold String.ltb. rewrite (String.compare_antisym a b).
  destruct (String.compare b a); simpl; congruence.
Qed.

Lemma string_ltb_lt (a b : string) : String.ltb a b = true <-> String_as_OT.lt a b.
Proof.
  rewrite <- String_as_OT.cmp_lt. unfold String.ltb, String_as_OT.cmp.
  destruct (String.compare a b); split; congruence.
Qed.

Lemma string_ltb_trans (a b c : string) :
  String.ltb a b = true -> String.ltb b c = true -> String.ltb a c = true.
Proof.
  rewrite !string_ltb_lt. apply String_as_OT.lt_trans.
Qed.

Lemma string_ltb_false (a b : string) :
  String.ltb a b = false -> a = b \/ String.ltb b a = true.
Proof.
  unfold String.ltb. rewrite (String.compare_antisym b a).
  destruct (String.compare a b) eqn:E; simpl; intros H; try discriminate.
  - left. now apply String.compare_eq_iff.
  - now right.
Qed.

Lemma not_after_string_trans {A : Type} (key : A -> string) :
  Transitive (not_after key String.ltb).
Proof.
  intros a b c Hab Hbc. unfold not_after in *.
  destruct (String.ltb (key c) (key a)) eqn:E; [|reflexivity].
  destruct (string_ltb_false _ _ Hab) as [Heq|Hlt].
  - rewrite Heq in Hbc. congruence.
  - rewrite (string_ltb_trans _ _ _ E Hlt) in Hbc. discriminate.
Qed.

(** ** The dictionaries of [_collect_preview_rows] *)

Lemma foldl_flat_map {A B C : Type} (f : A -> C -> A) (g : B -> list C)
  (a : A) (l : list B) :
  foldl f a (flat_map g l) = foldl (fun a x => foldl f a (g x)) a l.
Proof.
  revert a. induction l as [|x l IH]; intros a; simpl; [reflexivity|].
  now rewrite foldl_app, IH.
Qed.

Lemma time_id_by_label_fold (pts : list PlanTime) (m0 : gmap string (list string))
  (k : string) :
  default [] (foldl (fun m (pt : PlanTime) =>
                       let key := label_key pt.1.2 in
                       <[key := default [] (m !! key) ++ [pt.1.1]]> m) m0 pts !! k)
  = default [] (m0 !! k)
    ++ map (fun pt : PlanTime => pt.1.1)
         (filter (fun pt : PlanTime => label_key pt.1.2 = k) pts).
Proof.
  revert m0. induction pts as [|pt pts IH]; intros m0; simpl.
  - now rewrite app_nil_r.
  - rewrite IH, filter_cons.
    destruct (decide (label_key pt.1.2 = k)) as [->|Hne].
    + rewrite lookup_insert_eq. simpl. now rewrite <- app_assoc.
    + now rewrite lookup_insert_ne.
Qed.

(** A label resolves to the ids of the plan times that carry it, in
    the order of the list of plan times. *)
Lemma ids_of_label (pts : list PlanTime) (lbl : string) :
  ids_of (time_id_by_label pts) lbl = label_ids pts lbl.
Proof.
  unfold ids_of, time_id_by_label, label_ids.
  rewrite time_id_by_label_fold, lookup_empty. reflexivity.
Qed.

Lemma selected_time_ids_visits (m : gmap string (list string)) (labels : list string) :
  selected_time_ids m labels = (visits m labels).*2.
Proof.
  unfold selected_time_ids, visits.
  assert (H : forall acc, foldl (fun acc lbl => acc ++ ids_of m lbl) acc labels
                          = acc ++ (flat_map (fun lbl => map (pair lbl) (ids_of m lbl)) labels).*2).
  { induction labels as [|lbl labels IH]; intros acc; simpl.
    - now rewrite app_nil_r.
    - rewrite IH, fmap_app, <- app_assoc. do 2 f_equal.
      induction (ids_of m lbl) as [|i l IHl]; simpl; [reflexivity|now f_equal]. }
  apply H.
Qed.

Lemma by_time_init_fold (ids : list string) (m0 : gmap string (list ItemTime))
  (tid : string) :
  foldl (fun m tid => <[tid := []]> m) m0 ids !! tid
  = if decide (tid ∈ ids) then Some [] else m0 !! tid.
Proof.
  revert m0. induction ids as [|i ids IH]; intros m0; simpl.
  - destruct (decide (tid ∈ [])) as [H|H]; [inversion H|reflexivity].
  - rewrite IH. destruct (decide (tid ∈ ids)) as [Hin|Hin].
    + rewrite decide_True by now right. reflexivity.
    + destruct (decide (i = tid)) as [->|Hne].
      * rewrite lookup_insert_eq, decide_True by now left. reflexivity.
      * rewrite lookup_insert_ne by assumption.
        rewrite decide_False; [reflexivity|].
        intros H. apply elem_of_cons in H as [->|H]; contradiction.
Qed.

Lemma relationship_id_raised (pick : Relationships -> member Relationship)
  (it : ItemTime) (e : exn) :
  relationship_id pick it = Raised e -> e = AttributeError.
Proof.
  unfold relationship_id, related_id.
  destruct (relationships it) as [| |rs]; try discriminate; [congruence|].
  destruct (pick rs) as [| |r]; try discriminate; [congruence|].
  destruct (rel_data r); try discriminate; congruence.
Qed.

Lemma by_time_add_raises (bt : gmap string (list ItemTime)) (it : ItemTime) :
  readable_plan_time it = false -> by_time_add bt it = Raised AttributeError.
Proof.
  unfold readable_plan_time, by_time_add.
  destruct (negb (bool_decide (r_type it = Some "ItemTime"))); [discriminate|]. simpl.
  destruct (rel_plan_time it) as [o|e] eqn:E; [discriminate|].
  intros _. f_equal. now apply (relationship_id_raised rs_plan_time it).
Qed.

Lemma by_time_add_lookup (bt : gmap string (list ItemTime)) (it : ItemTime) :
  readable_plan_time it = true ->
  exists bt',
    by_time_add bt it = Returned bt'
    /\ forall tid, bt' !! tid = (fun arr => arr ++ bucket [it] tid) <$> bt !! tid.
Proof.
  unfold readable_plan_time, by_time_add, bucket. intros Hr.
  destruct (decide (r_type it = Some "ItemTime")) as [Ht|Ht].
  - rewrite bool_decide_eq_true_2 in * by assumption. simpl in *.
    destruct (rel_plan_time it) as [[t|]|e] eqn:Hrel; [| |discriminate].
    + destruct (bt !! t) as [arr|] eqn:Hbt; eexists; (split; [reflexivity|]);
        intros tid; rewrite filter_cons, filter_nil;
        destruct (decide (t = tid)) as [->|Hne].
      * rewrite decide_True by auto. now rewrite lookup_insert_eq, Hbt.
      * rewrite decide_False by (intros [_ H]; congruence).
        rewrite lookup_insert_ne by assumption.
        destruct (bt !! tid); simpl; [now rewrite app_nil_r|reflexivity].
      * rewrite decide_True by auto. now rewrite Hbt.
      * rewrite decide_False by (intros [_ H]; congruence).
        destruct (bt !! tid); simpl; [now rewrite app_nil_r|reflexivity].
    + exists bt. split; [reflexivity|]. intros tid. rewrite filter_cons, filter_nil.
      rewrite decide_False by (intros [_ H]; congruence).
      destruct (bt !! tid); simpl; [now rewrite app_nil_r|reflexivity].
  - rewrite bool_decide_eq_false_2 by assumption. simpl.
    exists bt. split; [reflexivity|]. intros tid. rewrite filter_cons, filter_nil.
    rewrite decide_False by (intros [H _]; contradiction).
    destruct (bt !! tid); simpl; [now rewrite app_nil_r|reflexivity].
Qed.

Lemma bucket_app (l1 l2 : list ItemTime) (tid : string) :
  bucket (l1 ++ l2) tid = bucket l1 tid ++ bucket l2 tid.
Proof. apply filter_app. Qed.

Lemma by_time_fold_lookup (bt : gmap string (list ItemTime)) (incl : list ItemTime) :
  forallb readable_plan_time incl = true ->
  exists bt',
    foldl_raising by_time_add bt incl = Returned bt'
    /\ forall tid, bt' !! tid = (fun arr => arr ++ bucket incl tid) <$> bt !! tid.
Proof.
  revert bt. induction incl as [|it incl IH]; intros bt; simpl.
  - intros _. exists bt. split; [reflexivity|]. intros tid.
    destruct (bt !! tid); simpl; [now rewrite app_nil_r|reflexivity].
  - intros [Hit Hincl]%andb_prop.
    destruct (by_time_add_lookup bt it Hit) as (bt1 & -> & H1).
    destruct (IH bt1 Hincl) as (bt' & -> & H2).
    exists bt'. split; [reflexivity|]. intros tid. rewrite H2, H1.
    destruct (bt !! tid); simpl; [|reflexivity].
    rewrite <- app_assoc. f_equal. f_equal. symmetry. apply (bucket_app [it]).
Qed.

Lemma by_time_fold_raises (bt : gmap string (list ItemTime)) (incl : list ItemTime) :
  forallb readable_plan_time incl = false ->
  foldl_raising by_time_add bt incl = Raised AttributeError.
Proof.
  revert bt. induction incl as [|it incl IH]; intros bt; simpl; [discriminate|].
  destruct (readable_plan_time it) eqn:Hit; simpl.
  - intros Hincl. destruct (by_time_add_lookup bt it Hit) as (bt1 & -> & _).
    now apply IH.
  - intros _. now rewrite by_time_add_raises.
Qed.

(** [by_time] holds, for each selected id, the item times of that
    bucket in the order of the document, once every plan time could
    be read. *)
Lemma by_time_lookup (ids : list string) (incl : list ItemTime) :
  forallb readable_plan_time incl = true ->
  exists bt,
    by_time ids incl = Returned bt
    /\ forall tid,
        bt !! tid = if decide (tid ∈ ids) then Some (bucket incl tid) else None.
Proof.
  intros Hr. unfold by_time, by_time_init.
  destruct (by_time_fold_lookup (foldl (fun m tid => <[tid := []]> m) ∅ ids) incl Hr)
    as (bt & -> & H).
  exists bt. split; [reflexivity|]. intros tid.
  rewrite H, by_time_init_fold, lookup_empty.
  destruct (decide (tid ∈ ids)); reflexivity.
Qed.

(** ** The shared lists of [sequences] *)

Lemma build_sequences_visits (m : gmap string (list string))
  (bt : gmap string (list ItemTime)) (labels : list string) :
  build_sequences m bt labels = foldl sort_visit (bt, []) (visits m labels).
Proof.
  unfold build_sequences, visits. rewrite foldl_flat_map.
  generalize (bt, @nil (string * listref)) as st.
  induction labels as [|lbl labels IH]; intros st; simpl; [reflexivity|].
  rewrite IH. f_equal.
  generalize st. induction (ids_of m lbl) as [|i l IHl]; intros st'; simpl;
    [reflexivity|apply IHl].
Qed.

(** After the loops a list of [by_time] is sorted if its bucket was
    gone through, however often, and untouched otherwise; [sequences]
    has one entry per bucket gone through. *)
Lemma sort_visits_spec (bt0 : gmap string (list ItemTime)) (vs : list (string * string)) :
  (forall tid,
      (foldl sort_visit (bt0, []) vs).1 !! tid
      = if decide (tid ∈ vs.*2)
        then list_sort ordering_key String.ltb <$> bt0 !! tid
        else bt0 !! tid)
  /\ (foldl sort_visit (bt0, []) vs).2 = map (fun v => (v.1, ref_of bt0 v.2)) vs.
Proof.
  induction vs as [|v vs [IH1 IH2]] using rev_ind.
  - split; [|reflexivity]. intros tid. simpl.
    destruct (decide (tid ∈ [])) as [H|H]; [inversion H|reflexivity].
  - rewrite foldl_app. simpl.
    set (st := foldl sort_visit (bt0, []) vs) in *.
    assert (Hst : st.1 !! v.2 = None <-> bt0 !! v.2 = None).
    { rewrite IH1. destruct (decide (v.2 ∈ vs.*2)); [|reflexivity].
      destruct (bt0 !! v.2); simpl; split; congruence. }
    unfold sort_visit at 1 2, sort_bucket.
    destruct (st.1 !! v.2) as [arr|] eqn:Harr; simpl.
    + split.
      * intros tid. rewrite fmap_app. simpl.
        destruct (decide (v.2 = tid)) as [<-|Hne].
        -- rewrite lookup_insert_eq, decide_True by (apply elem_of_app; right; now left).
           rewrite IH1 in Harr.
           destruct (decide (v.2 ∈ vs.*2)).
           ++ destruct (bt0 !! v.2) as [a0|]; simpl in *; [|discriminate].
              injection Harr as <-. f_equal.
              apply list_sort_idem, string_ltb_asym.
           ++ rewrite Harr. reflexivity.
        -- rewrite lookup_insert_ne by assumption. rewrite IH1.
           destruct (decide (tid ∈ vs.*2)) as [Hin|Hin].
           ++ rewrite decide_True by (apply elem_of_app; now left). reflexivity.
           ++ rewrite decide_False; [reflexivity|].
              intros H. apply elem_of_app in H as [H|H]; [contradiction|].
              apply list_elem_of_singleton in H. congruence.
      * rewrite IH2, map_app. simpl. do 3 f_equal. unfold ref_of.
        destruct (bt0 !! v.2) eqn:E; [reflexivity|].
        destruct Hst as [_ Hst]. discriminate (Hst eq_refl).
    + split.
      * intros tid. rewrite fmap_app, IH1. simpl.
        destruct (decide (tid ∈ vs.*2)) as [Hin|Hin].
        -- rewrite decide_True by (apply elem_of_app; now left). reflexivity.
        -- destruct (decide (tid = v.2)) as [->|Hne].
           ++ rewrite decide_True by (apply elem_of_app; right; now left).
              rewrite (proj1 Hst eq_refl). reflexivity.
           ++ rewrite decide_False; [reflexivity|].
              intros H. apply elem_of_app in H as [H|H]; [contradiction|].
              apply list_elem_of_singleton in H. congruence.
      * rewrite IH2, map_app. simpl. do 3 f_equal. unfold ref_of.
        now rewrite (proj1 Hst eq_refl).
Qed.

(** What an entry of [sequences] refers to in the end: the sorted
    bucket. *)
Lemma deref_after_visits (bt0 : gmap string (list ItemTime))
  (vs : list (string * string)) (v : string * string) :
  v ∈ vs ->
  deref (foldl sort_visit (bt0, []) vs).1 (ref_of bt0 v.2)
  = list_sort ordering_key String.ltb (default [] (bt0 !! v.2)).
Proof.
  intros Hv. destruct (sort_visits_spec bt0 vs) as [H1 _].
  unfold ref_of. destruct (bt0 !! v.2) as [arr|] eqn:E; simpl; [|reflexivity].
  rewrite H1, decide_True, E; [reflexivity|].
  apply list_elem_of_fmap. now exists v.
Qed.

Lemma flat_map_ext_elem {A B : Type} (f g : A -> list B) (l : list A) :
  (forall x, x ∈ l -> f x = g x) -> flat_map f l = flat_map g l.
Proof.
  induction l as [|x l IH]; intros H; simpl; [reflexivity|].
  rewrite (H x) by now left. f_equal. apply IH. intros y Hy. apply H. now right.
Qed.

Lemma flat_map_map {A B C : Type} (f : B -> list C) (g : A -> B) (l : list A) :
  flat_map f (map g l) = flat_map (fun x => f (g x)) l.
Proof.
  induction l as [|x l IH]; simpl; [reflexivity|]. now rewrite IH.
Qed.

Lemma flat_map_visits {B : Type} (f : string -> list B)
  (m : gmap string (list string)) (labels : list string) :
  flat_map (fun v : string * string => f v.2) (visits m labels)
  = flat_map (fun lbl => flat_map f (ids_of m lbl)) labels.
Proof.
  unfold visits. induction labels as [|lbl labels IH]; simpl; [reflexivity|].
  rewrite flat_map_app, IH. f_equal. rewrite flat_map_map. reflexivity.
Qed.

(** The lists [sequences] refers to, one after the other, are the
    selected buckets in order, each sorted. *)
Lemma sequences_flattened (pts : list PlanTime) (labels : list string)
  (incl : list ItemTime) (bt0 : gmap string (list ItemTime)) :
  let m := time_id_by_label pts in
  (forall tid,
      bt0 !! tid
      = if decide (tid ∈ selected_time_ids m labels)
        then Some (bucket incl tid) else None) ->
  let st := build_sequences m bt0 labels in
  flat_map (fun s : string * listref => deref st.1 s.2) st.2
  = flattened pts labels incl.
Proof.
  intros m Hbt st. unfold st. rewrite build_sequences_visits.
  destruct (sort_visits_spec bt0 (visits m labels)) as [_ H2].
  rewrite H2, flat_map_map. simpl.
  rewrite (flat_map_ext_elem _ (fun v => sorted_bucket incl v.2)).
  - rewrite flat_map_visits. unfold flattened.
    apply flat_map_ext. intros lbl. unfold m. now rewrite ids_of_label.
  - intros v Hv. rewrite deref_after_visits by assumption.
    rewrite Hbt, decide_True; [reflexivity|].
    rewrite selected_time_ids_visits. apply list_elem_of_fmap. now exists v.
Qed.

(** ** The rows *)

Lemma collect_row_spec (plan_items : list PlanItem) (rows : list string) (it : ItemTime) :
  collect_row plan_items rows it
  = if readable_item it then Returned (rows ++ row_names plan_items [it])
    else Raised AttributeError.
Proof.
  unfold collect_row, readable_item, row_names, gives_row, row_name, resolved_item.
  simpl.
  destruct (exclude it); simpl; [now rewrite app_nil_r|].
  destruct (rel_item it) as [[[|c r]|]|e] eqn:Hrel; simpl; try now rewrite app_nil_r.
  - destruct (lookup_item plan_items (String c r)) as [item|] eqn:E; simpl;
      [|now rewrite app_nil_r].
    destruct (is_cue_type (item_type item)); simpl; [|now rewrite app_nil_r].
    now rewrite Hrel, E.
  - f_equal. now apply (relationship_id_raised rs_item it).
Qed.

Lemma row_names_app (plan_items : list PlanItem) (l1 l2 : list ItemTime) :
  row_names plan_items (l1 ++ l2) = row_names plan_items l1 ++ row_names plan_items l2.
Proof. unfold row_names. now rewrite List.filter_app, map_app. Qed.

Lemma collect_fold (plan_items : list PlanItem) (rows : list string)
  (its : list ItemTime) :
  foldl_raising (collect_row plan_items) rows its
  = if forallb readable_item its then Returned (rows ++ row_names plan_items its)
    else Raised AttributeError.
Proof.
  revert rows. induction its as [|it its IH]; intros rows; simpl.
  - now rewrite app_nil_r.
  - rewrite collect_row_spec. destruct (readable_item it); simpl; [|reflexivity].
    rewrite IH. destruct (forallb readable_item its); [|reflexivity].
    rewrite <- app_assoc. do 2 f_equal. symmetry. apply (row_names_app plan_items [it]).
Qed.

Lemma foldl_raising_app {A B : Type} (f : A -> B -> outcome A) (a : A) (l1 l2 : list B) :
  foldl_raising f a (l1 ++ l2)
  = match foldl_raising f a l1 with
    | Returned a' => foldl_raising f a' l2
    | Raised e => Raised e
    end.
Proof.
  revert a. induction l1 as [|x l1 IH]; intros a; simpl; [reflexivity|].
  destruct (f a x); [apply IH|reflexivity].
Qed.

Lemma foldl_raising_flat_map {A B C : Type} (f : A -> C -> outcome A) (g : B -> list C)
  (a : A) (l : list B) :
  foldl_raising f a (flat_map g l)
  = foldl_raising (fun a x => foldl_raising f a (g x)) a l.
Proof.
  revert a. induction l as [|x l IH]; intros a; simpl; [reflexivity|].
  rewrite foldl_raising_app. destruct (foldl_raising f a (g x)); [apply IH|reflexivity].
Qed.

Lemma collect_rows_spec (plan_items : list PlanItem)
  (bt : gmap string (list ItemTime)) (sequences : list (string * listref)) :
  collect_rows plan_items bt sequences
  = let its := flat_map (fun s : string * listref => deref bt s.2) sequences in
    if forallb readable_item its then Returned (row_names plan_items its)
    else Raised AttributeError.
Proof.
  unfold collect_rows.
  rewrite <- (foldl_raising_flat_map (collect_row plan_items)
                (fun s : string * listref => deref bt s.2)).
  apply collect_fold.
Qed.

(** The result of [_collect_preview_rows] on loaded data with a
    selection: it raises when a plan time of an item time in the
    document, or the item of an item time gone through that is not
    excluded, cannot be read. *)
Lemma collect_preview_rows_loaded (self : App) (doc : ItemsDoc) :
  items_data self = Assigned (Some doc) ->
  hasattr (times_data self) = true ->
  curselection self <> [] ->
  _collect_preview_rows self
  = let offset := snapshot_offset (chk_has_existing self) (var_existing_count self) in
    let its := flattened (plan_times self) (selected_time_labels self) (included doc) in
    if forallb readable_plan_time (included doc) && forallb readable_item its
    then Returned (number_rows offset (row_names (data doc) its), offset, None)
    else Raised AttributeError.
Proof.
  intros Hdoc Htimes Hsel. unfold _collect_preview_rows.
  rewrite Hdoc, Htimes. simpl.
  destruct (curselection self) as [|i sel] eqn:E; [contradiction|].
  destruct (forallb readable_plan_time (included doc)) eqn:Hr; simpl.
  - destruct (by_time_lookup
                (selected_time_ids (time_id_by_label (plan_times self))
                   (selected_time_labels self)) (included doc) Hr) as (bt & -> & Hbt).
    rewrite collect_rows_spec. simpl.
    rewrite (sequences_flattened (plan_times self) (selected_time_labels self)
               (included doc) bt Hbt).
    destruct (forallb readable_item _); reflexivity.
  - unfold by_time. now rewrite by_time_fold_raises.
Qed.

(** A build that returns rows without an error had loaded data and a
    selection, and could read every relationship it looked at. *)
Lemma collect_preview_rows_inv (self : App) (rows : list Row) (offset : Z) :
  _collect_preview_rows self = Returned (rows, offset, None) ->
  exists doc,
    items_data self = Assigned (Some doc)
    /\ hasattr (times_data self) = true
    /\ curselection self <> []
    /\ forallb readable_plan_time (included doc) = true
    /\ forallb readable_item
         (flattened (plan_times self) (selected_time_labels self) (included doc)) = true.
Proof.
  intros H.
  assert (H0 : exists doc,
             items_data self = Assigned (Some doc)
             /\ hasattr (times_data self) = true
             /\ curselection self <> []).
  { revert H. unfold _collect_preview_rows.
    destruct (items_data self) as [|[doc|]] eqn:Hdoc; simpl; try discriminate;
      destruct (times_data self) eqn:Ht; simpl; try discriminate;
      destruct (curselection self) eqn:Hs; try discriminate.
    intros _. exists doc. repeat split; congruence. }
  destruct H0 as (doc & Hdoc & Ht & Hs). exists doc.
  rewrite (collect_preview_rows_loaded self doc Hdoc Ht Hs) in H. simpl in H.
  destruct (forallb readable_plan_time (included doc)); [|discriminate].
  destruct (forallb readable_item _); [|discriminate]. auto.
Qed.

Lemma number_rows_lookup (offset : Z) (names : list string) (i : nat) (r : Row) :
  number_rows offset names !! i = Some r ->
  exists nm,
    names !! i = Some nm
    /\ r = {| name := nm; snap_index := offset + Z.of_nat i; seq := Z.of_nat i + 1 |}.
Proof.
  unfold number_rows. rewrite list_lookup_imap.
  destruct (names !! i) as [nm|]; simpl; [|discriminate].
  intros [= <-]. now exists nm.
Qed.

Lemma number_rows_length (offset : Z) (names : list string) :
  length (number_rows offset names) = length names.
Proof. apply length_imap. Qed.

Lemma number_rows_names (offset : Z) (names : list string) :
  map name (number_rows offset names) = names.
Proof.
  change (name <$> number_rows offset names = names).
  apply list_eq. intros i. unfold number_rows.
  rewrite list_lookup_fmap, list_lookup_imap.
  destruct (names !! i); reflexivity.
Qed.

Lemma lookup_item_some (plan_items : list PlanItem) (item_id : string) (item : PlanItem) :
  lookup_item plan_items item_id = Some item ->
  In item plan_items /\ p_id item = item_id.
Proof.
  unfold lookup_item. intros H. apply List.find_some in H as [Hin Heq].
  split; [assumption|]. now apply String.eqb_eq.
Qed.

Lemma is_cue_type_true (t : option string) :
  is_cue_type t = true <-> t = Some "item" \/ t = Some "song".
Proof.
  unfold is_cue_type. rewrite orb_true_iff, !bool_decide_eq_true. reflexivity.
Qed.

(** What it takes for an item time to give a row. *)
Lemma gives_row_true (plan_items : list PlanItem) (it : ItemTime) :
  gives_row plan_items it = true <->
  exclude it = false
  /\ exists item,
      resolved_item plan_items it = Some item
      /\ (item_type item = Some "item" \/ item_type item = Some "song").
Proof.
  unfold gives_row. rewrite andb_true_iff, negb_true_iff.
  destruct (resolved_item plan_items it) as [item|].
  - rewrite is_cue_type_true. split.
    + intros [He Ht]. split; [assumption|]. now exists item.
    + intros [He (item' & [= <-] & Ht)]. now split.
  - split; [intros [_ H]; discriminate|intros [_ (item & H & _)]; discriminate].
Qed.

(** A resolved item is in the document under the id the item time
    carries, and that id is not empty. *)
Lemma resolved_item_some (plan_items : list PlanItem) (it : ItemTime) (item : PlanItem) :
  resolved_item plan_items it = Some item ->
  In item plan_items /\ rel_item it = Returned (Some (p_id item)) /\ p_id item <> "".
Proof.
  unfold resolved_item. destruct (rel_item it) as [[[|c r]|]|e]; try discriminate.
  intros H. apply lookup_item_some in H as [Hin Hid].
  rewrite Hid. repeat split; [assumption|discriminate].
Qed.

(** Each name comes, in order, from one item time that gives a row. *)
Lemma row_names_sources (plan_items : list PlanItem) (its : list ItemTime) :
  Forall2 (fun nm it =>
             exclude it = false
             /\ exists item,
                 resolved_item plan_items it = Some item
                 /\ (item_type item = Some "item" \/ item_type item = Some "song")
                 /\ nm = cue_name item)
          (row_names plan_items its)
          (List.filter (gives_row plan_items) its).
Proof.
  unfold row_names.
  assert (H : Forall (fun it => gives_row plan_items it = true)
                (List.filter (gives_row plan_items) its)).
  { apply List.Forall_forall. intros it Hit. now apply List.filter_In in Hit. }
  induction H as [|it l Hit _ IH]; simpl; constructor; [|assumption].
  apply gives_row_true in Hit as [He (item & Hres & Ht)].
  split; [assumption|]. exists item. repeat split; try assumption.
  unfold row_name. now rewrite Hres.
Qed.

Lemma Forall2_In_l {A B : Type} (P : A -> B -> Prop) (l1 : list A) (l2 : list B) (x : A) :
  Forall2 P l1 l2 -> In x l1 -> exists y, In y l2 /\ P x y.
Proof.
  induction 1 as [|a b l1 l2 Hab _ IH]; intros Hin; [contradiction|].
  destruct Hin as [->|Hin].
  - exists b. split; [now left|assumption].
  - destruct (IH Hin) as (y & Hy & Hxy). exists y. split; [now right|assumption].
Qed.

(** The rows of a build that returned without an error. *)
Lemma collect_preview_rows_rows (self : App) (rows : list Row) (offset : Z) :
  _collect_preview_rows self = Returned (rows, offset, None) ->
  exists doc,
    items_data self = Assigned (Some doc)
    /\ offset = snapshot_offset (chk_has_existing self) (var_existing_count self)
    /\ rows = number_rows offset
                (row_names (data doc)
                   (flattened (plan_times self) (selected_time_labels self)
                      (included doc))).
Proof.
  intros H.
  destruct (collect_preview_rows_inv _ _ _ H) as (doc & Hdoc & Ht & Hs & Hp & Hi).
  exists doc. rewrite (collect_preview_rows_loaded self doc Hdoc Ht Hs) in H.
  simpl in H. rewrite Hp, Hi in H. simpl in H. injection H as <- <-. auto.
Qed.

(** ** The indices of the rows *)

(** C1.  In a build that returns without an error the offset is the
    resolved one, the row at position [i] (from 0) has [snap_index]
    [offset + i] and [seq] [i + 1], so that [seq] is
    [snap_index - offset + 1], and there are as many rows as item
    times that give a row: an item time that is skipped takes no
    index. *)
Theorem snap_index_contiguous (self : App) (rows : list Row) (offset : Z) :
  _collect_preview_rows self = Returned (rows, offset, None) ->
  offset = snapshot_offset (chk_has_existing self) (var_existing_count self)
  /\ (forall i r,
         rows !! i = Some r ->
         snap_index r = offset + Z.of_nat i
         /\ seq r = Z.of_nat i + 1
         /\ seq r = snap_index r - offset + 1)
  /\ exists doc,
      items_data self = Assigned (Some doc)
      /\ length rows
         = length (List.filter (gives_row (data doc))
                     (flattened (plan_times self) (selected_time_labels self)
                        (included doc))).
Proof.
  intros H. destruct (collect_preview_rows_rows _ _ _ H) as (doc & Hdoc & Hoff & Hrows).
  split; [assumption|]. split.
  - intros i r Hr. rewrite Hrows in Hr.
    apply number_rows_lookup in Hr as (nm & _ & ->). simpl. lia.
  - exists doc. split; [assumption|].
    rewrite Hrows, number_rows_length. unfold row_names. apply length_map.
Qed.

Lemma snap_index_contiguous_witness :
  _collect_preview_rows sample_app = Returned (sample_rows, 12, None)
  /\ (forall i r,
         sample_rows !! i = Some r ->
         snap_index r = 12 + Z.of_nat i
         /\ seq r = Z.of_nat i + 1
         /\ seq r = snap_index r - 12 + 1).
Proof.
  split; [vm_compute; reflexivity|].
  apply (snap_index_contiguous sample_app sample_rows 12). vm_compute. reflexivity.
Defined.

(** ** The item times that are skipped *)

Lemma forallb_false_In {A : Type} (f : A -> bool) (l : list A) (x : A) :
  In x l -> f x = false -> forallb f l = false.
Proof.
  intros Hin Hx. destruct (forallb f l) eqn:E; [|reflexivity].
  rewrite forallb_forall in E. rewrite (E x Hin) in Hx. discriminate.
Qed.

(** C2 on the code.  On loaded data with a selection, take the item
    times of the selected buckets in their final order.  When every
    relationship the build looks at can be read, the build returns,
    and its rows stand one to one, in order, for the item times that
    are not excluded and refer, by an id that is there, to a plan item
    of the document of type [item] or [song]; every other item time is
    left out, and so is one whose relationship to an item has no
    ["data"] or no id.  But an item time that is not excluded and
    whose item cannot be read, as with the empty relationship
    [{"data": null}], is not left out: the build raises
    [AttributeError] and gives no rows; and so it does for an item
    time of the document whose plan time cannot be read.  The build
    returns in no other case. *)
Theorem skipped_item_times (self : App) (doc : ItemsDoc) :
  items_data self = Assigned (Some doc) ->
  hasattr (times_data self) = true ->
  curselection self <> [] ->
  let its := flattened (plan_times self) (selected_time_labels self) (included doc) in
  let src := List.filter (gives_row (data doc)) its in
  (forallb readable_plan_time (included doc) = true ->
   forallb readable_item its = true ->
   exists rows offset,
     _collect_preview_rows self = Returned (rows, offset, None)
     /\ Forall2 (fun r it =>
                   exclude it = false
                   /\ exists item,
                       resolved_item (data doc) it = Some item
                       /\ In item (data doc)
                       /\ rel_item it = Returned (Some (p_id item))
                       /\ (item_type item = Some "item" \/ item_type item = Some "song")
                       /\ name r = cue_name item)
                rows src)
  /\ (forall it,
         In it src <->
         In it its
         /\ exclude it = false
         /\ exists item,
             resolved_item (data doc) it = Some item
             /\ (item_type item = Some "item" \/ item_type item = Some "song"))
  /\ (forall it,
         In it its -> exclude it = false -> rel_item it = Raised AttributeError ->
         _collect_preview_rows self = Raised AttributeError)
  /\ (forall it,
         In it (included doc) -> r_type it = Some "ItemTime" ->
         rel_plan_time it = Raised AttributeError ->
         _collect_preview_rows self = Raised AttributeError)
  /\ (forall res,
         _collect_preview_rows self = Returned res ->
         forallb readable_plan_time (included doc) = true
         /\ forallb readable_item its = true).
Proof.
  intros Hdoc Ht Hs its src.
  pose proof (collect_preview_rows_loaded self doc Hdoc Ht Hs) as Hbuild.
  simpl in Hbuild. fold its in Hbuild.
  split; [|split; [|split; [|split]]].
  - intros Hp Hi. rewrite Hp, Hi in Hbuild. simpl in Hbuild.
    eexists; eexists. split; [exact Hbuild|].
    pose proof (row_names_sources (data doc) its) as HF.
    rewrite <- (number_rows_names
                  (snapshot_offset (chk_has_existing self) (var_existing_count self))
                  (row_names (data doc) its)) in HF.
    change (map name ?l) with (name <$> l) in HF.
    apply Forall2_fmap_l in HF.
    eapply Forall2_impl; [exact HF|]. simpl.
    intros r it [He (item & Hres & Hty & Hnm)]. split; [assumption|].
    destruct (resolved_item_some _ _ _ Hres) as (Hin & Hrel & _).
    exists item. auto.
  - intros it. unfold src. rewrite List.filter_In, gives_row_true. reflexivity.
  - intros it Hin He Hrel.
    assert (Hi : forallb readable_item its = false).
    { apply (forallb_false_In _ _ it Hin). unfold readable_item. now rewrite He, Hrel. }
    rewrite Hbuild, Hi, andb_false_r. reflexivity.
  - intros it Hin Hty Hrel.
    assert (Hp : forallb readable_plan_time (included doc) = false).
    { apply (forallb_false_In _ _ it Hin). unfold readable_plan_time.
      rewrite Hrel, bool_decide_eq_true_2 by assumption. reflexivity. }
    rewrite Hbuild, Hp. reflexivity.
  - intros res. rewrite Hbuild.
    destruct (forallb readable_plan_time (included doc)); [|discriminate].
    destruct (forallb readable_item its); [|discriminate]. auto.
Qed.

Lemma skipped_item_times_witness :
  let self := set_items sample_app orphan_items in
  In orphan_item_time
     (flattened (plan_times self) (selected_time_labels self) (included orphan_items))
  /\ exclude orphan_item_time = false
  /\ rel_item orphan_item_time = Raised AttributeError
  /\ _collect_preview_rows self = Raised AttributeError
  /\ _collect_preview_rows sample_app = Returned (sample_rows, 12, None).
Proof.
  intros self.
  assert (Hin : In orphan_item_time
                  (flattened (plan_times self) (selected_time_labels self)
                     (included orphan_items))) by (vm_compute; tauto).
  split; [exact Hin|]. split; [reflexivity|]. split; [reflexivity|].
  split; [|vm_compute; reflexivity].
  destruct (skipped_item_times self orphan_items) as (_ & _ & H & _);
    [reflexivity|reflexivity|discriminate|].
  apply (H orphan_item_time Hin); reflexivity.
Defined.

(** ** The names of the rows *)

Lemma replace_length (a b : ascii) (s : string) :
  String.length (replace a b s) = String.length s.
Proof. induction s as [|c s IH]; simpl; [reflexivity|now rewrite IH]. Qed.

Lemma replace_get (a b : ascii) (s : string) (i : nat) :
  String.get i (replace a b s)
  = (fun c => if Ascii.eqb c a then b else c) <$> String.get i s.
Proof.
  revert i. induction s as [|c s IH]; intros i; simpl; [reflexivity|].
  destruct i as [|i]; simpl; [reflexivity|apply IH].
Qed.

Lemma str_or_not_empty (x : option string) (y : string) : y <> "" -> str_or x y <> "".
Proof. destruct x as [[|c s]|]; simpl; intros H; [assumption|discriminate|assumption]. Qed.

Lemma cue_name_not_empty (item : PlanItem) : cue_name item <> "".
Proof.
  unfold cue_name. intros H.
  apply (f_equal String.length) in H. rewrite replace_length in H.
  assert (Hne : str_or (title item) "Untitled Cue" <> "") by (apply str_or_not_empty; discriminate).
  destruct (str_or (title item) "Untitled Cue"); [contradiction|discriminate].
Qed.

Lemma Forall2_map_self {A B : Type} (P : B -> A -> Prop) (f : A -> B) (l : list A) :
  (forall x, x ∈ l -> P (f x) x) -> Forall2 P (map f l) l.
Proof.
  induction l as [|x l IH]; intros H; simpl; constructor.
  - apply H. now left.
  - apply IH. intros y Hy. apply H. now right.
Qed.

(** The rows of a build stand, in order, for the item times gone
    through that give a row. *)
Lemma rows_sources (plan_items : list PlanItem) (offset : Z) (its : list ItemTime) :
  Forall2 (fun r it => gives_row plan_items it = true
                       /\ name r = row_name plan_items it)
    (number_rows offset (row_names plan_items its))
    (List.filter (gives_row plan_items) its).
Proof.
  assert (HF : Forall2 (fun nm it => gives_row plan_items it = true
                                     /\ nm = row_name plan_items it)
                 (row_names plan_items its) (List.filter (gives_row plan_items) its)).
  { unfold row_names. apply Forall2_map_self. intros x Hx. split; [|reflexivity].
    apply list_elem_of_In, List.filter_In in Hx. tauto. }
  rewrite <- (number_rows_names offset (row_names plan_items its)) in HF.
  change (map name ?l) with (name <$> l) in HF.
  now apply Forall2_fmap_l in HF.
Qed.

(** C10.  In a build that returns without an error the rows stand one
    to one, in order, for the item times gone through that give a
    row.  The name of a row is made from the plan item its item time
    resolves to, the first of the document with the id the item time
    refers to: it is the title, or ["Untitled Cue"] when the title is
    absent or empty, with a single quote wherever it has a double
    quote and the same character elsewhere; the name is not empty. *)
Theorem row_name_sanitized (self : App) (rows : list Row) (offset : Z) :
  _collect_preview_rows self = Returned (rows, offset, None) ->
  exists doc,
    items_data self = Assigned (Some doc)
    /\ Forall2
         (fun r it =>
            exists item t,
              resolved_item (data doc) it = Some item
              /\ rel_item it = Returned (Some (p_id item))
              /\ List.find (fun p => String.eqb (p_id p) (p_id item)) (data doc)
                 = Some item
              /\ (truthy (title item) = true -> title item = Some t)
              /\ (truthy (title item) = false -> t = "Untitled Cue")
              /\ String.length (name r) = String.length t
              /\ (forall i,
                     String.get i (name r)
                     = (fun c => if Ascii.eqb c dquote then squote else c)
                         <$> String.get i t)
              /\ name r <> "")
         rows
         (List.filter (gives_row (data doc))
            (flattened (plan_times self) (selected_time_labels self) (included doc))).
Proof.
  intros H. destruct (collect_preview_rows_rows _ _ _ H) as (doc & Hdoc & _ & Hrows).
  exists doc. split; [assumption|]. rewrite Hrows.
  eapply Forall2_impl; [apply rows_sources|]. simpl.
  intros r it [Hgives Hnm].
  apply gives_row_true in Hgives as (_ & item & Hres & _).
  exists item, (str_or (title item) "Untitled Cue").
  destruct (resolved_item_some _ _ _ Hres) as (_ & Hrel & _).
  assert (Hfind : List.find (fun p => String.eqb (p_id p) (p_id item)) (data doc)
                  = Some item).
  { pose proof Hres as Hres'. unfold resolved_item in Hres'. rewrite Hrel in Hres'.
    destruct (p_id item); [discriminate|exact Hres']. }
  unfold row_name in Hnm. rewrite Hres in Hnm. rewrite Hnm. unfold cue_name at 1 2.
  repeat split; try assumption.
  - destruct (title item) as [[|c s]|]; simpl; [discriminate|reflexivity|discriminate].
  - destruct (title item) as [[|c s]|]; simpl; [reflexivity|discriminate|reflexivity].
  - apply replace_length.
  - intros i. apply replace_get.
  - apply cue_name_not_empty.
Qed.

Lemma row_name_sanitized_witness :
  _collect_preview_rows sample_app = Returned (sample_rows, 12, None)
  /\ resolved_item (data sample_items) (item_time "t2" "i4" "2024-01-07T12:00" false)
     = Some {| p_id := "i4"; item_type := Some "item"; title := Some said_hi |}
  /\ exists doc,
      items_data sample_app = Assigned (Some doc)
      /\ Forall2
           (fun r it =>
              exists item t,
                resolved_item (data doc) it = Some item
                /\ rel_item it = Returned (Some (p_id item))
                /\ List.find (fun p => String.eqb (p_id p) (p_id item)) (data doc)
                   = Some item
                /\ (truthy (title item) = true -> title item = Some t)
                /\ (truthy (title item) = false -> t = "Untitled Cue")
                /\ String.length (name r) = String.length t
                /\ (forall i,
                       String.get i (name r)
                       = (fun c => if Ascii.eqb c dquote then squote else c)
                           <$> String.get i t)
                /\ name r <> "")
           sample_rows
           (List.filter (gives_row (data doc))
              (flattened (plan_times sample_app) (selected_time_labels sample_app)
                 (included doc))).
Proof.
  split; [vm_compute; reflexivity|]. split; [vm_compute; reflexivity|].
  apply (row_name_sanitized sample_app sample_rows 12). vm_compute. reflexivity.
Defined.

(** ** Labels shared by several plan times *)

Lemma flattened_app (pts : list PlanTime) (l1 l2 : list string) (incl : list ItemTime) :
  flattened pts (l1 ++ l2) incl = flattened pts l1 incl ++ flattened pts l2 incl.
Proof. unfold flattened. apply flat_map_app. Qed.

(** C8.  In a build that returns without an error, where a label is
    selected every plan time that carries it gives its bucket, and the
    buckets follow one another in the order of their ids in the list
    of plan times: the rows are those of the labels selected before,
    then of these buckets, then of the labels selected after. *)
Theorem shared_label_buckets (self : App) (rows : list Row) (offset : Z)
  (before after : list string) (lbl : string) :
  _collect_preview_rows self = Returned (rows, offset, None) ->
  selected_time_labels self = before ++ lbl :: after ->
  let tids :=
    map (fun pt : PlanTime => pt.1.1)
      (filter (fun pt : PlanTime => label_key pt.1.2 = label_key lbl) (plan_times self)) in
  exists doc,
    items_data self = Assigned (Some doc)
    /\ rows
       = number_rows offset
           (row_names (data doc)
              (flattened (plan_times self) before (included doc)
               ++ flat_map (sorted_bucket (included doc)) tids
               ++ flattened (plan_times self) after (included doc))).
Proof.
  intros H Hsel tids.
  destruct (collect_preview_rows_rows _ _ _ H) as (doc & Hdoc & _ & Hrows).
  exists doc. split; [assumption|]. rewrite Hrows, Hsel, flattened_app.
  change (lbl :: after) with ([lbl] ++ after). rewrite flattened_app.
  unfold flattened at 2. simpl. rewrite app_nil_r. reflexivity.
Qed.

Lemma shared_label_buckets_witness :
  _collect_preview_rows sample_app = Returned (sample_rows, 12, None)
  /\ selected_time_labels sample_app = [] ++ "9:00 AM" :: []
  /\ map (fun pt : PlanTime => pt.1.1)
       (filter (fun pt : PlanTime => label_key pt.1.2 = label_key "9:00 AM")
          (plan_times sample_app)) = ["t1"; "t2"]
  /\ exists doc,
      items_data sample_app = Assigned (Some doc)
      /\ sample_rows
         = number_rows 12
             (row_names (data doc)
                (flattened (plan_times sample_app) [] (included doc)
                 ++ flat_map (sorted_bucket (included doc)) ["t1"; "t2"]
                 ++ flattened (plan_times sample_app) [] (included doc))).
Proof.
  split; [vm_compute; reflexivity|]. split; [reflexivity|].
  split; [vm_compute; reflexivity|].
  apply (shared_label_buckets sample_app sample_rows 12 [] [] "9:00 AM");
    [vm_compute; reflexivity|reflexivity].
Defined.

(** ** The order within a bucket *)

Lemma string_leb_ltb (a b : string) : String.leb a b = negb (String.ltb b a).
Proof.
  unfold String.leb, String.ltb. rewrite (String.compare_antisym a b).
  destruct (String.compare b a); reflexivity.
Qed.

Lemma StronglySorted_weaken {A : Type} (R R' : A -> A -> Prop) (l : list A) :
  (forall a b, R a b -> R' a b) -> StronglySorted R l -> StronglySorted R' l.
Proof.
  intros HR. induction 1 as [|x l Hs IH Hx]; constructor; [assumption|].
  eapply List.Forall_impl; [|exact Hx]. intros b. apply HR.
Qed.

Lemma flattened_visits (pts : list PlanTime) (labels : list string)
  (incl : list ItemTime) :
  flattened pts labels incl
  = concat (map (fun v : string * string => sorted_bucket incl v.2)
              (visits (time_id_by_label pts) labels)).
Proof.
  rewrite <- List.flat_map_concat_map, flat_map_visits. unfold flattened.
  apply flat_map_ext. intros lbl. now rewrite ids_of_label.
Qed.

(** C7.  The ordering key of an item time is its live start when it
    has one, else its scheduled start when it has one, else the empty
    string.  In a build that returns without an error, each selected
    label with each id under it, in order, has a segment: the item
    times of that bucket, ascending by ordering key as strings
    compare, those of equal key in the order they had in the document.
    The rows stand one to one, in order, for the item times of these
    segments, one segment after the other, that give a row. *)
Theorem bucket_order_stable (self : App) (rows : list Row) (offset : Z) :
  _collect_preview_rows self = Returned (rows, offset, None) ->
  (forall it,
      ordering_key it
      = if truthy (live_start_at it) then default "" (live_start_at it)
        else if truthy (starts_at it) then default "" (starts_at it)
        else "")
  /\ exists doc segs,
      items_data self = Assigned (Some doc)
      /\ Forall2 (fun (seg : list ItemTime) (v : string * string) =>
                    Permutation seg (bucket (included doc) v.2)
                    /\ StronglySorted
                         (fun a b => (ordering_key a <=? ordering_key b)%string = true)
                         seg
                    /\ stable_for ordering_key (bucket (included doc) v.2) seg)
           segs
           (visits (time_id_by_label (plan_times self)) (selected_time_labels self))
      /\ Forall2 (fun r it => gives_row (data doc) it = true
                               /\ name r = row_name (data doc) it)
           rows (List.filter (gives_row (data doc)) (concat segs)).
Proof.
  intros H. split.
  - intros it. unfold ordering_key.
    destruct (live_start_at it) as [[|c s]|]; simpl; try reflexivity;
      destruct (starts_at it) as [[|c' s']|]; reflexivity.
  - destruct (collect_preview_rows_rows _ _ _ H) as (doc & Hdoc & _ & Hrows).
    exists doc,
      (map (fun v : string * string => sorted_bucket (included doc) v.2)
         (visits (time_id_by_label (plan_times self)) (selected_time_labels self))).
    split; [assumption|]. split.
    + apply Forall2_map_self. intros v _. unfold sorted_bucket.
      split; [apply list_sort_perm|]. split.
      * eapply StronglySorted_weaken;
          [|apply list_sort_strongly;
            [apply string_ltb_asym|apply not_after_string_trans]].
        intros a b Hab. unfold not_after in Hab.
        now rewrite string_leb_ltb, Hab.
      * apply list_sort_stable, string_ltb_irrefl.
    + rewrite <- flattened_visits, Hrows. apply rows_sources.
Qed.

Lemma bucket_order_stable_witness :
  let self := set_items sample_app tied_items in
  let rows := [{| name := "Opening Song"; snap_index := 12; seq := 1 |};
               {| name := "He said 'hi'"; snap_index := 13; seq := 2 |};
               {| name := "Welcome"; snap_index := 14; seq := 3 |};
               {| name := "Offering"; snap_index := 15; seq := 4 |}] in
  _collect_preview_rows self = Returned (rows, 12, None)
  /\ map ordering_key (bucket (included tied_items) "t1")
     = ["2024-01-07T10:05"; "2024-01-07T10:00"; "2024-01-07T10:05"; "2024-01-07T10:00"]
  /\ map (row_name (data tied_items)) (bucket (included tied_items) "t1")
     = ["Welcome"; "Opening Song"; "Offering"; "He said 'hi'"]
  /\ exists doc segs,
      items_data self = Assigned (Some doc)
      /\ Forall2 (fun (seg : list ItemTime) (v : string * string) =>
                    Permutation seg (bucket (included doc) v.2)
                    /\ StronglySorted
                         (fun a b => (ordering_key a <=? ordering_key b)%string = true)
                         seg
                    /\ stable_for ordering_key (bucket (included doc) v.2) seg)
           segs
           (visits (time_id_by_label (plan_times self)) (selected_time_labels self))
      /\ Forall2 (fun r it => gives_row (data doc) it = true
                               /\ name r = row_name (data doc) it)
           rows (List.filter (gives_row (data doc)) (concat segs)).
Proof.
  intros self rows. split; [vm_compute; reflexivity|].
  split; [vm_compute; reflexivity|]. split; [vm_compute; reflexivity|].
  apply (bucket_order_stable self rows 12). vm_compute. reflexivity.
Defined.

(** ** The offset *)

(** C9.  The offset is 0 when the flag is off.  When it is on, the
    offset is the integer the count, trimmed, reads as when that is
    not negative, and 0 when it is negative or when the count does
    not read as an integer. *)
Theorem offset_policy (flag : bool) (count : string) :
  (flag = false -> snapshot_offset flag count = 0)
  /\ (flag = true ->
      forall n, py_int (strip count) = Some n -> 0 <= n ->
                snapshot_offset flag count = n)
  /\ (flag = true ->
      forall n, py_int (strip count) = Some n -> n < 0 ->
                snapshot_offset flag count = 0)
  /\ (flag = true -> py_int (strip count) = None -> snapshot_offset flag count = 0).
Proof.
  unfold snapshot_offset.
  assert (H : match py_int (str_or (Some (strip count)) "0") with
              | Some n => n
              | None => 0
              end
              = match py_int (strip count) with
                | Some n => n
                | None => 0
                end).
  { destruct (strip count) as [|c s]; simpl; [vm_compute|]; reflexivity. }
  rewrite H. repeat split.
  - now intros ->.
  - intros -> n -> Hn. destruct (Z.ltb_spec n 0); [lia|reflexivity].
  - intros -> n -> Hn. destruct (Z.ltb_spec n 0); [reflexivity|lia].
  - intros -> ->. reflexivity.
Qed.

Lemma offset_policy_witness :
  snapshot_offset false "12" = 0
  /\ (py_int (strip " 12 ") = Some 12 /\ snapshot_offset true " 12 " = 12)
  /\ (py_int (strip "-5") = Some (-5) /\ snapshot_offset true "-5" = 0)
  /\ (py_int (strip "abc") = None /\ snapshot_offset true "abc" = 0).
Proof.
  split; [apply (proj1 (offset_policy false "12")); reflexivity|].
  split; [split; [vm_compute; reflexivity|]|].
  { apply (proj1 (proj2 (offset_policy true " 12 ")) eq_refl 12);
      [vm_compute; reflexivity|lia]. }
  split; [split; [vm_compute; reflexivity|]|].
  { apply (proj1 (proj2 (proj2 (offset_policy true "-5"))) eq_refl (-5));
      [vm_compute; reflexivity|lia]. }
  split; [vm_compute; reflexivity|].
  apply (proj2 (proj2 (proj2 (offset_policy true "abc"))) eq_refl).
  vm_compute. reflexivity.
Defined.

(** ** The order of the plan times *)

Lemma datetime_lt_same (a b : datetime) :
  naive a = naive b -> datetime_lt a b = Returned (rank_ltb a b).
Proof.
  unfold naive, datetime_lt, rank_ltb, rank.
  destruct (utcoffset a), (utcoffset b); intros H; try discriminate; reflexivity.
Qed.

Lemma datetime_lt_returned (a b : datetime) (r : bool) :
  datetime_lt a b = Returned r -> naive a = naive b.
Proof.
  unfold naive, datetime_lt.
  destruct (utcoffset a), (utcoffset b); intros H; try discriminate; reflexivity.
Qed.

Lemma comparable_same {A : Type} (key : A -> datetime) (l : list A) (x y : A) :
  comparable (map key l) = true -> In x l -> In y l -> naive (key x) = naive (key y).
Proof.
  unfold comparable. rewrite orb_true_iff, !forallb_forall.
  intros [H|H] Hx Hy.
  - rewrite (H (key x)), (H (key y)) by now apply List.in_map. reflexivity.
  - pose proof (H (key x) (List.in_map key _ _ Hx)) as H1.
    pose proof (H (key y) (List.in_map key _ _ Hy)) as H2.
    destruct (naive (key x)), (naive (key y)); simpl in *; congruence.
Qed.

Lemma comparable_cons (d e : datetime) (l : list datetime) :
  In e l -> naive d = naive e -> comparable l = true -> comparable (d :: l) = true.
Proof.
  unfold comparable. rewrite !orb_true_iff, !forallb_forall.
  intros He Hde [H|H]; [left|right]; intros z [<-|Hz]; auto;
    rewrite Hde; now apply H.
Qed.

(** Comparable instants are sorted without an exception. *)
Lemma sorted_comparable {A : Type} (key : A -> datetime) (l : list A) :
  comparable (map key l) = true ->
  sorted key datetime_lt l = Returned (list_sort key rank_ltb l).
Proof.
  intros Hc. apply sorted_returns. intros x y Hx Hy.
  apply datetime_lt_same. now apply (comparable_same key l).
Qed.

Lemma insort_raising_head {A : Type} (key : A -> datetime) (x y : A) (l r : list A) :
  insort_raising key datetime_lt x (y :: l) = Returned r -> naive (key y) = naive (key x).
Proof.
  simpl. destruct (datetime_lt (key y) (key x)) as [b|e] eqn:E; [|discriminate].
  intros _. now apply datetime_lt_returned in E.
Qed.

(** [sorted] returns on comparable instants and on no others. *)
Lemma sorted_returns_iff {A : Type} (key : A -> datetime) (l : list A) :
  (exists r, sorted key datetime_lt l = Returned r) <-> comparable (map key l) = true.
Proof.
  split; [|intros H; eexists; now apply sorted_comparable].
  induction l as [|x l IH]; intros [r Hr]; [reflexivity|].
  simpl in Hr. destruct (sorted key datetime_lt l) as [r'|e] eqn:E; [|discriminate].
  assert (Hc : comparable (map key l) = true) by (apply IH; now exists r').
  rewrite (sorted_comparable key l Hc) in E. injection E as <-.
  destruct (list_sort key rank_ltb l) as [|y r'] eqn:Hs.
  - assert (Hl : l = []).
    { apply length_zero_iff_nil. rewrite <- (list_sort_length key rank_ltb), Hs.
      reflexivity. }
    subst l. unfold comparable. simpl. destruct (naive (key x)); reflexivity.
  - apply insort_raising_head in Hr.
    assert (Hy : In y l) by (apply (list_sort_In key rank_ltb); rewrite Hs; now left).
    simpl. apply (comparable_cons _ (key y)); [now apply List.in_map|congruence|assumption].
Qed.

Lemma sorted_raises {A : Type} (key : A -> datetime) (l : list A) :
  comparable (map key l) = false -> sorted key datetime_lt l = Raised TypeError.
Proof.
  intros Hc.
  assert (He : forall e x r, insort_raising key datetime_lt x r = Raised e -> e = TypeError).
  { intros e x r. induction r as [|y r IH]; simpl; [discriminate|].
    unfold datetime_lt at 1.
    destruct (utcoffset (key y)), (utcoffset (key x)); simpl;
      try (intros [= <-]; reflexivity);
      match goal with
      | |- context [if ?c then _ else _] =>
          destruct c; [|discriminate];
          destruct (insort_raising key datetime_lt x r); [discriminate|];
          intros [= <-]; now apply IH
      end. }
  destruct (sorted key datetime_lt l) as [r|e] eqn:E.
  - assert (H : comparable (map key l) = true) by (apply sorted_returns_iff; now exists r).
    congruence.
  - f_equal. clear Hc. revert e E. induction l as [|x l IH]; intros e E; [discriminate|].
    simpl in E. destruct (sorted key datetime_lt l) as [r|e'].
    + now apply He in E.
    + injection E as <-. now apply IH.
Qed.

Lemma rank_ltb_asym (a b : datetime) : rank_ltb a b = true -> rank_ltb b a = false.
Proof. unfold rank_ltb. rewrite Z.ltb_lt, Z.ltb_ge. lia. Qed.

Lemma not_after_rank_trans {A : Type} (key : A -> datetime) :
  Transitive (not_after key rank_ltb).
Proof.
  intros a b c. unfold not_after, rank_ltb. rewrite !Z.ltb_ge. lia.
Qed.

Section PlanTimesListed.
Variable fromisoformat : string -> option datetime.
Variable format_time_label : option string -> option string -> string.

(** C6, as the code has it.  Without a record the list box shows
    the one row ["(default)"].  With records whose instants,
    [datetime.max] standing for a missing or malformed one, are all
    naive or all aware, it shows one row per record, ascending by
    instant; a row without instant has none but rows without
    instant, or at [datetime.max], after it. *)
Theorem plan_times_listed (ts : list PlanTimeResource) :
  comparable (map instant_key (load_plan_times fromisoformat format_time_label ts)) = true ->
  (ts = [] -> listbox_rows (load_plan_times fromisoformat format_time_label ts) = Returned ["(default)"])
  /\ exists srt,
      listbox_rows (load_plan_times fromisoformat format_time_label ts) = Returned (map shown_label srt)
      /\ (ts <> [] ->
          Permutation srt (map (plan_time_of fromisoformat format_time_label) ts)
          /\ length (map shown_label srt) = length ts)
      /\ StronglySorted
           (fun a b : PlanTime =>
              rank (instant_key a) <= rank (instant_key b)
              /\ (a.2 = None -> rank datetime_max <= rank (instant_key b)))
           srt.
Proof.
  intros Hc. split; [intros ->; reflexivity|].
  exists (list_sort instant_key rank_ltb (load_plan_times fromisoformat format_time_label ts)).
  unfold listbox_rows. rewrite (sorted_comparable instant_key _ Hc).
  split; [reflexivity|]. split.
  - intros Hne.
    assert (Hl : load_plan_times fromisoformat format_time_label ts = map (plan_time_of fromisoformat format_time_label) ts).
    { unfold load_plan_times.
      destruct ts as [|t ts]; [contradiction|reflexivity]. }
    rewrite Hl. split; [apply list_sort_perm|].
    now rewrite !length_map, list_sort_length, length_map.
  - eapply StronglySorted_weaken;
      [|apply list_sort_strongly;
        [apply rank_ltb_asym|apply not_after_rank_trans]].
    intros a b Hab. unfold not_after, rank_ltb in Hab. apply Z.ltb_ge in Hab.
    split; [assumption|]. intros Ha.
    unfold instant_key at 1 in Hab. now rewrite Ha in Hab.
Qed.
End PlanTimesListed.

Lemma plan_times_listed_witness :
  let ts := [naive_time; missing_time; naive_time] in
  let pts := load_plan_times sample_fromisoformat sample_label ts in
  comparable (map instant_key pts) = true
  /\ listbox_rows pts = Returned ["Second"; "Second"; "Third"]
  /\ exists srt,
      listbox_rows pts = Returned (map shown_label srt)
      /\ (ts <> [] ->
          Permutation srt (map (plan_time_of sample_fromisoformat sample_label) ts)
          /\ length (map shown_label srt) = length ts)
      /\ StronglySorted
           (fun a b : PlanTime =>
              rank (instant_key a) <= rank (instant_key b)
              /\ (a.2 = None -> rank datetime_max <= rank (instant_key b)))
           srt.
Proof.
  intros ts pts. split; [vm_compute; reflexivity|]. split; [vm_compute; reflexivity|].
  apply (proj2 (plan_times_listed sample_fromisoformat sample_label ts
                  ltac:(vm_compute; reflexivity))).
Defined.

(** C6 fails on the code twice over: without a record the list box
    has a row, and a record with an aware instant beside one without
    instant makes [sorted] raise [TypeError]. *)
Lemma plan_times_counterexample :
  (exists rows,
      listbox_rows (load_plan_times sample_fromisoformat sample_label [])
      = Returned rows
      /\ length rows <> length (@nil PlanTimeResource))
  /\ listbox_rows
       (load_plan_times sample_fromisoformat sample_label [aware_time; missing_time])
     = Raised TypeError.
Proof.
  split; [|vm_compute; reflexivity].
  exists ["(default)"]. split; [vm_compute; reflexivity|discriminate].
Qed.

(** ** The two errors of the build *)

(** A build that returns a message. *)
Lemma collect_preview_rows_some (self : App) (rows : list Row) (offset : Z)
  (msg : string) :
  _collect_preview_rows self = Returned (rows, offset, Some msg) ->
  rows = [] /\ offset = 0
  /\ ((msg = load_first
       /\ (hasattr (items_data self) = false \/ hasattr (times_data self) = false))
      \/ (msg = select_first
          /\ hasattr (items_data self) = true
          /\ hasattr (times_data self) = true
          /\ curselection self = [])).
Proof.
  unfold _collect_preview_rows.
  destruct (hasattr (items_data self)) eqn:Hi; simpl.
  2:{ intros [= <- <- <-]. repeat split. left. auto. }
  destruct (hasattr (times_data self)) eqn:Ht; simpl.
  2:{ intros [= <- <- <-]. repeat split. left. auto. }
  destruct (curselection self) as [|i sel].
  { intros [= <- <- <-]. repeat split. right. auto. }
  destruct (items_data self) as [|[doc|]]; try discriminate.
  match goal with |- context [by_time ?a ?b] => destruct (by_time a b) end;
    [|discriminate].
  match goal with |- context [collect_rows ?a ?b ?c] => destruct (collect_rows a b c) end;
    discriminate.
Qed.


Section Reachable.
Variable fromisoformat : string -> option datetime.
Variable format_time_label : option string -> option string -> string.


End Reachable.


(** ** The commands sent *)

Section EmitterFacts.
Variable World : Type.
Variable send_message : string -> payload -> World -> World * option string.

(** One row leaves the events of one of the three outcomes and counts
    when it was completed. *)
Lemma send_row_trace (created : Z) (row : Row) (s : World * list event) :
  exists w t (ok : bool),
    send_row World send_message created row s
    = ((w, s.2 ++ t), inl (created + if ok then 1 else 0))
    /\ row_trace row t ok.
Proof.
  unfold send_row, try_except, bind, client_send, time_sleep, emit, ret. simpl.
  destruct (send_message (new_snapshot_address (snap_index row)) (PInt 0) s.1)
    as [w1 [e|]] eqn:E1; simpl.
  - exists w1; eexists; exists false. rewrite <- app_assoc, Z.add_0_r. split; [reflexivity|].
    apply row_create_raised.
  - destruct (send_message (rename_snapshot_address (snap_index row))
                (PStr (name row)) w1) as [w2 [e|]] eqn:E2; simpl.
    + exists w2; eexists; exists false. rewrite <- !app_assoc, Z.add_0_r. split; [reflexivity|].
      apply row_rename_raised.
    + exists w2; eexists; exists true. rewrite <- !app_assoc. split; [reflexivity|].
      apply row_completed.
Qed.

Lemma send_rows_trace (rows : list Row) (created : Z) (s : World * list event) :
  exists w t n,
    send_rows World send_message created rows s = ((w, s.2 ++ t), inl (created + n))
    /\ rows_trace rows t n.
Proof.
  revert created s. induction rows as [|row rows IH]; intros created s; simpl.
  - exists s.1, [], 0. rewrite app_nil_r, Z.add_0_r. destruct s. split; [reflexivity|constructor].
  - destruct (send_row_trace created row s) as (w1 & t1 & ok & E1 & Ht1).
    unfold bind. rewrite E1.
    destruct (IH (created + (if ok then 1 else 0)) (w1, s.2 ++ t1))
      as (w2 & t2 & n & E2 & Ht2).
    exists w2, (t1 ++ t2), ((if ok then 1 else 0) + n).
    rewrite E2. simpl. rewrite <- app_assoc, Z.add_assoc.
    split; [reflexivity|now constructor].
Qed.

(** One row does what [send_message] makes it do. *)
Lemma send_row_run (created : Z) (row : Row) (s : World * list event) :
  exists w t (ok : bool),
    send_row World send_message created row s
    = ((w, s.2 ++ t), inl (created + if ok then 1 else 0))
    /\ row_run World send_message row s.1 t ok w.
Proof.
  unfold send_row, try_except, bind, client_send, time_sleep, emit, ret. simpl.
  destruct (send_message (new_snapshot_address (snap_index row)) (PInt 0) s.1)
    as [w1 [e|]] eqn:E1; simpl.
  - exists w1; eexists; exists false. rewrite <- app_assoc, Z.add_0_r.
    split; [reflexivity|]. now apply run_create_raised.
  - destruct (send_message (rename_snapshot_address (snap_index row))
                (PStr (name row)) w1) as [w2 [e|]] eqn:E2; simpl.
    + exists w2; eexists; exists false. rewrite <- !app_assoc, Z.add_0_r.
      split; [reflexivity|]. now apply (run_rename_raised _ _ _ _ w1).
    + exists w2; eexists; exists true. rewrite <- !app_assoc.
      split; [reflexivity|]. now apply (run_completed _ _ _ _ w1).
Qed.

Lemma count_true_cons (ok : bool) (oks : list bool) :
  count_true (ok :: oks) = (if ok then 1 else 0) + count_true oks.
Proof. unfold count_true. destruct ok; simpl; lia. Qed.

Lemma send_rows_run (rows : list Row) (created : Z) (s : World * list event) :
  exists w t oks,
    send_rows World send_message created rows s
    = ((w, s.2 ++ t), inl (created + count_true oks))
    /\ rows_run World send_message rows s.1 t oks w.
Proof.
  revert created s. induction rows as [|row rows IH]; intros created s; simpl.
  - exists s.1, [], []. rewrite app_nil_r. unfold count_true. simpl.
    rewrite Z.add_0_r. destruct s. split; [reflexivity|constructor].
  - destruct (send_row_run created row s) as (w1 & t1 & ok & E1 & Ht1).
    unfold bind. rewrite E1.
    destruct (IH (created + (if ok then 1 else 0)) (w1, s.2 ++ t1))
      as (w2 & t2 & oks & E2 & Ht2).
    exists w2, (t1 ++ t2), (ok :: oks).
    rewrite E2, count_true_cons. simpl. rewrite <- app_assoc, Z.add_assoc.
    split; [reflexivity|]. econstructor; eassumption.
Qed.

(** What [send_message] did decides the run. *)
Lemma row_run_det (row : Row) (w : World) (t t' : list event) (ok ok' : bool)
  (w1 w1' : World) :
  row_run World send_message row w t ok w1 ->
  row_run World send_message row w t' ok' w1' ->
  t' = t /\ ok' = ok /\ w1' = w1.
Proof.
  destruct 1; destruct 1;
    repeat match goal with
           | H : send_message ?a ?p ?w0 = _, H' : send_message ?a ?p ?w0 = _ |- _ =>
               rewrite H in H'; injection H' as ?; subst
           end; try discriminate; auto.
Qed.

Lemma rows_run_det (rows : list Row) (w : World) (t t' : list event)
  (oks oks' : list bool) (w1 w1' : World) :
  rows_run World send_message rows w t oks w1 ->
  rows_run World send_message rows w t' oks' w1' ->
  t' = t /\ oks' = oks /\ w1' = w1.
Proof.
  intros H. revert t' oks' w1'.
  induction H as [w|row rows w wa wb t ts ok oks Hrow Hrows IH]; intros t' oks' w1' H'.
  - inversion H'; subst. auto.
  - inversion H' as [|? ? ? wa' wb' t2 ts2 ok2 oks2 Hrow' Hrows']; subst.
    destruct (row_run_det _ _ _ _ _ _ _ _ Hrow Hrow') as (-> & -> & ->).
    destruct (IH _ _ _ Hrows') as (-> & -> & ->). auto.
Qed.

Lemma rows_run_length (rows : list Row) (w : World) (t : list event)
  (oks : list bool) (w1 : World) :
  rows_run World send_message rows w t oks w1 -> length oks = length rows.
Proof. induction 1; simpl; congruence. Qed.

(** A run leaves the events of the trace relation, whatever the
    worlds. *)
Lemma row_run_trace (row : Row) (w : World) (t : list event) (ok : bool) (w1 : World) :
  row_run World send_message row w t ok w1 -> row_trace row t ok.
Proof. destruct 1; constructor. Qed.

Lemma rows_run_trace (rows : list Row) (w : World) (t : list event)
  (oks : list bool) (w1 : World) :
  rows_run World send_message rows w t oks w1 -> rows_trace rows t (count_true oks).
Proof.
  induction 1 as [w|row rows w wa wb t ts ok oks Hrow _ IH].
  - constructor.
  - rewrite count_true_cons. constructor; [|assumption].
    now apply (row_run_trace _ _ _ _ _ Hrow).
Qed.

Lemma replay_app (w w1 : World) (t1 t2 : list event) :
  replay World send_message w t1 = (w1, true) ->
  replay World send_message w (t1 ++ t2) = replay World send_message w1 t2.
Proof.
  revert w. induction t1 as [|ev t1 IH]; intros w; simpl.
  - now intros [= ->].
  - destruct ev as [address arg r| | | |]; try apply IH.
    destruct (send_message address arg w) as [wa r1].
    destruct (decide (r1 = r)); [apply IH|discriminate].
Qed.

(** The trace of a run records what [send_message] gave, call by
    call. *)
Lemma row_run_replay (row : Row) (w : World) (t : list event) (ok : bool) (w1 : World) :
  row_run World send_message row w t ok w1 ->
  replay World send_message w t = (w1, true).
Proof.
  destruct 1; simpl;
    repeat match goal with
           | H : send_message _ _ _ = _ |- _ => rewrite H; clear H
           end;
    repeat (rewrite decide_True by reflexivity); reflexivity.
Qed.

Lemma rows_run_replay (rows : list Row) (w : World) (t : list event)
  (oks : list bool) (w1 : World) :
  rows_run World send_message rows w t oks w1 ->
  replay World send_message w t = (w1, true).
Proof.
  induction 1 as [w|row rows w wa wb t ts ok oks Hrow _ IH]; [reflexivity|].
  rewrite (replay_app _ _ _ _ (row_run_replay _ _ _ _ _ Hrow)). exact IH.
Qed.

Section NothingRaises.
Hypothesis never_raises : forall address arg w, (send_message address arg w).2 = None.

Lemma send_row_commands (created : Z) (row : Row) (s : World * list event) :
  exists w,
    send_row World send_message created row s
    = ((w, s.2 ++ row_commands row), inl (created + 1)).
Proof.
  unfold send_row, try_except, bind, client_send, time_sleep, emit, ret. simpl.
  pose proof (never_raises (new_snapshot_address (snap_index row)) (PInt 0) s.1) as H1.
  destruct (send_message (new_snapshot_address (snap_index row)) (PInt 0) s.1)
    as [w1 r1]. simpl in H1. subst r1. simpl.
  pose proof (never_raises (rename_snapshot_address (snap_index row))
                (PStr (name row)) w1) as H2.
  destruct (send_message (rename_snapshot_address (snap_index row))
              (PStr (name row)) w1) as [w2 r2]. simpl in H2. subst r2. simpl.
  exists w2. now rewrite <- !app_assoc.
Qed.

Lemma send_rows_commands (rows : list Row) (created : Z) (s : World * list event) :
  exists w,
    send_rows World send_message created rows s
    = ((w, s.2 ++ flat_map row_commands rows),
       inl (created + Z.of_nat (length rows))).
Proof.
  revert created s. induction rows as [|row rows IH]; intros created s.
  - exists s.1. simpl. rewrite app_nil_r, Z.add_0_r. now destruct s.
  - destruct (send_row_commands created row s) as (w1 & E1).
    destruct (IH (created + 1) (w1, s.2 ++ row_commands row)) as (w2 & E2).
    exists w2. cbn [send_rows]. unfold bind. rewrite E1, E2.
    cbn [flat_map length fst snd]. rewrite <- app_assoc. do 2 f_equal. lia.
Qed.
End NothingRaises.
End EmitterFacts.

Lemma filter_row_commands (rows : list Row) :
  List.filter is_send (flat_map row_commands rows) = flat_map row_sends rows.
Proof.
  induction rows as [|row rows IH]; simpl; [reflexivity|]. now rewrite IH.
Qed.

Section SendTask.
Variable World : Type.
Variable send_message : string -> payload -> World -> World * option string.

(** C3.  The task goes through the rows in order, each from the
    world the row before left, and ends by logging the count.  What
    [send_message] gives decides each row: create, sleep, rename,
    sleep when neither call raises, and the row counts; or the create
    that raised; or create, sleep and the rename that raised; an
    exception is logged and the next row follows.  The count is the
    number of rows that were completed.  Where the transport never
    raises, the events of [n] rows are create, sleep, rename, sleep
    for each row in turn: [2 * n] commands, and the count is [n]. *)
Theorem send_task_trace (rows : list Row) (w : World) :
  exists w' t oks,
    send_task World send_message rows (w, [])
    = ((w', t ++ [LogDone (count_true oks)]), inl (count_true oks))
    /\ rows_run World send_message rows w t oks w'
    /\ (forall w2 t2 oks2,
           rows_run World send_message rows w t2 oks2 w2 ->
           t2 = t /\ oks2 = oks /\ w2 = w')
    /\ length oks = length rows
    /\ ((forall address arg w0, (send_message address arg w0).2 = None) ->
        t = flat_map row_commands rows
        /\ List.filter is_send t = flat_map row_sends rows
        /\ length (List.filter is_send t) = (2 * length rows)%nat
        /\ count_true oks = Z.of_nat (length rows)).
Proof.
  destruct (send_rows_run World send_message rows 0 (w, [])) as (w' & t & oks & E & Ht).
  simpl in Ht.
  exists w', t, oks. unfold send_task, bind, emit, ret. rewrite E. simpl.
  split; [reflexivity|]. split; [assumption|].
  split; [intros w2 t2 oks2; now apply rows_run_det|].
  split; [now apply (rows_run_length _ _ _ _ _ _ _ Ht)|].
  intros Hok.
  destruct (send_rows_commands World send_message Hok rows 0 (w, [])) as (w2 & E2).
  rewrite E in E2. simpl in E2. injection E2 as _ -> Hn.
  rewrite filter_row_commands.
  repeat split; [|lia]. clear.
  induction rows as [|row rows IH]; simpl; [reflexivity|]. rewrite IH. lia.
Qed.

(** C4 on the code.  When the create of a row raises, the exception
    is logged and the rename of that row is not sent; when it returns,
    the rename is sent after the sleep. *)
Theorem rename_follows_create (created : Z) (row : Row) (s : World * list event) :
  (forall w e,
      send_message (new_snapshot_address (snap_index row)) (PInt 0) s.1 = (w, Some e) ->
      send_row World send_message created row s
      = ((w, s.2 ++ [Send (new_snapshot_address (snap_index row)) (PInt 0) (Some e);
                     LogOscError (snap_index row) e]),
         inl created))
  /\ (forall w,
         send_message (new_snapshot_address (snap_index row)) (PInt 0) s.1 = (w, None) ->
         exists w' r rest res,
           send_row World send_message created row s
           = ((w', s.2 ++ [Send (new_snapshot_address (snap_index row)) (PInt 0) None;
                           Sleep 200;
                           Send (rename_snapshot_address (snap_index row))
                             (PStr (name row)) r] ++ rest),
              res)).
Proof.
  split.
  - intros w e E.
    unfold send_row, try_except, bind, client_send, time_sleep, emit, ret. simpl.
    rewrite E. simpl. now rewrite <- app_assoc.
  - intros w E.
    unfold send_row, try_except, bind, client_send, time_sleep, emit, ret. simpl.
    rewrite E. simpl.
    destruct (send_message (rename_snapshot_address (snap_index row))
                (PStr (name row)) w) as [w2 [e|]] eqn:E2; simpl.
    + exists w2, (Some e), [LogOscError (snap_index row) e], (inl created).
      now rewrite <- !app_assoc.
    + exists w2, None, [Sleep 200; LogSnapshot (snap_index row) (name row)],
        (inl (created + 1)).
      now rewrite <- !app_assoc.
Qed.
End SendTask.

Lemma send_task_trace_witness :
  let rows := [welcome_row; {| name := "Offering"; snap_index := 1; seq := 2 |}] in
  send_task nat second_call_raises rows (0%nat, [])
  = ((4%nat,
      [Send "/Snapshots/New_Snapshot/0" (PInt 0) None;
       Sleep 200;
       Send "/Snapshots/Rename_Snapshot/0" (PStr "Welcome") (Some "Network is unreachable");
       LogOscError 0 "Network is unreachable";
       Send "/Snapshots/New_Snapshot/1" (PInt 0) None;
       Sleep 200;
       Send "/Snapshots/Rename_Snapshot/1" (PStr "Offering") None;
       Sleep 200;
       LogSnapshot 1 "Offering";
       LogDone 1]),
     inl 1)
  /\ (exists w' t oks,
        send_task nat second_call_raises rows (0%nat, [])
        = ((w', t ++ [LogDone (count_true oks)]), inl (count_true oks))
        /\ rows_run nat second_call_raises rows 0%nat t oks w'
        /\ oks = [false; true])
  /\ (forall address arg w0, (sends_all address arg w0).2 = None)
  /\ exists w' t oks,
      send_task unit sends_all rows (tt, [])
      = ((w', t ++ [LogDone (count_true oks)]), inl (count_true oks))
      /\ t = flat_map row_commands rows
      /\ length (List.filter is_send t) = (2 * length rows)%nat
      /\ count_true oks = Z.of_nat (length rows).
Proof.
  intros rows. split; [vm_compute; reflexivity|]. split; [|split; [reflexivity|]].
  - destruct (send_task_trace nat second_call_raises rows 0%nat)
      as (w' & t & oks & E & Hrun & Hdet & _).
    exists w', t, oks. split; [exact E|]. split; [exact Hrun|].
    assert (Hrun0 : exists t0,
               rows_run nat second_call_raises rows 0%nat t0 [false; true] 4%nat).
    { eexists.
      eapply rows_run_cons;
        [eapply (run_rename_raised _ _ _ _ 1%nat 2%nat); reflexivity|].
      eapply rows_run_cons;
        [eapply (run_completed _ _ _ _ 3%nat 4%nat); reflexivity|].
      apply rows_run_nil. }
    destruct Hrun0 as [t0 Hrun0].
    destruct (Hdet _ _ _ Hrun0) as (_ & Hoks & _). now symmetry.
  - destruct (send_task_trace unit sends_all rows tt)
      as (w' & t & oks & E & _ & _ & _ & H).
    destruct (H ltac:(reflexivity)) as (Ht & _ & Hl & Hc).
    exists w', t, oks. auto.
Defined.

Lemma rename_follows_create_witness :
  (create_raises (new_snapshot_address 0) (PInt 0) tt = (tt, Some "Network is unreachable")
   /\ send_row unit create_raises 0 welcome_row (tt, [])
      = ((tt, [Send (new_snapshot_address 0) (PInt 0) (Some "Network is unreachable");
               LogOscError 0 "Network is unreachable"]),
         inl 0))
  /\ (sends_all (new_snapshot_address 0) (PInt 0) tt = (tt, None)
      /\ exists w' r rest res,
          send_row unit sends_all 0 welcome_row (tt, [])
          = ((w', [] ++ [Send (new_snapshot_address 0) (PInt 0) None;
                         Sleep 200;
                         Send (rename_snapshot_address 0) (PStr "Welcome") r] ++ rest),
             res)).
Proof.
  split; (split; [reflexivity|]).
  - apply (proj1 (rename_follows_create unit create_raises 0 welcome_row (tt, []))).
    reflexivity.
  - apply (proj2 (rename_follows_create unit sends_all 0 welcome_row (tt, [])) tt).
    reflexivity.
Defined.

(** C4 fails on the code: on a transport where the create raises, the
    task sends no rename for the row. *)
Lemma rename_after_failed_create_counterexample :
  (send_task unit create_raises [welcome_row] (tt, [])).1.2
  = [Send "/Snapshots/New_Snapshot/0" (PInt 0) (Some "Network is unreachable");
     LogOscError 0 "Network is unreachable";
     LogDone 0]
  /\ ~ exists r,
        In (Send (rename_snapshot_address (snap_index welcome_row))
              (PStr (name welcome_row)) r)
           (send_task unit create_raises [welcome_row] (tt, [])).1.2.
Proof.
  split; [vm_compute; reflexivity|].
  intros [r Hin]. vm_compute in Hin.
  destruct Hin as [H|[H|[H|[]]]]; discriminate.
Qed.

(** * Further properties *)

(** ** Bounds of the indices *)

Lemma snapshot_offset_nonneg (flag : bool) (count : string) :
  0 <= snapshot_offset flag count.
Proof.
  unfold snapshot_offset. destruct flag; [|lia].
  destruct (py_int _) as [n|]; [|simpl; lia].
  destruct (Z.ltb_spec n 0); lia.
Qed.

(** The offset is never negative, whatever the count field holds, so
    in a build that returns rows every [snap_index] lies from the
    offset up to the offset plus the number of rows, excluded, and is
    not negative, and every [seq] lies from 1 to the number of rows. *)
Theorem row_index_bounds (self : App) (rows : list Row) (offset : Z) (r : Row) :
  _collect_preview_rows self = Returned (rows, offset, None) ->
  In r rows ->
  0 <= offset
  /\ offset <= snap_index r < offset + Z.of_nat (length rows)
  /\ 1 <= seq r <= Z.of_nat (length rows).
Proof.
  intros H Hr.
  destruct (collect_preview_rows_rows _ _ _ H) as (doc & _ & Hoff & Hrows).
  assert (H0 : 0 <= offset) by (rewrite Hoff; apply snapshot_offset_nonneg).
  split; [assumption|].
  apply list_elem_of_In, list_elem_of_lookup in Hr as [i Hi].
  pose proof (lookup_lt_Some _ _ _ Hi) as Hlt.
  rewrite Hrows in Hi. apply number_rows_lookup in Hi as (nm & _ & ->). simpl.
  lia.
Qed.

Lemma row_index_bounds_witness :
  let r := {| name := "Welcome"; snap_index := 13; seq := 2 |} in
  _collect_preview_rows sample_app = Returned (sample_rows, 12, None)
  /\ In r sample_rows
  /\ 0 <= 12
  /\ 12 <= snap_index r < 12 + Z.of_nat (length sample_rows)
  /\ 1 <= seq r <= Z.of_nat (length sample_rows).
Proof.
  intros r. split; [vm_compute; reflexivity|]. split; [simpl; auto|].
  apply (row_index_bounds sample_app sample_rows 12 r);
    [vm_compute; reflexivity|simpl; auto].
Defined.

(** ** The addresses *)

Lemma to_int_not_nil (n : Z) :
  Z.to_int n <> Decimal.Pos Decimal.Nil /\ Z.to_int n <> Decimal.Neg Decimal.Nil.
Proof.
  destruct n as [|p|p]; simpl; split; try discriminate;
    intros [= H]; now apply (DecimalPos.Unsigned.to_uint_nonnil p).
Qed.

Lemma str_of_int_inj (a b : Z) : str_of_int a = str_of_int b -> a = b.
Proof.
  unfold str_of_int. intros H.
  apply (f_equal NilZero.int_of_string) in H.
  destruct (to_int_not_nil a) as [Ha1 Ha2], (to_int_not_nil b) as [Hb1 Hb2].
  rewrite !NilZero.isi in H by assumption.
  injection H as H. now apply DecimalZ.to_int_inj.
Qed.

Lemma append_inj_r (p s s' : string) : String.append p s = String.append p s' -> s = s'.
Proof.
  induction p as [|c p IH]; simpl; [auto|]. intros [= H]. now apply IH.
Qed.

(** Two snapshot indices never share an address, and the rows of a
    build have indices that differ, so each row of a build has a
    create address and a rename address of its own. *)
Theorem row_addresses_distinct (self : App) (rows : list Row) (offset : Z) :
  _collect_preview_rows self = Returned (rows, offset, None) ->
  (forall a b, new_snapshot_address a = new_snapshot_address b -> a = b)
  /\ (forall a b, rename_snapshot_address a = rename_snapshot_address b -> a = b)
  /\ NoDup (map (fun r => new_snapshot_address (snap_index r)) rows)
  /\ NoDup (map (fun r => rename_snapshot_address (snap_index r)) rows).
Proof.
  intros H.
  assert (Hn : forall a b, new_snapshot_address a = new_snapshot_address b -> a = b).
  { intros a b E. now apply append_inj_r, str_of_int_inj in E. }
  assert (Hr : forall a b, rename_snapshot_address a = rename_snapshot_address b -> a = b).
  { intros a b E. now apply append_inj_r, str_of_int_inj in E. }
  destruct (collect_preview_rows_rows _ _ _ H) as (doc & _ & _ & Hrows).
  assert (Hidx : forall i j ri rj,
             rows !! i = Some ri -> rows !! j = Some rj ->
             snap_index ri = snap_index rj -> i = j).
  { intros i j ri rj Hi Hj E. rewrite Hrows in Hi, Hj.
    apply number_rows_lookup in Hi as (? & _ & ->).
    apply number_rows_lookup in Hj as (? & _ & ->). simpl in E. lia. }
  repeat split; try assumption.
  - change (NoDup ((fun r => new_snapshot_address (snap_index r)) <$> rows)).
    apply NoDup_alt. intros i j a. rewrite !list_lookup_fmap.
    destruct (rows !! i) as [ri|] eqn:Hi; [|discriminate].
    destruct (rows !! j) as [rj|] eqn:Hj; [|discriminate].
    simpl. intros Ea Eb.
    assert (E : new_snapshot_address (snap_index ri)
                = new_snapshot_address (snap_index rj)) by congruence.
    apply Hn in E. eapply Hidx; eauto.
  - change (NoDup ((fun r => rename_snapshot_address (snap_index r)) <$> rows)).
    apply NoDup_alt. intros i j a. rewrite !list_lookup_fmap.
    destruct (rows !! i) as [ri|] eqn:Hi; [|discriminate].
    destruct (rows !! j) as [rj|] eqn:Hj; [|discriminate].
    simpl. intros Ea Eb.
    assert (E : rename_snapshot_address (snap_index ri)
                = rename_snapshot_address (snap_index rj)) by congruence.
    apply Hr in E. eapply Hidx; eauto.
Qed.

Lemma row_addresses_distinct_witness :
  _collect_preview_rows sample_app = Returned (sample_rows, 12, None)
  /\ NoDup (map (fun r => new_snapshot_address (snap_index r)) sample_rows)
  /\ NoDup (map (fun r => rename_snapshot_address (snap_index r)) sample_rows).
Proof.
  split; [vm_compute; reflexivity|].
  apply (row_addresses_distinct sample_app sample_rows 12). vm_compute. reflexivity.
Defined.

(** ** What a run sends, whatever the transport does *)

Lemma row_trace_facts (row : Row) (t : list event) (ok : bool) :
  row_trace row t ok ->
  map address_of (List.filter is_create t) = [new_snapshot_address (snap_index row)]
  /\ (1 <= length (List.filter is_send t) <= 2)%nat
  /\ (ok = true <-> Forall (fun ev => raised_of ev = false) t).
Proof.
  destruct 1; simpl; (split; [reflexivity|]); (split; [lia|]); split;
    try discriminate; try (intros _; solve [repeat constructor]).
  - intros H. inversion H; subst. discriminate.
  - intros H. inversion H as [|? ? _ H1]; subst.
    inversion H1 as [|? ? _ H2]; subst. inversion H2; subst. discriminate.
Qed.

Lemma rows_trace_facts (rows : list Row) (t : list event) (n : Z) :
  rows_trace rows t n ->
  map address_of (List.filter is_create t)
  = map (fun r => new_snapshot_address (snap_index r)) rows
  /\ (length rows <= length (List.filter is_send t) <= 2 * length rows)%nat
  /\ 0 <= n <= Z.of_nat (length rows)
  /\ (n = Z.of_nat (length rows) <-> Forall (fun ev => raised_of ev = false) t).
Proof.
  induction 1 as [|row rows t ts ok n Hrow Hrows (IH1 & IH2 & IH3 & IH4)].
  - simpl. repeat split; try lia; constructor.
  - destruct (row_trace_facts row t ok Hrow) as (H1 & H2 & H3).
    rewrite !List.filter_app, map_app, length_app, H1, IH1. simpl length.
    split; [reflexivity|]. split; [lia|]. split; [destruct ok; lia|].
    rewrite List.Forall_app. split.
    + intros E. destruct ok; [|lia].
      split; [now apply H3|apply IH4; lia].
    + intros [Ht Hts]. apply H3 in Ht. apply IH4 in Hts. subst ok. lia.
Qed.

Section RunFacts.
Variable World : Type.
Variable send_message : string -> payload -> World -> World * option string.

(** On any transport the task returns a count, and its trace records
    the calls of [send_message] as they were made: made again in order
    from the first world, each gives what the trace says it gave, and
    they end in the world the task ended in.  The create of every row
    is called once, in the order of the rows, whatever raised before,
    and there are one or two calls per row.  The count lies between 0
    and the number of rows and reaches it exactly when no call
    raised. *)
Theorem every_create_attempted (rows : list Row) (w : World) :
  let run := send_task World send_message rows (w, []) in
  replay World send_message w run.1.2 = (run.1.1, true)
  /\ map address_of (List.filter is_create run.1.2)
     = map (fun r => new_snapshot_address (snap_index r)) rows
  /\ (length rows <= length (List.filter is_send run.1.2) <= 2 * length rows)%nat
  /\ exists n,
      run.2 = inl n
      /\ 0 <= n <= Z.of_nat (length rows)
      /\ (n = Z.of_nat (length rows)
          <-> Forall (fun ev => raised_of ev = false) run.1.2).
Proof.
  destruct (send_rows_run World send_message rows 0 (w, [])) as (w' & t & oks & E & Hrun).
  simpl in Hrun.
  unfold send_task, bind, emit, ret. rewrite E. simpl.
  pose proof (rows_run_trace _ _ _ _ _ _ _ Hrun) as Ht.
  destruct (rows_trace_facts rows t _ Ht) as (H1 & H2 & H3 & H4).
  split.
  { rewrite (replay_app _ _ _ _ _ _ (rows_run_replay _ _ _ _ _ _ _ Hrun)). reflexivity. }
  rewrite !List.filter_app, map_app, length_app. simpl. rewrite !app_nil_r, Nat.add_0_r.
  split; [assumption|]. split; [assumption|].
  exists (count_true oks). split; [reflexivity|]. split; [assumption|].
  rewrite H4, List.Forall_app. split; [intros H; split; [assumption|repeat constructor]|].
  now intros [H _].
Qed.
End RunFacts.

Lemma every_create_attempted_witness :
  let rows := [welcome_row; {| name := "Offering"; snap_index := 1; seq := 2 |}] in
  let run := send_task nat second_call_raises rows (0%nat, []) in
  run.2 = inl 1
  /\ replay nat second_call_raises 0%nat run.1.2 = (4%nat, true)
  /\ replay nat (fun _ _ w => (S w, None)) 0%nat run.1.2 = (2%nat, false)
  /\ map address_of (List.filter is_create run.1.2)
     = ["/Snapshots/New_Snapshot/0"; "/Snapshots/New_Snapshot/1"].
Proof.
  intros rows run.
  destruct (every_create_attempted nat second_call_raises rows 0%nat)
    as (H1 & H2 & _).
  split; [vm_compute; reflexivity|]. split; [exact H1|].
  split; [vm_compute; reflexivity|]. exact H2.
Defined.

(** ** What the build does not look at *)

Lemma visit_selected (m : gmap string (list string)) (labels : list string)
  (lbl tid : string) :
  In lbl labels -> In tid (ids_of m lbl) -> tid ∈ selected_time_ids m labels.
Proof.
  intros Hl Ht. rewrite selected_time_ids_visits.
  apply list_elem_of_fmap. exists (lbl, tid). split; [reflexivity|].
  apply list_elem_of_In. unfold visits. apply List.in_flat_map.
  exists lbl. split; [assumption|]. now apply List.in_map.
Qed.

Lemma flat_map_ext_In {A B : Type} (f g : A -> list B) (l : list A) :
  (forall x, In x l -> f x = g x) -> flat_map f l = flat_map g l.
Proof.
  intros H. apply flat_map_ext_elem. intros x Hx. apply H. now apply list_elem_of_In.
Qed.

Lemma forallb_app_mid {A : Type} (f : A -> bool) (l1 l2 : list A) (x : A) :
  f x = true -> forallb f (l1 ++ x :: l2) = forallb f (l1 ++ l2).
Proof. intros Hx. rewrite !forallb_app. simpl. now rewrite Hx. Qed.

(** An included resource that is not an item time, whatever its
    relationships, or an item time whose plan time can be read and is
    no selected plan time, changes nothing: the build returns, or
    raises, the same with it and without it. *)
Theorem other_resources_ignored (self : App) (plan_items : list PlanItem)
  (l1 l2 : list ItemTime) (x : ItemTime) :
  r_type x <> Some "ItemTime"
  \/ (exists o,
         rel_plan_time x = Returned o
         /\ forall tid,
             o = Some tid ->
             tid ∉ selected_time_ids (time_id_by_label (plan_times self))
                     (selected_time_labels self)) ->
  _collect_preview_rows
    (set_items self {| included := l1 ++ x :: l2; data := plan_items |})
  = _collect_preview_rows
      (set_items self {| included := l1 ++ l2; data := plan_items |}).
Proof.
  intros Hx.
  destruct (hasattr (times_data self)) eqn:Ht;
    [|unfold _collect_preview_rows; simpl; rewrite Ht; reflexivity].
  destruct (curselection self) as [|i sel] eqn:Hs;
    [unfold _collect_preview_rows; simpl; rewrite Ht, Hs; reflexivity|].
  rewrite (collect_preview_rows_loaded
             (set_items self {| included := l1 ++ x :: l2; data := plan_items |})
             {| included := l1 ++ x :: l2; data := plan_items |})
    by (simpl; congruence).
  rewrite (collect_preview_rows_loaded
             (set_items self {| included := l1 ++ l2; data := plan_items |})
             {| included := l1 ++ l2; data := plan_items |})
    by (simpl; congruence).
  simpl. change (selected_time_labels (set_items self ?d)) with (selected_time_labels self).
  assert (Hr : readable_plan_time x = true).
  { unfold readable_plan_time. destruct Hx as [Hx|(o & -> & _)].
    - now rewrite bool_decide_eq_false_2.
    - apply orb_true_r. }
  rewrite (forallb_app_mid _ _ _ _ Hr).
  assert (E : flattened (plan_times self) (selected_time_labels self) (l1 ++ x :: l2)
              = flattened (plan_times self) (selected_time_labels self) (l1 ++ l2));
    [|now rewrite E].
  unfold flattened.
  apply flat_map_ext_In. intros lbl Hlbl.
  apply flat_map_ext_In. intros tid Htid. rewrite <- ids_of_label in Htid.
  unfold sorted_bucket. f_equal.
  change (x :: l2) with ([x] ++ l2). rewrite !bucket_app.
  assert (Hb : bucket [x] tid = []); [|now rewrite Hb].
  unfold bucket. rewrite filter_cons, filter_nil.
  rewrite decide_False; [reflexivity|]. intros [Hty Hrel].
  destruct Hx as [Hx|(o & Ho & Hx)]; [contradiction|].
  rewrite Ho in Hrel. injection Hrel as ->.
  apply (Hx tid eq_refl). now apply (visit_selected _ _ lbl).
Qed.

Lemma other_resources_ignored_witness :
  let x := {| r_type := Some "Item"; relationships := NotObject;
              live_start_at := None; starts_at := None; exclude := false |} in
  let y := item_time "t9" "i1" "2024-01-07T08:00" false in
  r_type x <> Some "ItemTime"
  /\ _collect_preview_rows
       (set_items sample_app
          {| included := [] ++ x :: included sample_items; data := data sample_items |})
     = _collect_preview_rows
         (set_items sample_app
            {| included := [] ++ included sample_items; data := data sample_items |})
  /\ rel_plan_time y = Returned (Some "t9")
  /\ _collect_preview_rows
       (set_items sample_app
          {| included := [] ++ y :: included sample_items; data := data sample_items |})
     = _collect_preview_rows
         (set_items sample_app
            {| included := [] ++ included sample_items; data := data sample_items |}).
Proof.
  intros x y. split; [discriminate|]. split; [|split; [reflexivity|]].
  - apply (other_resources_ignored sample_app (data sample_items) []
             (included sample_items) x).
    left. discriminate.
  - apply (other_resources_ignored sample_app (data sample_items) []
             (included sample_items) y).
    right. exists (Some "t9"). split; [reflexivity|].
    intros tid [= <-]. rewrite list_elem_of_In. vm_compute.
    intros [H|[H|[]]]; discriminate H.
Defined.

(** ** A label selected in two rows *)

(** In a build that returns without an error, when two selected rows
    of the listbox show the same label and no other row is selected,
    every bucket of that label is gone through twice: the rows are
    those of one selection, followed by the same names again. *)
Theorem label_selected_twice (self : App) (rows : list Row) (offset : Z)
  (i j : nat) (lbl : string) :
  _collect_preview_rows self = Returned (rows, offset, None) ->
  curselection self = [i; j] ->
  lst_times self !! i = Some lbl ->
  lst_times self !! j = Some lbl ->
  exists doc names,
    items_data self = Assigned (Some doc)
    /\ names = row_names (data doc)
                 (flat_map (sorted_bucket (included doc))
                    (label_ids (plan_times self) lbl))
    /\ rows = number_rows offset (names ++ names).
Proof.
  intros H Hsel Hi Hj.
  destruct (collect_preview_rows_rows _ _ _ H) as (doc & Hdoc & _ & Hrows).
  exists doc. eexists. split; [assumption|]. split; [reflexivity|].
  rewrite Hrows. unfold selected_time_labels. rewrite Hsel. simpl. rewrite Hi, Hj. simpl.
  unfold flattened. simpl. rewrite app_nil_r, row_names_app. reflexivity.
Qed.

Lemma label_selected_twice_witness :
  let self := set_curselection sample_app [0%nat; 2%nat] in
  let names := ["Opening Song"; "Welcome"; "He said 'hi'"] in
  _collect_preview_rows self = Returned (number_rows 12 (names ++ names), 12, None)
  /\ exists doc names',
      items_data self = Assigned (Some doc)
      /\ names' = row_names (data doc)
                    (flat_map (sorted_bucket (included doc))
                       (label_ids (plan_times self) "9:00 AM"))
      /\ number_rows 12 (names ++ names) = number_rows 12 (names' ++ names').
Proof.
  intros self names. split; [vm_compute; reflexivity|].
  apply (label_selected_twice self (number_rows 12 (names ++ names)) 12 0 2 "9:00 AM");
    [vm_compute; reflexivity|reflexivity|reflexivity|reflexivity].
Defined.

(** ** From the list box back to the plan times *)

Lemma label_key_idem (l : string) : label_key (label_key l) = label_key l.
Proof. destruct l; reflexivity. Qed.

Lemma label_key_not_empty (l : string) : label_key l <> "".
Proof. destruct l; discriminate. Qed.

Lemma load_plan_times_length (fromisoformat : string -> option datetime)
  (format_time_label : option string -> option string -> string)
  (ts : list PlanTimeResource) :
  length (load_plan_times fromisoformat format_time_label ts) = Nat.max 1 (length ts).
Proof.
  unfold load_plan_times. destruct ts as [|t ts]; [reflexivity|].
  cbn [map length]. rewrite length_map. lia.
Qed.

Lemma listbox_rows_returned (pts : list PlanTime) (rows : list string) :
  listbox_rows pts = Returned rows ->
  exists srt, rows = map shown_label srt /\ Permutation srt pts.
Proof.
  unfold listbox_rows.
  destruct (sorted instant_key datetime_lt pts) as [srt|e] eqn:E; [|discriminate].
  intros [= <-]. exists srt. split; [reflexivity|].
  assert (Hc : comparable (map instant_key pts) = true)
    by (apply sorted_returns_iff; now exists srt).
  rewrite (sorted_comparable instant_key pts Hc) in E. injection E as <-.
  apply list_sort_perm.
Qed.

Section LoadFacts.
Variable fromisoformat : string -> option datetime.
Variable format_time_label : option string -> option string -> string.

(** After a load that went through, the list box has one row per
    plan time, and at least one.  Every plan time is shown under a row
    that resolves, in the build, to a list of ids holding its id; and
    every row is not empty, is the label of a plan time, and resolves
    to at least one id. *)
Theorem load_round_trip (self : App) (items : ItemsDoc) (tdoc : TimesDoc) :
  let loaded := on_load_plan_times fromisoformat format_time_label self items tdoc in
  loaded.2 = None ->
  length (lst_times loaded.1) = length (plan_times loaded.1)
  /\ length (plan_times loaded.1) = Nat.max 1 (length (default [] (times tdoc)))
  /\ (forall pt : PlanTime,
         In pt (plan_times loaded.1) ->
         In (shown_label pt) (lst_times loaded.1)
         /\ In pt.1.1 (ids_of (time_id_by_label (plan_times loaded.1)) (shown_label pt)))
  /\ (forall row,
         In row (lst_times loaded.1) ->
         row <> ""
         /\ ids_of (time_id_by_label (plan_times loaded.1)) row <> []
         /\ exists pt : PlanTime, In pt (plan_times loaded.1) /\ shown_label pt = row).
Proof.
  intros loaded. unfold loaded, on_load_plan_times.
  set (pts := load_plan_times fromisoformat format_time_label (default [] (times tdoc))).
  destruct (listbox_rows pts) as [rows|e] eqn:E; simpl; [intros _|discriminate].
  destruct (listbox_rows_returned pts rows E) as (srt & -> & Hperm).
  assert (Hids : forall pt : PlanTime,
             In pt pts -> In pt.1.1 (ids_of (time_id_by_label pts) (shown_label pt))).
  { intros pt Hpt. rewrite ids_of_label. unfold label_ids.
    apply (List.in_map (fun p : PlanTime => p.1.1)).
    apply list_elem_of_In, list_elem_of_filter. split.
    - unfold shown_label. fold (label_key pt.1.2). now rewrite label_key_idem.
    - now apply list_elem_of_In. }
  split; [rewrite length_map; now apply Permutation_length|].
  split; [apply load_plan_times_length|]. split.
  - intros pt Hpt. split; [|now apply Hids].
    apply List.in_map. now apply (Permutation_in _ (Permutation_sym Hperm)).
  - intros row Hrow. apply List.in_map_iff in Hrow as (pt & <- & Hpt).
    apply (Permutation_in _ Hperm) in Hpt.
    split; [apply label_key_not_empty|]. split.
    + intros Hnil. pose proof (Hids pt Hpt) as Hin. rewrite Hnil in Hin. contradiction.
    + now exists pt.
Qed.


(** Plan times whose instants compare and already ascend, as when
    none has an instant, are listed in the order they came in. *)
Theorem listed_in_order (ts : list PlanTimeResource) :
  let pts := load_plan_times fromisoformat format_time_label ts in
  comparable (map instant_key pts) = true ->
  Sorted (fun a b : PlanTime => rank (instant_key a) <= rank (instant_key b)) pts ->
  listbox_rows pts = Returned (map shown_label pts).
Proof.
  intros pts Hc Hs. unfold listbox_rows.
  rewrite (sorted_comparable instant_key pts Hc).
  rewrite (list_sort_id instant_key rank_ltb); [reflexivity|].
  eapply Sorted_ind with (P := Sorted (not_after instant_key rank_ltb)) in Hs;
    [exact Hs|constructor|].
  intros a l _ IH Hhd. constructor; [assumption|].
  destruct Hhd as [|b l Hab]; constructor.
  unfold not_after, rank_ltb. apply Z.ltb_ge. exact Hab.
Qed.
End LoadFacts.

Lemma load_round_trip_witness :
  let loaded :=
    on_load_plan_times sample_fromisoformat sample_label __init__ sample_items
      {| times := Some [naive_time; missing_time] |} in
  loaded.2 = None
  /\ lst_times loaded.1 = ["Second"; "Third"]
  /\ length (lst_times loaded.1) = length (plan_times loaded.1)
  /\ (forall row,
         In row (lst_times loaded.1) ->
         row <> ""
         /\ ids_of (time_id_by_label (plan_times loaded.1)) row <> []
         /\ exists pt : PlanTime, In pt (plan_times loaded.1) /\ shown_label pt = row).
Proof.
  intros loaded. split; [vm_compute; reflexivity|]. split; [vm_compute; reflexivity|].
  destruct (load_round_trip sample_fromisoformat sample_label __init__ sample_items
              {| times := Some [naive_time; missing_time] |})
    as (H1 & _ & _ & H4); [vm_compute; reflexivity|].
  split; [exact H1|exact H4].
Defined.


Lemma listed_in_order_witness :
  let ts := [aware_time; later_time] in
  let pts := load_plan_times two_fromisoformat sample_label ts in
  map (fun pt : PlanTime => rank (instant_key pt)) pts
  = [63840236400000000; 63840243600000000]
  /\ comparable (map instant_key pts) = true
  /\ listbox_rows pts = Returned ["First"; "Fourth"]
  /\ listbox_rows (load_plan_times two_fromisoformat sample_label [later_time; aware_time])
     = Returned ["First"; "Fourth"].
Proof.
  intros ts pts. split; [vm_compute; reflexivity|]. split; [vm_compute; reflexivity|].
  split; [|vm_compute; reflexivity].
  apply (listed_in_order two_fromisoformat sample_label ts); [vm_compute; reflexivity|].
  repeat constructor; vm_compute; discriminate.
Defined.

(** ** The rows selected after a load *)

Lemma append_cons (c : ascii) (s t : string) :
  String.append (String c s) t = String c (String.append s t).
Proof. reflexivity. Qed.

Lemma prefix_append (needle s : string) :
  String.prefix needle s = true <-> exists post, s = String.append needle post.
Proof.
  revert s. induction needle as [|a needle IH]; intros s; simpl.
  - destruct s; split; eauto.
  - destruct s as [|b s]; [split; [discriminate|intros [post H]; discriminate]|].
    simpl. destruct (ascii_dec a b) as [->|Hne].
    + rewrite IH. split; intros [post H]; exists post;
        rewrite append_cons in *; congruence.
    + split; [discriminate|intros [post H]; rewrite append_cons in H; congruence].
Qed.

(** [needle in s] holds exactly when [s] is some string, the needle,
    and some string. *)
Lemma contains_spec (needle s : string) :
  contains needle s = true <->
  exists pre post, s = String.append pre (String.append needle post).
Proof.
  induction s as [|c s IH].
  - cbn [contains]. rewrite orb_false_r, prefix_append. split.
    + intros [post H]. now exists "", post.
    + intros ([|c pre] & post & H); [now exists post|discriminate].
  - cbn [contains]. rewrite orb_true_iff, prefix_append, IH. split.
    + intros [[post H]|(pre & post & H)].
      * now exists "", post.
      * exists (String c pre), post. rewrite append_cons. now rewrite H.
    + intros ([|c' pre] & post & H).
      * left. now exists post.
      * right. rewrite append_cons in H. injection H as _ H. now exists pre, post.
Qed.

Lemma preselect_shift (k : nat) (rows : list string) :
  (forall i,
      In i (map fst (filter (fun ir : nat * string => contains "9:00 AM" ir.2 = true)
                       (imap (fun i r => (k + i, r)%nat) rows)))
      <-> exists j r, i = (k + j)%nat /\ rows !! j = Some r /\ contains "9:00 AM" r = true)
  /\ StronglySorted Nat.lt
       (map fst (filter (fun ir : nat * string => contains "9:00 AM" ir.2 = true)
                   (imap (fun i r => (k + i, r)%nat) rows))).
Proof.
  revert k. induction rows as [|x rows IH]; intros k.
  - simpl. split; [|constructor]. intros i. split; [contradiction|].
    intros (j & r & _ & H & _). discriminate.
  - cbn [imap].
    rewrite (imap_ext _ (fun i r => (S k + i, r)%nat))
      by (intros; unfold compose; simpl; f_equal; lia).
    destruct (IH (S k)) as [IHin IHs].
    destruct (contains "9:00 AM" x) eqn:Hx.
    + rewrite filter_cons_True by exact Hx. cbn [map fst]. split.
      * intros i. cbn [In]. rewrite IHin. split.
        -- intros [<-|(j & r & -> & Hj & Hr)].
           ++ exists 0%nat, x. auto.
           ++ exists (S j), r. repeat split; [lia|assumption|assumption].
        -- intros ([|j] & r & -> & Hj & Hr); [left; lia|right].
           exists j, r. repeat split; [lia|assumption|assumption].
      * constructor; [assumption|].
        apply List.Forall_forall. intros i Hi. apply IHin in Hi as (j & r & -> & _). lia.
    + rewrite filter_cons_False by (simpl; congruence). split; [|assumption].
      intros i. rewrite IHin. split.
      * intros (j & r & -> & Hj & Hr).
        exists (S j), r. repeat split; [lia|assumption|assumption].
      * intros ([|j] & r & -> & Hj & Hr).
        -- simpl in Hj. injection Hj as <-. congruence.
        -- exists j, r. repeat split; [lia|assumption|assumption].
Qed.

(** The rows selected after a load are those that hold ["9:00 AM"]
    somewhere, by their indices in ascending order, each within the
    list box. *)
Theorem preselect_spec (rows : list string) :
  (forall i,
      In i (preselect rows) <->
      exists r pre post,
        rows !! i = Some r
        /\ r = String.append pre (String.append "9:00 AM" post))
  /\ StronglySorted Nat.lt (preselect rows)
  /\ Forall (fun i => (i < length rows)%nat) (preselect rows).
Proof.
  destruct (preselect_shift 0 rows) as [Hin Hs].
  assert (Hin' : forall i,
             In i (preselect rows) <->
             exists r pre post,
               rows !! i = Some r
               /\ r = String.append pre (String.append "9:00 AM" post)).
  { intros i. unfold preselect. rewrite (Hin i). split.
    - intros (j & r & -> & Hj & Hr). apply contains_spec in Hr as (pre & post & Hr).
      now exists r, pre, post.
    - intros (r & pre & post & Hi & Hr). exists i, r.
      repeat split; [assumption|]. apply contains_spec. now exists pre, post. }
  split; [exact Hin'|]. split; [exact Hs|].
  apply List.Forall_forall. intros i Hi. apply Hin' in Hi as (r & _ & _ & Hi & _).
  now apply lookup_lt_Some in Hi.
Qed.

(** ** The service types *)

Lemma keep_unseen_fold (types : list ServiceType) (seen : gset string)
  (out : list ServiceType) :
  (forall id, id ∈ seen <-> In id (map st_id out)) ->
  NoDup (map st_id out) ->
  exists l,
    (foldl keep_unseen (seen, out) types).2 = out ++ l
    /\ NoDup (map st_id (out ++ l))
    /\ sublist l types
    /\ (forall id, In id (map st_id l) <-> In id (map st_id types) /\ id ∉ seen)
    /\ (forall t, In t l ->
                  List.find (fun u => String.eqb (st_id u) (st_id t)) types = Some t).
Proof.
  revert seen out. induction types as [|u types IH]; intros seen out Hseen Hnd.
  - exists []. simpl. rewrite app_nil_r.
    split; [reflexivity|]. split; [assumption|]. split; [constructor|].
    split; [intros id; simpl; tauto|intros t []].
  - cbn [foldl]. unfold keep_unseen at 2. cbn [fst snd].
    destruct (decide (st_id u ∈ seen)) as [Hin|Hnin].
    + destruct (IH seen out Hseen Hnd) as (l & E & Hnd' & Hsub & Hids & Hfirst).
      exists l. split; [exact E|]. split; [exact Hnd'|].
      split; [now apply sublist_cons|]. split.
      * intros id. rewrite Hids. cbn [map In]. split; [tauto|].
        intros [[<-|H] Hn]; [contradiction|tauto].
      * intros t Ht. cbn [List.find].
        destruct (String.eqb_spec (st_id u) (st_id t)) as [E'|_]; [|now apply Hfirst].
        exfalso. assert (Hl : In (st_id t) (map st_id l)) by now apply List.in_map.
        apply Hids in Hl as [_ Hn]. congruence.
    + assert (Hseen' : forall id, id ∈ {[st_id u]} ∪ seen <-> In id (map st_id (out ++ [u]))).
      { intros id. rewrite map_app, List.in_app_iff, elem_of_union, elem_of_singleton,
          Hseen. simpl. split; [intros [->|H]; auto|intros [H|[<-|[]]]; auto]. }
      assert (Hnd1 : NoDup (map st_id (out ++ [u]))).
      { rewrite map_app. apply NoDup_app. split; [assumption|]. split.
        - intros id Hid [<-|[]]%list_elem_of_In.
          apply Hnin, Hseen. now apply list_elem_of_In.
        - repeat constructor. intros H. inversion H. }
      destruct (IH _ _ Hseen' Hnd1) as (l & E & Hnd' & Hsub & Hids & Hfirst).
      exists (u :: l). rewrite E, <- app_assoc. split; [reflexivity|].
      split; [now rewrite <- app_assoc in Hnd'|].
      split; [now apply sublist_skip|]. split.
      * intros id. cbn [map In]. rewrite Hids, elem_of_union, elem_of_singleton.
        split.
        -- intros [<-|[H Hn]]; [tauto|]. split; [tauto|]. intros H'. apply Hn. now right.
        -- intros [[<-|H] Hn]; [now left|].
           destruct (decide (id = st_id u)) as [->|Hne]; [now left|].
           right. split; [assumption|]. intros [H'|H']; contradiction.
      * intros t [<-|Ht]; cbn [List.find].
        -- now rewrite String.eqb_refl.
        -- destruct (String.eqb_spec (st_id u) (st_id t)) as [E'|_]; [|now apply Hfirst].
           exfalso. assert (Hl : In (st_id t) (map st_id l)) by now apply List.in_map.
           apply Hids in Hl as [_ Hn]. apply Hn, elem_of_union. left.
           now apply elem_of_singleton.
Qed.

(** On a document with data, [fetch_service_types] returns, without
    an error, a list in which no id comes twice and every id of the
    document comes once, by its first entry in the document; the list
    is ascending by lower-cased name, entries of equal lower-cased
    name in the order of the document. *)
Theorem service_types_unique_sorted (types : list ServiceType) :
  exists res out,
    fetch_service_types (Json (Some types)) = (Some res, None)
    /\ NoDup (map st_id res)
    /\ (forall id, In id (map st_id res) <-> In id (map st_id types))
    /\ (forall t, In t res ->
                  List.find (fun u => String.eqb (st_id u) (st_id t)) types = Some t)
    /\ StronglySorted
         (fun a b => (lower (st_name a) <=? lower (st_name b))%string = true) res
    /\ sublist out types
    /\ Permutation res out
    /\ stable_for lower_name out res.
Proof.
  destruct (keep_unseen_fold types ∅ []) as (out & E & Hnd & Hsub & Hids & Hfirst).
  { intros id. simpl. split; [intros H; now apply not_elem_of_empty in H|contradiction]. }
  { constructor. }
  simpl in E, Hnd.
  exists (list_sort lower_name String.ltb out), out.
  pose proof (list_sort_perm lower_name String.ltb out) as Hperm.
  unfold fetch_service_types. rewrite E.
  split; [reflexivity|]. split.
  { assert (Hp : Permutation (map st_id (list_sort lower_name String.ltb out))
                    (map st_id out)) by now apply Permutation_map.
    rewrite Hp. exact Hnd. }
  split.
  { intros id. split; intros H.
    - apply (Permutation_in _ (Permutation_map st_id Hperm)) in H.
      now apply Hids in H.
    - apply (Permutation_in _ (Permutation_map st_id (Permutation_sym Hperm))).
      apply Hids. split; [assumption|apply not_elem_of_empty]. }
  split.
  { intros t Ht. apply Hfirst. revert Ht. now apply Permutation_in. }
  split.
  { eapply StronglySorted_weaken;
      [|apply list_sort_strongly;
        [apply string_ltb_asym|apply not_after_string_trans]].
    intros a b Hab. unfold not_after, lower_name in Hab.
    now rewrite string_leb_ltb, Hab. }
  split; [assumption|]. split; [assumption|].
  apply list_sort_stable, string_ltb_irrefl.
Qed.

(** ** When [on_send] sends *)

Section OnSendFacts.
Variable World : Type.
Variable send_message : string -> payload -> World -> World * option string.
Variable make_client : string -> Z -> option string.

Lemma send_task_returns (rows : list Row) (w : World) :
  exists w' t oks,
    send_task World send_message rows (w, [])
    = ((w', t ++ [LogDone (count_true oks)]), inl (count_true oks))
    /\ rows_run World send_message rows w t oks w'.
Proof.
  destruct (send_rows_run World send_message rows 0 (w, [])) as (w' & t & oks & E & Ht).
  exists w', t, oks. unfold send_task, bind, emit, ret. rewrite E. simpl. auto.
Qed.

(** The cases of [on_send] that end before the task. *)
Ltac nothing_sent :=
  split; [split|split; [|split]];
  [ intros (? & ? & ?); discriminate
  | intros (H1 & H2 & H3 & ? & H4 & H5);
    first [ now contradiction H1
          | now contradiction H2
          | vm_compute in H4; discriminate H4
          | congruence ]
  | discriminate
  | reflexivity
  | discriminate ].

(** [on_send] runs the task exactly when the host is not blank, the
    port reads as an integer, there are preview rows, the value the
    dialog returned is true, and the client was made.  The dialog
    returns the text of the button pressed, so that the value is true
    for any button and false for a dialog that was closed.  The task
    then goes through the preview rows on the transport, from the
    world as it was, and ends on its count.  In every other case
    nothing is sent: the world is as it was.  The task never ends on
    an exception. *)
Theorem on_send_guards (self : App) (var_ip var_port : string) (answer : option string)
  (w : World) :
  let res := on_send World send_message make_client self var_ip var_port answer w in
  ((exists t n, res.2 = TaskDone t n) <->
   strip var_ip <> ""
   /\ preview_rows self <> []
   /\ truthy answer = true
   /\ exists port,
       py_int (strip var_port) = Some port /\ make_client (strip var_ip) port = None)
  /\ (forall t e, res.2 <> TaskRaised t e)
  /\ ((forall t n, res.2 <> TaskDone t n) -> res.1 = w)
  /\ (forall t n,
         res.2 = TaskDone t n ->
         exists t' oks,
           t = t' ++ [LogDone n]
           /\ n = count_true oks
           /\ rows_run World send_message (preview_rows self) w t' oks res.1).
Proof.
  intros res. unfold res, on_send.
  destruct (strip var_ip) as [|c ip] eqn:Hip; simpl; [nothing_sent|].
  destruct (strip var_port) as [|c' port_s] eqn:Hport; simpl; [nothing_sent|].
  destruct (py_int (String c' port_s)) as [port|] eqn:Hint; [|nothing_sent].
  destruct (preview_rows self) as [|row rows] eqn:Hrows; [nothing_sent|].
  destruct (truthy answer) eqn:Ha; simpl; [|nothing_sent].
  destruct (make_client (String c ip) port) as [e|] eqn:Hc; [nothing_sent|].
  destruct (send_task_returns (row :: rows) w) as (w' & t & oks & E & Ht).
  rewrite E. simpl. split; [split|split; [|split]].
  - intros _. repeat split; try discriminate. exists port. auto.
  - intros _. eauto.
  - discriminate.
  - intros H. exfalso. apply (H (t ++ [LogDone (count_true oks)]) (count_true oks)).
    reflexivity.
  - intros t0 n0 [= <- <-]. eauto.
Qed.
End OnSendFacts.

Lemma on_send_guards_witness :
  let self := set_preview_rows sample_app sample_rows in
  let res := on_send unit sends_all (fun _ _ => None) self " 10.0.0.5 " "8000"
               (Some "No") tt in
  truthy (Some "No") = true
  /\ (exists t n, res.2 = TaskDone t n)
  /\ (exists t n t' oks,
        res.2 = TaskDone t n
        /\ t = t' ++ [LogDone n]
        /\ n = count_true oks
        /\ rows_run unit sends_all (preview_rows self) tt t' oks res.1)
  /\ (on_send unit sends_all (fun _ _ => None) self " 10.0.0.5 " "8000" None tt).2
     = NotConfirmed.
Proof.
  intros self res. split; [reflexivity|].
  destruct (on_send_guards unit sends_all (fun _ _ => None) self " 10.0.0.5 " "8000"
              (Some "No") tt) as (H1 & _ & _ & H4).
  assert (Hrun : exists t n, res.2 = TaskDone t n).
  { apply H1. split; [vm_compute; discriminate|]. split; [discriminate|].
    split; [reflexivity|]. exists 8000. split; [vm_compute; reflexivity|reflexivity]. }
  split; [exact Hrun|]. split; [|vm_compute; reflexivity].
  destruct Hrun as (t & n & E). destruct (H4 t n E) as (t' & oks & Et & En & Ht).
  exists t, n, t', oks. auto.
Defined.

(** ** From the fetch to the load *)

Section FetchFacts.
Variable fromisoformat : string -> option datetime.
Variable format_time_label : option string -> option string -> string.
Variable World : Type.
Variable get_items : World -> World * response (option ItemsDoc).
Variable get_times : World -> World * response TimesDoc.

(** The fetch returns both documents and no error, or an error and no
    document.  The plan times are asked for only once the items came
    with data.  When both requests went through, the load task is the
    load on the two documents; on an error whose message is not empty
    it leaves the state as it was. *)
Theorem fetch_then_load (self : App) (w : World) :
  let fetched := fetch_plan_items_and_times World get_items get_times w in
  ((exists items tdoc, fetched.2 = (Some items, Some tdoc, None))
   \/ exists err, fetched.2 = (None, None, Some err))
  /\ ((forall items, (get_items w).2 <> Json (Some items)) ->
      fetched.1 = (get_items w).1)
  /\ (forall items tdoc,
         fetched.2 = (Some items, Some tdoc, None) ->
         (get_items w).2 = Json (Some items)
         /\ get_times (get_items w).1 = (fetched.1, Json tdoc)
         /\ load_task fromisoformat format_time_label self fetched.2
            = on_load_plan_times fromisoformat format_time_label self items tdoc)
  /\ (forall c err,
         fetched.2 = (None, None, Some (String c err)) ->
         load_task fromisoformat format_time_label self fetched.2 = (self, None)).
Proof.
  intros fetched. unfold fetched, fetch_plan_items_and_times.
  destruct (get_items w) as [w1 [err|[items|]]]; simpl.
  - split; [right; eauto|]. split; [reflexivity|]. split; [discriminate|].
    intros c e [= ->]. reflexivity.
  - destruct (get_times w1) as [w2 [err|tdoc]]; simpl.
    + split; [right; eauto|]. split; [intros H; now contradiction (H items)|].
      split; [discriminate|]. intros c e [= ->]. reflexivity.
    + split; [left; eauto|]. split; [intros H; now contradiction (H items)|].
      split; [|discriminate]. intros items' tdoc' [= <- <-].
      split; [reflexivity|]. split; reflexivity.
  - split; [right; eauto|]. split; [reflexivity|]. split; [discriminate|].
    intros c e [= <- <-]. reflexivity.
Qed.

(** An error whose message is empty is not taken for one.  The load
    task goes on without documents: the items are [None], the list
    box shows the one row ["(default)"] with nothing selected, and
    once a row is selected the build raises [AttributeError]. *)
Theorem empty_error_goes_on (self : App) (w : World) :
  (get_items w).2 = RequestError "" ->
  let loaded :=
    load_task fromisoformat format_time_label self
      (fetch_plan_items_and_times World get_items get_times w).2 in
  loaded.2 = None
  /\ items_data loaded.1 = Assigned None
  /\ lst_times loaded.1 = ["(default)"]
  /\ curselection loaded.1 = []
  /\ forall sel,
      sel <> [] ->
      _collect_preview_rows (set_curselection loaded.1 sel) = Raised AttributeError.
Proof.
  intros Herr loaded. unfold loaded, fetch_plan_items_and_times.
  destruct (get_items w) as [w1 r]. simpl in Herr. subst r. simpl.
  repeat split. intros [|i sel] Hsel; [contradiction|reflexivity].
Qed.
End FetchFacts.

Lemma fetch_then_load_witness :
  let get_items := fun w : nat => (S w, Json (Some sample_items)) in
  let get_times := fun w : nat => (S w, Json {| times := Some [naive_time] |}) in
  let fetched := fetch_plan_items_and_times nat get_items get_times 0%nat in
  fetched = (2%nat, (Some sample_items, Some {| times := Some [naive_time] |}, None))
  /\ load_task sample_fromisoformat sample_label __init__ fetched.2
     = on_load_plan_times sample_fromisoformat sample_label __init__ sample_items
         {| times := Some [naive_time] |}.
Proof.
  intros get_items get_times fetched.
  destruct (fetch_then_load sample_fromisoformat sample_label nat get_items get_times
              __init__ 0%nat) as (_ & _ & H & _).
  split; [reflexivity|].
  apply (H sample_items {| times := Some [naive_time] |}). reflexivity.
Defined.

Lemma empty_error_goes_on_witness :
  let get_items := fun w : unit => (w, @RequestError (option ItemsDoc) "") in
  let get_times := fun w : unit => (w, Json {| times := None |}) in
  let loaded :=
    load_task sample_fromisoformat sample_label __init__
      (fetch_plan_items_and_times unit get_items get_times tt).2 in
  (get_items tt).2 = RequestError ""
  /\ lst_times loaded.1 = ["(default)"]
  /\ _collect_preview_rows (set_curselection loaded.1 [0%nat]) = Raised AttributeError.
Proof.
  intros get_items get_times loaded. split; [reflexivity|].
  destruct (empty_error_goes_on sample_fromisoformat sample_label unit get_items
              get_times __init__ tt eq_refl) as (_ & _ & H3 & _ & H5).
  split; [exact H3|]. apply H5. discriminate.
Defined.

(** ** Numerals *)

Lemma digit_not_mark (c : ascii) (v : Z) :
  digit_val c = Some v ->
  Ascii.eqb c "_" = false /\ int_isspace c = false /\ isspace c = false
  /\ c <> "-"%char /\ c <> "+"%char.
Proof.
  intros H. destruct c as [[] [] [] [] [] [] [] []]; vm_compute in H;
    try discriminate H; repeat split; try reflexivity; discriminate.
Qed.

Lemma parse_digits_step (c : ascii) (v acc : Z) (cnt : nat) (prev : bool) (s : string) :
  digit_val c = Some v ->
  parse_digits acc cnt prev (String c s) = parse_digits (10 * acc + v) (S cnt) true s.
Proof.
  intros H. cbn [parse_digits]. rewrite H.
  destruct (digit_not_mark c v H) as [-> _]. reflexivity.
Qed.

Lemma parse_digits_uint (d : Decimal.uint) (acc : Z) (cnt : nat) (prev : bool) :
  d <> Decimal.Nil \/ prev = true ->
  parse_digits acc cnt prev (NilEmpty.string_of_uint d)
  = Some (uint_value acc d, (cnt + Decimal.nb_digits d)%nat).
Proof.
  revert acc cnt prev.
  induction d; intros acc cnt prev H;
    [destruct H as [H| ->]; [contradiction|];
     cbn [NilEmpty.string_of_uint parse_digits Decimal.nb_digits uint_value];
     now rewrite Nat.add_0_r|..];
    cbn [NilEmpty.string_of_uint Decimal.nb_digits uint_value];
    erewrite parse_digits_step by reflexivity;
    rewrite IHd by (right; reflexivity); rewrite Nat.add_succ_r; reflexivity.
Qed.

Lemma uint_value_revapp (d a : Decimal.uint) :
  uint_value (Z.of_N (DecimalPos.Unsigned.of_lu a)) d
  = Z.of_N (DecimalPos.Unsigned.of_lu (Decimal.revapp d a)).
Proof.
  revert a.
  induction d; intros a; cbn [uint_value Decimal.revapp]; [reflexivity|..];
    rewrite <- IHd; f_equal; cbn [DecimalPos.Unsigned.of_lu]; lia.
Qed.

Lemma uint_value_to_uint (p : positive) : uint_value 0 (Pos.to_uint p) = Z.pos p.
Proof.
  change 0 with (Z.of_N (DecimalPos.Unsigned.of_lu Decimal.Nil)).
  rewrite uint_value_revapp.
  change (Decimal.revapp (Pos.to_uint p) Decimal.Nil) with (Decimal.rev (Pos.to_uint p)).
  rewrite <- DecimalPos.Unsigned.of_uint_alt, DecimalPos.Unsigned.of_to. reflexivity.
Qed.

Lemma string_of_uint_length (d : Decimal.uint) :
  String.length (NilEmpty.string_of_uint d) = Decimal.nb_digits d.
Proof. induction d; simpl; congruence. Qed.

Lemma string_of_uint_digits (d : Decimal.uint) :
  all_chars is_digit (NilEmpty.string_of_uint d) = true.
Proof.
  induction d; cbn [NilEmpty.string_of_uint all_chars]; [reflexivity|..];
    rewrite IHd; reflexivity.
Qed.

Lemma all_chars_impl (p q : ascii -> bool) (s : string) :
  (forall c, p c = true -> q c = true) ->
  all_chars p s = true -> all_chars q s = true.
Proof.
  intros H. induction s as [|c s IH]; simpl; [auto|].
  intros [Hc Hs]%andb_prop. rewrite (H c Hc), (IH Hs). reflexivity.
Qed.

Lemma rstrip_by_keeps (sp : ascii -> bool) (s : string) :
  all_chars (fun c => negb (sp c)) s = true -> rstrip_by sp s = s.
Proof.
  induction s as [|c s IH]; simpl; [auto|].
  intros [Hc Hs]%andb_prop. rewrite (IH Hs).
  destruct s; [|reflexivity]. destruct (sp c); [discriminate|reflexivity].
Qed.

Lemma lstrip_by_keeps (sp : ascii -> bool) (s : string) :
  all_chars (fun c => negb (sp c)) s = true -> lstrip_by sp s = s.
Proof.
  destruct s as [|c s]; simpl; [auto|].
  intros [Hc _]%andb_prop. destruct (sp c); [discriminate|reflexivity].
Qed.

Lemma digits_no_space (s : string) :
  all_chars is_digit s = true ->
  all_chars (fun c => negb (int_isspace c)) s = true
  /\ all_chars (fun c => negb (isspace c)) s = true.
Proof.
  intros H. split; revert H; apply all_chars_impl; intros c Hc; unfold is_digit in Hc;
    destruct (digit_val c) as [v|] eqn:E; try discriminate;
    destruct (digit_not_mark c v E) as (_ & H1 & H2 & _); rewrite ?H1, ?H2; reflexivity.
Qed.

Lemma parse_unsigned_uint (d : Decimal.uint) :
  d <> Decimal.Nil ->
  (Decimal.nb_digits d <= int_max_str_digits)%nat ->
  parse_unsigned (NilEmpty.string_of_uint d) = Some (uint_value 0 d).
Proof.
  intros Hd Hn. unfold parse_unsigned.
  rewrite parse_digits_uint by (left; exact Hd). rewrite Nat.add_0_l.
  destruct (Nat.ltb_spec int_max_str_digits (Decimal.nb_digits d)); [lia|reflexivity].
Qed.

(** The numeral of an integer: its digits, after ["-"] below zero. *)
Lemma str_of_int_digits (n : Z) :
  exists d,
    d <> Decimal.Nil
    /\ uint_value 0 d = Z.abs n
    /\ str_of_int (Z.abs n) = NilEmpty.string_of_uint d
    /\ str_of_int n
       = if n <? 0 then String "-" (NilEmpty.string_of_uint d)
         else NilEmpty.string_of_uint d.
Proof.
  destruct n as [|p|p].
  - exists (Decimal.D0 Decimal.Nil). repeat split. discriminate.
  - exists (Pos.to_uint p).
    pose proof (DecimalPos.Unsigned.to_uint_nonnil p) as Hp.
    split; [exact Hp|]. split; [apply uint_value_to_uint|].
    assert (E : str_of_int (Z.pos p) = NilEmpty.string_of_uint (Pos.to_uint p)).
    { unfold str_of_int. cbn [Z.to_int NilZero.string_of_int].
      unfold NilZero.string_of_uint.
      destruct (Pos.to_uint p); [contradiction|reflexivity..]. }
    split; exact E.
  - exists (Pos.to_uint p).
    pose proof (DecimalPos.Unsigned.to_uint_nonnil p) as Hp.
    split; [exact Hp|]. split; [apply uint_value_to_uint|].
    assert (E : NilZero.string_of_uint (Pos.to_uint p)
                = NilEmpty.string_of_uint (Pos.to_uint p)).
    { unfold NilZero.string_of_uint.
      destruct (Pos.to_uint p); [contradiction|reflexivity..]. }
    split.
    + cbn [Z.abs]. unfold str_of_int. cbn [Z.to_int NilZero.string_of_int]. exact E.
    + unfold str_of_int. cbn [Z.to_int NilZero.string_of_int]. rewrite E. reflexivity.
Qed.

Lemma str_of_int_read (n : Z) :
  (String.length (str_of_int (Z.abs n)) <= int_max_str_digits)%nat ->
  py_int (str_of_int n) = Some n
  /\ strip (str_of_int n) = str_of_int n
  /\ str_of_int n <> "".
Proof.
  intros Hlen.
  destruct (str_of_int_digits n) as (d & Hd & Hv & Habs & Hn).
  rewrite Habs, string_of_uint_length in Hlen.
  pose proof (string_of_uint_digits d) as Hdig.
  destruct (digits_no_space _ Hdig) as [Hint Hsp].
  assert (Hne : exists c s, NilEmpty.string_of_uint d = String c s /\ is_digit c = true).
  { destruct (NilEmpty.string_of_uint d) as [|c s] eqn:E.
    - destruct d; try discriminate E. contradiction.
    - exists c, s. split; [reflexivity|]. simpl in Hdig. now apply andb_prop in Hdig. }
  destruct Hne as (c & s & Ecs & Hc).
  unfold is_digit in Hc. destruct (digit_val c) as [v|] eqn:Ev; [|discriminate].
  destruct (digit_not_mark c v Ev) as (_ & _ & _ & Hminus & Hplus).
  split; [|split].
  - unfold py_int. rewrite Hn. destruct (n <? 0) eqn:Hneg.
    + rewrite lstrip_by_keeps, rstrip_by_keeps
        by (cbn [all_chars]; rewrite Hint; reflexivity).
      rewrite parse_unsigned_uint by assumption. rewrite Hv. simpl.
      apply Z.ltb_lt in Hneg. f_equal. lia.
    + rewrite lstrip_by_keeps, rstrip_by_keeps by exact Hint.
      rewrite Ecs.
      assert (E : match String c s with
                  | String "-" r => Z.opp <$> parse_unsigned r
                  | String "+" r => parse_unsigned r
                  | t => parse_unsigned t
                  end = parse_unsigned (String c s)).
      { destruct c as [[] [] [] [] [] [] [] []]; try reflexivity;
          [now contradiction Hplus | now contradiction Hminus]. }
      rewrite E, <- Ecs. rewrite parse_unsigned_uint by assumption.
      rewrite Hv. apply Z.ltb_ge in Hneg. f_equal. lia.
  - unfold strip. rewrite Hn. destruct (n <? 0).
    + rewrite lstrip_by_keeps, rstrip_by_keeps
        by (cbn [all_chars]; rewrite Hsp; reflexivity).
      reflexivity.
    + rewrite lstrip_by_keeps, rstrip_by_keeps by exact Hsp. reflexivity.
  - rewrite Hn, Ecs. destruct (n <? 0); discriminate.
Qed.

(** The numeral that is formatted into an address reads back as the
    same integer: [int(str(n)) = n] for a numeral within the limit on
    digits.  A count typed as the numeral of [n] therefore gives the
    offset [n], and 0 for [n] below zero. *)
Theorem numeral_round_trip (n : Z) :
  (String.length (str_of_int (Z.abs n)) <= int_max_str_digits)%nat ->
  py_int (str_of_int n) = Some n
  /\ snapshot_offset true (str_of_int n) = Z.max 0 n
  /\ snapshot_offset false (str_of_int n) = 0.
Proof.
  intros Hlen. destruct (str_of_int_read n Hlen) as (Hint & Hstrip & Hne).
  split; [exact Hint|].
  unfold snapshot_offset. rewrite Hstrip.
  destruct (str_of_int n) as [|c s] eqn:E; [contradiction|].
  cbn [str_or]. rewrite Hint.
  split; [|reflexivity].
  destruct (n <? 0) eqn:Hneg; [apply Z.ltb_lt in Hneg|apply Z.ltb_ge in Hneg]; lia.
Qed.

Lemma numeral_round_trip_witness :
  (String.length (str_of_int (Z.abs 12)) <= int_max_str_digits)%nat
  /\ py_int (str_of_int 12) = Some 12
  /\ snapshot_offset true (str_of_int 12) = 12.
Proof.
  assert (H : (String.length (str_of_int (Z.abs 12)) <= int_max_str_digits)%nat)
    by (apply Nat.leb_le; vm_compute; reflexivity).
  split; [exact H|].
  destruct (numeral_round_trip 12 H) as (H1 & H2 & _).
  split; [exact H1|exact H2].
Defined.

(** ** From the preview to the send *)

Lemma number_rows_indices (offset : Z) (names : list string) :
  map snap_index (number_rows offset names)
  = map (fun i => offset + Z.of_nat i) (List.seq 0%nat (length names)).
Proof.
  change (snap_index <$> number_rows offset names
          = (fun i => offset + Z.of_nat i) <$> List.seq 0%nat (length names)).
  apply list_eq. intros i. unfold number_rows.
  rewrite !list_lookup_fmap, list_lookup_imap.
  destruct (names !! i) as [nm|] eqn:E; simpl.
  - rewrite lookup_seq_lt by (now apply lookup_lt_Some in E). reflexivity.
  - rewrite lookup_seq_ge by (now apply lookup_ge_None in E). reflexivity.
Qed.

Lemma collect_preview_rows_message (self : App) (rows : list Row) (offset : Z)
  (err : option string) :
  _collect_preview_rows self = Returned (rows, offset, err) ->
  (err = None /\ curselection self <> [])
  \/ (truthy err = true /\ rows = []).
Proof.
  destruct err as [msg|].
  - intros H. right.
    destruct (collect_preview_rows_some _ _ _ _ H) as (-> & _ & [(-> & _)|(-> & _)]);
      split; reflexivity.
  - intros H. left. split; [reflexivity|].
    now destruct (collect_preview_rows_inv _ _ _ H) as (doc & _ & _ & Hs & _).
Qed.

Section PreviewFacts.
Variable World : Type.
Variable send_message : string -> payload -> World -> World * option string.
Variable make_client : string -> Z -> option string.

Lemma on_send_done (self : App) (var_ip var_port : string) (answer : option string)
  (w : World) (t : list event) (n : Z) :
  (on_send World send_message make_client self var_ip var_port answer w).2
  = TaskDone t n ->
  exists t', t = t' ++ [LogDone n] /\ rows_trace (preview_rows self) t' n.
Proof.
  unfold on_send.
  destruct (negb _); [discriminate|].
  destruct (py_int _); [|discriminate].
  destruct (preview_rows self) as [|row rows] eqn:Hrows; [discriminate|].
  destruct (negb (truthy answer)); [discriminate|].
  destruct (make_client _ _); [discriminate|].
  destruct (send_rows_trace World send_message (row :: rows) 0 (w, []))
    as (w' & t' & n' & E & Ht).
  unfold send_task, bind, emit, ret. rewrite E. simpl.
  intros [= <- <-]. eauto.
Qed.

(** A preview that shows no message stores the rows of the build, and
    previewing again stores the same rows.  Whenever [on_send] then
    runs the task, the creates go to the consecutive indices from the
    offset, one per row, in order. *)
Theorem preview_then_send (self self' : App) :
  on_preview self = Returned (self', None) ->
  exists rows offset,
    _collect_preview_rows self = Returned (rows, offset, None)
    /\ self' = set_preview_rows self rows
    /\ on_preview self' = Returned (self', None)
    /\ forall var_ip var_port answer w t n,
        (on_send World send_message make_client self' var_ip var_port answer w).2
        = TaskDone t n ->
        map address_of (List.filter is_create t)
        = map (fun i => new_snapshot_address (offset + Z.of_nat i))
            (List.seq 0%nat (length rows)).
Proof.
  unfold on_preview at 1.
  destruct (_collect_preview_rows self) as [[[rows offset] err]|e] eqn:E; [|discriminate].
  destruct (collect_preview_rows_message self rows offset err E) as [[-> Hsel]|[Ht _]].
  2:{ rewrite Ht. intros [= _ ->]. discriminate Ht. }
  simpl. intros [= <-]. exists rows, offset.
  split; [reflexivity|]. split; [reflexivity|].
  assert (E' : _collect_preview_rows (set_preview_rows self rows)
               = Returned (rows, offset, None)) by exact E.
  split.
  { unfold on_preview. rewrite E'. reflexivity. }
  intros var_ip var_port answer w t n Hdone.
  destruct (on_send_done _ _ _ _ _ _ _ Hdone) as (t' & -> & Ht).
  destruct (rows_trace_facts _ _ _ Ht) as (H1 & _).
  rewrite List.filter_app, map_app, H1. simpl. rewrite app_nil_r.
  destruct (collect_preview_rows_rows self rows offset E) as (doc & _ & _ & ->).
  rewrite number_rows_length, <- (List.map_map snap_index new_snapshot_address).
  rewrite number_rows_indices, List.map_map. reflexivity.
Qed.

End PreviewFacts.

Lemma preview_then_send_witness :
  let self' := set_preview_rows sample_app sample_rows in
  on_preview sample_app = Returned (self', None)
  /\ on_preview self' = Returned (self', None)
  /\ exists t n,
      (on_send unit sends_all (fun _ _ => None) self' "10.0.0.5" "8000" (Some "Yes") tt).2
      = TaskDone t n
      /\ map address_of (List.filter is_create t)
         = map (fun i => new_snapshot_address (12 + Z.of_nat i))
             (List.seq 0%nat (length sample_rows)).
Proof.
  intros self'.
  assert (H : on_preview sample_app = Returned (self', None)) by (vm_compute; reflexivity).
  destruct (preview_then_send unit sends_all (fun _ _ => None) sample_app self' H)
    as (rows & offset & E & _ & Hidem & Hsend).
  assert (E0 : _collect_preview_rows sample_app = Returned (sample_rows, 12, None))
    by (vm_compute; reflexivity).
  rewrite E0 in E. injection E as <- <-.
  split; [exact H|]. split; [exact Hidem|].
  assert (Hr : exists t n,
             (on_send unit sends_all (fun _ _ => None) self' "10.0.0.5" "8000" (Some "Yes") tt).2
             = TaskDone t n) by (vm_compute; do 2 eexists; reflexivity).
  destruct Hr as (t & n & Hr). exists t, n. split; [exact Hr|].
  exact (Hsend _ _ _ _ t n Hr).
Defined.

(** A preview that shows a message changes nothing: the rows of the
    earlier preview stay.  The message is the one on the selection
    exactly when both documents are set and no row is selected. *)
Theorem preview_message_keeps_rows (self self' : App) (msg : string) :
  on_preview self = Returned (self', Some msg) ->
  self' = self
  /\ (msg = select_first \/ msg = load_first)
  /\ (msg = select_first <-> curselection self = []
                              /\ hasattr (items_data self) = true
                              /\ hasattr (times_data self) = true).
Proof.
  unfold on_preview.
  destruct (_collect_preview_rows self) as [[[rows offset] err]|e] eqn:E; [|discriminate].
  destruct (truthy err) eqn:Ht; [|discriminate].
  intros [= <- ->].
  destruct (collect_preview_rows_some _ _ _ _ E) as (_ & _ & [(-> & Hh)|(-> & Hi & Htm & Hs)]).
  - split; [reflexivity|]. split; [now right|]. split; [discriminate|].
    intros (_ & Hi & Htm). destruct Hh; congruence.
  - repeat split; auto.
Qed.

Lemma preview_message_keeps_rows_witness :
  let self := set_curselection (set_preview_rows sample_app sample_rows) [] in
  on_preview self = Returned (self, Some select_first)
  /\ preview_rows self = sample_rows
  /\ curselection self = [].
Proof.
  intros self.
  assert (H : on_preview self = Returned (self, Some select_first))
    by (vm_compute; reflexivity).
  destruct (preview_message_keeps_rows self self select_first H) as (_ & _ & H3).
  split; [exact H|]. split; [reflexivity|]. now apply H3.
Defined.

(** ** A load that raises *)

Section LoadAndSend.
Variable fromisoformat : string -> option datetime.
Variable format_time_label : option string -> option string -> string.
Variable World : Type.
Variable send_message : string -> payload -> World -> World * option string.
Variable make_client : string -> Z -> option string.

Lemma on_send_reads_rows (a b : App) (var_ip var_port : string) (answer : option string)
  (w : World) :
  preview_rows a = preview_rows b ->
  on_send World send_message make_client a var_ip var_port answer w
  = on_send World send_message make_client b var_ip var_port answer w.
Proof. unfold on_send. intros ->. reflexivity. Qed.

(** A load that returns clears the preview, and [on_send] cannot run
    the task before the next preview.  A load ends on an exception
    only by the [TypeError] of [sorted] on instants that do not
    compare; it then stops before [_clear_preview]: the rows of the
    earlier preview stay and [on_send] goes on with them as before the
    load. *)
Theorem load_and_earlier_preview (self : App) (items : ItemsDoc) (tdoc : TimesDoc) :
  let res := on_load_plan_times fromisoformat format_time_label self items tdoc in
  let pts := load_plan_times fromisoformat format_time_label (default [] (times tdoc)) in
  (res.2 = None <-> comparable (map instant_key pts) = true)
  /\ (res.2 = None ->
      preview_rows res.1 = []
      /\ forall var_ip var_port answer w t n,
          (on_send World send_message make_client res.1 var_ip var_port answer w).2
          <> TaskDone t n)
  /\ (forall e,
         res.2 = Some e ->
         e = TypeError
         /\ preview_rows res.1 = preview_rows self
         /\ forall var_ip var_port answer w,
             on_send World send_message make_client res.1 var_ip var_port answer w
             = on_send World send_message make_client self var_ip var_port answer w).
Proof.
  intros res pts. unfold res, on_load_plan_times. fold pts.
  unfold listbox_rows.
  destruct (sorted instant_key datetime_lt pts) as [srt|e0] eqn:Es; simpl.
  - assert (Hc : comparable (map instant_key pts) = true)
      by (apply sorted_returns_iff; eauto).
    split; [tauto|]. split; [|discriminate].
    intros _. split; [reflexivity|].
    intros var_ip var_port answer w t n. unfold on_send. simpl.
    destruct (negb _); [discriminate|]. destruct (py_int _); discriminate.
  - assert (Hc : comparable (map instant_key pts) = false).
    { destruct (comparable (map instant_key pts)) eqn:Hc; [|reflexivity].
      apply sorted_returns_iff in Hc as [r Hr]. congruence. }
    split; [split; [discriminate|congruence]|]. split; [discriminate|].
    intros e [= <-]. rewrite (sorted_raises _ _ Hc) in Es.
    split; [congruence|]. split; [reflexivity|].
    intros. now apply on_send_reads_rows.
Qed.
End LoadAndSend.

Lemma load_and_earlier_preview_witness :
  let self := set_preview_rows sample_app sample_rows in
  let tdoc := {| times := Some [aware_time; missing_time] |} in
  let res := on_load_plan_times sample_fromisoformat sample_label self sample_items tdoc in
  res.2 = Some TypeError
  /\ preview_rows res.1 = sample_rows
  /\ exists t n,
      (on_send unit sends_all (fun _ _ => None) res.1 "10.0.0.5" "8000" (Some "Yes") tt).2
      = TaskDone t n.
Proof.
  intros self tdoc res.
  assert (H : res.2 = Some TypeError) by (vm_compute; reflexivity).
  destruct (load_and_earlier_preview sample_fromisoformat sample_label unit sends_all
              (fun _ _ => None) self sample_items tdoc) as (_ & _ & H3).
  destruct (H3 TypeError H) as (_ & Hrows & Hsend).
  split; [exact H|]. split; [exact Hrows|].
  fold res in Hsend. rewrite Hsend. vm_compute. do 2 eexists. reflexivity.
Defined.

(** ** The port through the configuration *)

Lemma rstrip_by_idem (sp : ascii -> bool) (s : string) :
  rstrip_by sp (rstrip_by sp s) = rstrip_by sp s.
Proof.
  induction s as [|c s IH]; [reflexivity|].
  cbn [rstrip_by]. destruct (rstrip_by sp s) as [|c2 r] eqn:E.
  - destruct (sp c) eqn:Hc; [reflexivity|]. cbn [rstrip_by]. rewrite Hc. reflexivity.
  - change (rstrip_by sp (String c (String c2 r))) with
      (match rstrip_by sp (String c2 r) with
       | EmptyString => if sp c then EmptyString else String c EmptyString
       | r' => String c r'
       end).
    rewrite IH. reflexivity.
Qed.

Lemma lstrip_by_head (sp : ascii -> bool) (s : string) :
  match lstrip_by sp s with
  | EmptyString => True
  | String c _ => sp c = false
  end.
Proof.
  induction s as [|c s IH]; simpl; [exact I|].
  destruct (sp c) eqn:Hc; [exact IH|exact Hc].
Qed.

Lemma strip_idem (s : string) : strip (strip s) = strip s.
Proof.
  unfold strip. pose proof (lstrip_by_head isspace s) as Hh.
  destruct (lstrip_by isspace s) as [|c t]; [reflexivity|].
  assert (Hr : exists r, rstrip_by isspace (String c t) = String c r).
  { cbn [rstrip_by]. destruct (rstrip_by isspace t); [rewrite Hh|]; eauto. }
  destruct Hr as [r Hr]. rewrite Hr.
  assert (Hl : lstrip_by isspace (String c r) = String c r)
    by (cbn [lstrip_by]; rewrite Hh; reflexivity).
  rewrite Hl, <- Hr. apply rstrip_by_idem.
Qed.

Lemma isdigit_char_not_mark (c : ascii) :
  isdigit_char c = true ->
  Ascii.eqb c "_" = false /\ int_isspace c = false /\ isspace c = false
  /\ c <> "-"%char /\ c <> "+"%char.
Proof.
  intros H. destruct c as [[] [] [] [] [] [] [] []]; vm_compute in H;
    try discriminate H; repeat split; try reflexivity; discriminate.
Qed.

Lemma is_digit_isdigit_char (c : ascii) : is_digit c = true -> isdigit_char c = true.
Proof.
  intros H. destruct c as [[] [] [] [] [] [] [] []]; vm_compute in H;
    try discriminate H; reflexivity.
Qed.

Lemma parse_digits_isdigit (s : string) (acc : Z) (cnt : nat) (prev : bool)
  (v : Z) (k : nat) :
  all_chars isdigit_char s = true ->
  parse_digits acc cnt prev s = Some (v, k) ->
  all_chars is_digit s = true.
Proof.
  revert acc cnt prev. induction s as [|c s IH]; intros acc cnt prev; [reflexivity|].
  cbn [all_chars parse_digits]. intros [Hc Hs]%andb_prop.
  destruct (isdigit_char_not_mark c Hc) as [-> _].
  unfold is_digit at 1. destruct (digit_val c); [|discriminate].
  intros H. simpl. eapply IH; eauto.
Qed.

Lemma digits_uint (s : string) :
  all_chars is_digit s = true -> exists d, s = NilEmpty.string_of_uint d.
Proof.
  induction s as [|c s IH]; [now exists Decimal.Nil|].
  cbn [all_chars]. intros [Hc Hs]%andb_prop.
  destruct (IH Hs) as [d ->].
  destruct c as [[] [] [] [] [] [] [] []]; vm_compute in Hc; try discriminate Hc;
    first [ now exists (Decimal.D0 d) | now exists (Decimal.D1 d)
          | now exists (Decimal.D2 d) | now exists (Decimal.D3 d)
          | now exists (Decimal.D4 d) | now exists (Decimal.D5 d)
          | now exists (Decimal.D6 d) | now exists (Decimal.D7 d)
          | now exists (Decimal.D8 d) | now exists (Decimal.D9 d) ].
Qed.

(** What [int] reads from a string that [isdigit] accepts. *)
Lemma isdigit_read (s : string) :
  isdigit s = true ->
  py_int s = parse_unsigned s
  /\ forall n,
      py_int s = Some n ->
      exists d,
        d <> Decimal.Nil
        /\ s = NilEmpty.string_of_uint d
        /\ n = uint_value 0 d
        /\ (Decimal.nb_digits d <= int_max_str_digits)%nat.
Proof.
  unfold isdigit. destruct s as [|c s]; [discriminate|]. intros Hd.
  assert (Hsp : all_chars (fun c => negb (int_isspace c)) (String c s) = true).
  { revert Hd. apply all_chars_impl. intros c0 Hc0.
    destruct (isdigit_char_not_mark c0 Hc0) as (_ & -> & _). reflexivity. }
  assert (Hc : isdigit_char c = true)
    by (cbn [all_chars] in Hd; now apply andb_prop in Hd).
  destruct (isdigit_char_not_mark c Hc) as (_ & _ & _ & Hminus & Hplus).
  assert (E : py_int (String c s) = parse_unsigned (String c s)).
  { unfold py_int. rewrite lstrip_by_keeps, rstrip_by_keeps by exact Hsp.
    destruct c as [[] [] [] [] [] [] [] []]; try reflexivity;
      [now contradiction Hplus | now contradiction Hminus]. }
  split; [exact E|]. intros n. rewrite E. unfold parse_unsigned.
  destruct (parse_digits 0 0 false (String c s)) as [[v k]|] eqn:Hp; [|discriminate].
  destruct (digits_uint _ (parse_digits_isdigit _ _ _ _ _ _ Hd Hp)) as [d Es].
  assert (Hnil : d <> Decimal.Nil) by (intros ->; discriminate Es).
  rewrite Es, parse_digits_uint in Hp by (left; exact Hnil).
  injection Hp as <- <-. rewrite ?Nat.add_0_l.
  destruct (Nat.ltb_spec int_max_str_digits (Decimal.nb_digits d)); [discriminate|].
  intros [= <-]. exists d. auto.
Qed.

Lemma uint_value_of_uint (d : Decimal.uint) : uint_value 0 d = Z.of_N (Pos.of_uint d).
Proof.
  change 0 with (Z.of_N (DecimalPos.Unsigned.of_lu Decimal.Nil)).
  rewrite uint_value_revapp.
  change (Decimal.revapp d Decimal.Nil) with (Decimal.rev d).
  now rewrite <- DecimalPos.Unsigned.of_uint_alt.
Qed.

(** The numeral of the value of a digit string is not longer than the
    string. *)
Lemma uint_value_numeral (d : Decimal.uint) :
  d <> Decimal.Nil ->
  0 <= uint_value 0 d
  /\ (String.length (str_of_int (uint_value 0 d)) <= Decimal.nb_digits d)%nat.
Proof.
  intros Hd. rewrite uint_value_of_uint. split; [lia|].
  pose proof (DecimalPos.Unsigned.to_of d) as Hto.
  destruct (Pos.of_uint d) as [|p].
  - cbn. destruct d; [contradiction|simpl; lia..].
  - cbn [Z.of_N]. destruct (str_of_int_digits (Z.pos p)) as (d' & _ & _ & _ & E).
    cbn [Z.ltb Z.compare] in E.
    assert (E' : str_of_int (Z.pos p) = NilEmpty.string_of_uint (Pos.to_uint p)).
    { unfold str_of_int. cbn [Z.to_int NilZero.string_of_int].
      unfold NilZero.string_of_uint.
      pose proof (DecimalPos.Unsigned.to_uint_nonnil p) as Hp.
      destruct (Pos.to_uint p); [contradiction|reflexivity..]. }
    rewrite E', string_of_uint_length.
    cbn [N.to_uint] in Hto. rewrite Hto.
    now apply DecimalFacts.nb_digits_unorm.
Qed.

Lemma str_of_int_isdigit (n : Z) : 0 <= n -> isdigit (str_of_int n) = true.
Proof.
  intros Hn. destruct (str_of_int_digits n) as (d & Hd & _ & _ & E).
  destruct (n <? 0) eqn:Hneg; [apply Z.ltb_lt in Hneg; lia|].
  rewrite E. unfold isdigit.
  assert (H : all_chars isdigit_char (NilEmpty.string_of_uint d) = true).
  { generalize (string_of_uint_digits d). apply all_chars_impl.
    exact is_digit_isdigit_char. }
  destruct (NilEmpty.string_of_uint d) eqn:Es; [|exact H].
  destruct d; try discriminate Es. contradiction.
Qed.

(** Saving the settings and starting again shows a port that is
    already stripped, that [on_send] reads as it read the port typed,
    and that is saved as the same value again.  A port saved as an
    integer is not negative.  Nothing is saved, by the [ValueError] of
    [int], exactly when [isdigit] accepts the stripped port and [int]
    does not. *)
Theorem port_survives_save (var_port : string) :
  match saved_port var_port with
  | Some v =>
      strip (shown_port v) = shown_port v
      /\ py_int (strip (shown_port v)) = py_int (strip var_port)
      /\ saved_port (shown_port v) = Some v
      /\ (forall n, v = PortInt n -> 0 <= n)
  | None => isdigit (strip var_port) = true /\ py_int (strip var_port) = None
  end.
Proof.
  unfold saved_port at 1.
  destruct (isdigit (strip var_port)) eqn:Hd.
  - destruct (py_int (strip var_port)) as [n|] eqn:Hn; [|split; reflexivity].
    cbn [fmap option_fmap option_map shown_port].
    destruct (isdigit_read _ Hd) as [_ Hread].
    destruct (Hread n Hn) as (d & Hnil & Es & -> & Hk).
    destruct (uint_value_numeral d Hnil) as [Hpos Hlen].
    assert (Hlim : (String.length (str_of_int (Z.abs (uint_value 0 d)))
                    <= int_max_str_digits)%nat)
      by (rewrite Z.abs_eq by exact Hpos; lia).
    destruct (str_of_int_read _ Hlim) as (Hint & Hstrip & _).
    split; [exact Hstrip|]. split; [now rewrite Hstrip|].
    split; [|intros n [= <-]; exact Hpos].
    unfold saved_port. rewrite Hstrip, (str_of_int_isdigit _ Hpos), Hint. reflexivity.
  - cbn [shown_port]. split; [apply strip_idem|].
    split; [now rewrite strip_idem|].
    split; [|discriminate].
    unfold saved_port. rewrite strip_idem, Hd. reflexivity.
Qed.

Lemma port_survives_save_witness :
  let superscript_two := String (ascii_of_nat 178) "" in
  saved_port superscript_two = None
  /\ isdigit (strip superscript_two) = true
  /\ py_int (strip superscript_two) = None
  /\ saved_port " 0080 " = Some (PortInt 80)
  /\ py_int (strip (shown_port (PortInt 80))) = py_int (strip " 0080 ").
Proof.
  intros superscript_two.
  pose proof (port_survives_save superscript_two) as H1.
  pose proof (port_survives_save " 0080 ") as H2.
  assert (E1 : saved_port superscript_two = None) by (vm_compute; reflexivity).
  assert (E2 : saved_port " 0080 " = Some (PortInt 80)) by (vm_compute; reflexivity).
  rewrite E1 in H1. rewrite E2 in H2.
  destruct H1 as [H1a H1b]. destruct H2 as (_ & H2b & _).
  repeat split; assumption.
Defined.

(** ** The width of a combobox *)

Lemma longest_spec (values : list string) (min_chars : Z) (v : string) :
  In v values -> len v <= longest values min_chars.
Proof.
  assert (Hfold : forall vs m,
             m <= foldl (fun m x => Z.max m (len x)) m vs
             /\ forall x, In x vs -> len x <= foldl (fun m x => Z.max m (len x)) m vs).
  { induction vs as [|y vs IH]; intros m; simpl; [split; [lia|tauto]|].
    destruct (IH (Z.max m (len y))) as [H1 H2]. split; [lia|].
    intros x [<-|Hx]; [lia|auto]. }
  destruct values as [|y vs]; [contradiction|]. simpl.
  destruct (Hfold vs (len y)) as [H1 H2]. intros [<-|Hv]; auto.
Qed.

Lemma longest_attained (values : list string) (min_chars : Z) :
  values <> [] -> exists v, In v values /\ longest values min_chars = len v.
Proof.
  assert (Hfold : forall vs m,
             foldl (fun m x => Z.max m (len x)) m vs = m
             \/ exists x, In x vs /\ foldl (fun m x => Z.max m (len x)) m vs = len x).
  { induction vs as [|y vs IH]; intros m; simpl; [now left|].
    destruct (IH (Z.max m (len y))) as [H|(x & Hx & H)].
    - destruct (Z.max_spec m (len y)) as [[_ E]|[_ E]]; rewrite E in *.
      + right. exists y. auto.
      + now left.
    - right. exists x. auto. }
  destruct values as [|y vs]; [contradiction|]. intros _. simpl.
  destruct (Hfold vs (len y)) as [H|(x & Hx & H)]; [exists y|exists x]; auto.
Qed.

(** The width set is never below [min_chars] and, with
    [min_chars <= max_chars], never above [max_chars].  It holds every
    value with two characters to spare, up to [max_chars]; when it is
    above [min_chars] it is that of the longest value.  For no value
    at all it is [min_chars + 2] when that fits. *)
Theorem combobox_width_bounds (values : list string) (min_chars max_chars : Z) :
  let width := _set_combobox_width values min_chars max_chars in
  min_chars <= width
  /\ (min_chars <= max_chars -> width <= max_chars)
  /\ (forall v, In v values -> Z.min (len v + 2) max_chars <= width)
  /\ (values <> [] ->
      min_chars < width ->
      exists v, In v values /\ width = Z.min (len v + 2) max_chars)
  /\ (values = [] -> min_chars + 2 <= max_chars -> width = min_chars + 2).
Proof.
  intros width. unfold width, _set_combobox_width.
  split; [lia|]. split; [lia|]. split; [|split].
  - intros v Hv. pose proof (longest_spec values min_chars v Hv). lia.
  - intros Hne Hlt. destruct (longest_attained values min_chars Hne) as (v & Hv & E).
    exists v. split; [exact Hv|]. rewrite E in *. lia.
  - intros ->. simpl. lia.
Qed.
